(** * crypto_trade_bot: a shallow embedding of the screening pipeline and of
      the trade-execution controller

    Embedded source files:
    - infra/client/http_client.go ([client]: Get, Post);
    - the KuCoin gateway ([gateway]: NewKuCoinGateway, GetCurrentPrice,
      GetKlines; [kucoin]: GetTop20USDTpairsByVolume, getAuthHeaders,
      CreateOrder);
    - interface/gateway/openai_gateway.go ([openai]: NewOpenAIGateway,
      AskAboutAssets);
    - the domain package ([domain]: Asset, CalculateROI);
    - usecase/trading_usecase.go ([usecase]: AnalyzeTrends, createAsset,
      ExecuteTrade);
    - infra/config/env.go ([config]: LoadEnv, GetEnv), the controller
      ([controller]: RunAnalysis, RunTrade) and the command ([cmd]: main).

    Conventions.
    - A Go [float64] is a [spec_float] of the standard library at precision 53
      and maximal exponent 1024, i.e. IEEE 754 binary64 with a single NaN.
    - A Go [(T, error)] result is a [result T]; an [error] is its message.
    - The outside world (network, exchange, clock) is an abstract state [W]
      threaded through every call; what the program logs, prints and asks of
      its collaborators is collected as a list of [Event]s, in program order.
    - The Go interfaces of the usecase and the foreign packages (fmt,
      strconv, encoding/json, net/http, go-talib) are type classes.
    - The goroutines of a scan are run one after the other, in the order of
      the pairs; the unbounded loop of a trade is run for a bounded number
      of turns. *)

From Stdlib Require Import ZArith List String Bool Lia.
From Stdlib Require Import Permutation Sorted.
From Stdlib Require Import Floats.SpecFloat.
Import ListNotations.
Local Open Scope string_scope.
Local Open Scope list_scope.
Local Open Scope Z_scope.

(** ** float64 *)

(** A Go [float64]. *)
Definition float : Type := spec_float.

Module F64.

Definition prec : Z := 53.
Definition emax : Z := 1024.

(** The float64 nearest to an integer constant. *)
Definition ofZ (z : Z) : float := binary_normalize prec emax z 0 false.

Definition add : float -> float -> float := SFadd prec emax.
Definition sub : float -> float -> float := SFsub prec emax.
Definition mul : float -> float -> float := SFmul prec emax.
Definition div : float -> float -> float := SFdiv prec emax.

(** Go's comparison operators on float64: every comparison with a NaN is
    false, and the two zeros are equal. *)
Definition eqb (x y : float) : bool := SFeqb x y.
Definition ltb (x y : float) : bool := SFltb x y.
Definition leb (x y : float) : bool := SFleb x y.
Definition gtb (x y : float) : bool := SFltb y x.
Definition geb (x y : float) : bool := SFleb y x.


(** Constants of the source. A decimal literal denotes the float64 nearest
    to it, which is the correctly rounded quotient of two integers. *)
Definition zero : float := S754_zero false.
Definition c0_99 : float := div (ofZ 99) (ofZ 100).
Definition c1_01 : float := div (ofZ 101) (ofZ 100).
Definition c30 : float := ofZ 30.
Definition c70 : float := ofZ 70.
Definition c100 : float := ofZ 100.

End F64.

(** ** Results, format arguments and events *)

Definition error := string.

Inductive result (A : Type) : Type :=
| Ok (a : A)
| Err (e : error).
Arguments Ok {A} a.
Arguments Err {A} e.

(** What [json.Unmarshal] stores in an [interface{}]. *)
#[warnings="-register-all"]
Inductive iface : Type :=
| INil
| IBool (b : bool)
| INum (x : float)
| IStr (s : string)
| IArr (l : list iface)
| IMap (l : list (string * iface)).

(** The arguments of the variadic formatting functions. *)
Inductive Arg : Type :=
| AStr (s : string)
| AStrs (l : list string)
| AInt (n : Z)
| AF64 (x : float)
| AErr (e : error)
| AAny (v : iface).

(** What the program does to the outside, in program order. A [Call...]
    event records one call of a collaborator's method with its result. *)
Inductive Event : Type :=
| LogPrintln (s : string)
| LogPrintf (format : string) (args : list Arg)
| LogFatalf (format : string) (args : list Arg)
| FmtPrintln (s : string)
| Sleep (seconds : Z)
| CallGetTop20USDTpairsByVolume (r : result (list string))
| CallGetCurrentPrice (symbol : string) (r : result float)
| CallCreateOrder (symbol side orderType size : string) (r : result string)
| CallGetKlines (symbol : string) (granularity count : Z)
    (r : result (list (list string)))
| CallAskAboutAssets (assetSymbols : list string) (side : string)
    (r : result string).

(** An order that the exchange accepted. *)
Definition isOrderOk (e : Event) : bool :=
  match e with
  | CallCreateOrder _ _ _ _ (Ok _) => true
  | _ => false
  end.

(** Kinds of events. *)
Definition isLog (e : Event) : bool :=
  match e with
  | LogPrintln _ | LogPrintf _ _ | FmtPrintln _ => true
  | _ => false
  end.

Definition isOrder (e : Event) : bool :=
  match e with
  | CallCreateOrder _ _ _ _ _ => true
  | _ => false
  end.

Definition isPriceCall (e : Event) : bool :=
  match e with
  | CallGetCurrentPrice _ _ => true
  | _ => false
  end.

Definition isSleep (e : Event) : bool :=
  match e with
  | Sleep _ => true
  | _ => false
  end.

Definition isAsk (e : Event) : bool :=
  match e with
  | CallAskAboutAssets _ _ _ => true
  | _ => false
  end.

Definition isKlinesCall (e : Event) : bool :=
  match e with
  | CallGetKlines _ _ _ _ => true
  | _ => false
  end.

(** The price histories asked for, in order. *)
Fixpoint klinesAsked (ev : list Event) : list (string * Z * Z) :=
  match ev with
  | [] => []
  | CallGetKlines symbol granularity count _ :: ev' =>
      (symbol, granularity, count) :: klinesAsked ev'
  | _ :: ev' => klinesAsked ev'
  end.

(** How a computation ends: with a value, with a run-time panic (an index
    out of range), or in [os.Exit]. A panic in any goroutine and [os.Exit]
    both end the process. *)
Inductive Res (A : Type) : Type :=
| Val (a : A)
| Panic
| Exit (code : Z).
Arguments Val {A} a.
Arguments Panic {A}.
Arguments Exit {A} code.

(** The monad of the embedding: state [W], a log of events, and [Res]. *)
Definition M (W A : Type) : Type := W -> Res A * W * list Event.

Definition ret {W A} (a : A) : M W A := fun w => (Val a, w, []).

Definition bind {W A B} (m : M W A) (k : A -> M W B) : M W B :=
  fun w =>
    match m w with
    | (Val a, w1, ev1) =>
        match k a w1 with
        | (r, w2, ev2) => (r, w2, ev1 ++ ev2)
        end
    | (Panic, w1, ev1) => (Panic, w1, ev1)
    | (Exit c, w1, ev1) => (Exit c, w1, ev1)
    end.

Definition emit {W} (e : Event) : M W unit := fun w => (Val tt, w, [e]).
Definition panic {W A} : M W A := fun w => (Panic, w, []).
Definition osExit {W A} (code : Z) : M W A := fun w => (Exit code, w, []).

(** A call of a collaborator: the world moves, the call is recorded. *)
Definition call {W A} (f : W -> result A * W) (ev : result A -> Event)
  : M W (result A) :=
  fun w => match f w with (r, w1) => (Val r, w1, [ev r]) end.

Declare Scope go_scope.
Delimit Scope go_scope with go.
Notation "x <- m ;; k" := (bind m (fun x => k))
  (at level 61, m at next level, right associativity) : go_scope.
Notation "' pat <- m ;; k" := (bind m (fun x => let 'pat := x in k))
  (at level 61, pat pattern, m at next level, right associativity) : go_scope.
Notation "m ;; k" := (bind m (fun _ => k))
  (at level 61, right associativity) : go_scope.

(** Go's [len] and index expression; [None] is the out-of-range panic. *)
Definition len {A} (l : list A) : Z := Z.of_nat (List.length l).

Definition index {A} (l : list A) (i : Z) : option A :=
  if (i <? 0)%Z then None else nth_error l (Z.to_nat i).

Definition at_ {W A} (l : list A) (i : Z) : M W A :=
  match index l i with
  | Some a => ret a
  | None => panic
  end.

Definition orPanic {W A} (o : option A) : M W A :=
  match o with
  | Some a => ret a
  | None => panic
  end.

(** The assignment [a[n] = x] on a slice, for [n] in range. *)
Fixpoint store {A} (a : list A) (n : nat) (x : A) : list A :=
  match a, n with
  | [], _ => []
  | _ :: t, O => x :: t
  | h :: t, S n' => h :: store t n' x
  end.

(** The loop [for i, j := 0, len(a)-1; i < j; i, j = i+1, j-1] that swaps
    [a[i]] and [a[j]], for at most [fuel] turns. *)
Fixpoint reverseFrom {A} (fuel : nat) (i j : Z) (a : list A)
  : option (list A) :=
  match fuel with
  | O => Some a
  | S fuel' =>
      if i <? j then
        match index a i, index a j with
        | Some x, Some y =>
            reverseFrom fuel' (i + 1) (j - 1)
              (store (store a (Z.to_nat i) y) (Z.to_nat j) x)
        | _, _ => None
        end
      else Some a
  end.

(** The loop takes fewer turns than the slice has elements. *)
Definition reverse {A} (a : list A) : option (list A) :=
  reverseFrom (List.length a) 0 (len a - 1) a.

Definition nl : string := String (Ascii.ascii_of_nat 10) EmptyString.

(** ** Foreign packages *)

(** The struct into which [GetCurrentPrice] decodes a response. *)
Record PriceResp : Type := mkPriceResp {
  priceResp_Code : string;
  priceResp_Data_Price : float
}.

(** The two structs into which [GetKlines] decodes a response. *)
Record KlineResp : Type := mkKlineResp {
  klineResp_Code : string;
  klineResp_Data : list (list string)
}.

Record RawKlineResp : Type := mkRawKlineResp {
  rawKlineResp_Code : string;
  rawKlineResp_Data : list (list iface)
}.

(** fmt, strconv and encoding/json. [Unmarshal_T body] is the value of a
    zero struct of type [T] after [json.Unmarshal(body, &v)], with the error
    returned (a field the document lacks keeps its zero value). *)
Class Foreign : Type := {
  Sprintf : string -> list Arg -> string;
  ParseFloat : string -> Z -> result float;
  Unmarshal_PriceResp : string -> PriceResp * option error;
  Unmarshal_KlineResp : string -> KlineResp * option error;
  Unmarshal_RawKlineResp : string -> RawKlineResp * option error
}.

(** github.com/markcheno/go-talib: the indicator engine. *)
Class Talib : Type := {
  Macd : list float -> Z -> Z -> Z -> list float * list float * list float;
  Rsi : list float -> Z -> list float
}.

(** [fmt.Errorf]: an error with the formatted message. *)
Definition Errorf {fg : Foreign} (format : string) (args : list Arg) : error :=
  Sprintf format args.

(** ** infra/client *)

Module client.

(** net/http: building the request, the round trip and reading the body. *)
Class Transport (W : Type) : Type := {
  roundTrip : string -> string -> list (string * string) -> option string
              -> W -> result string * W
}.

Section HTTPClient.
Context {W : Type} {tr : Transport W}.

(** [func (c *HTTPClient) Get(url, headers)] *)
Definition Get (url : string) (headers : list (string * string))
  : W -> result string * W :=
  roundTrip "GET" url headers None.

(** [func (c *HTTPClient) Post(url, headers, body)] *)
Definition Post (url : string) (headers : list (string * string))
  (body : string) : W -> result string * W :=
  roundTrip "POST" url headers (Some body).

End HTTPClient.

End client.

(** ** interface/gateway, the KuCoin gateway *)

Module gateway.

Record KuCoinGateway : Type := mkKuCoinGateway {
  baseURL : string;
  apiKey : string;
  apiSecret : string;
  passphrase : string
}.

(** [NewKuCoinGateway], over [config.GetEnv]. *)
Definition NewKuCoinGateway (GetEnv : string -> string -> string)
  : KuCoinGateway :=
  {| baseURL := "https://api-futures.kucoin.com";
     apiKey := GetEnv "KUCOIN_API_KEY" "";
     apiSecret := GetEnv "KUCOIN_API_SECRET" "";
     passphrase := GetEnv "KUCOIN_API_PASSPHRASE" "" |}.

Section Methods.
Context {W : Type} {fg : Foreign} {tr : client.Transport W}.
Variable g : KuCoinGateway.

(** [GetCurrentPrice]: the request, and what is made of the response. *)
Definition GetCurrentPrice_url (symbol : string) : string :=
  Sprintf "%s/api/v1/ticker?symbol=%s" [AStr (baseURL g); AStr symbol].

Definition GetCurrentPrice_decode (symbol respBody : string) : result float :=
  match Unmarshal_PriceResp respBody with
  | (_, Some err) =>
      Err (Errorf "failed to unmarshal price response for %s: %w"
             [AStr symbol; AErr err])
  | (priceResp, None) =>
      if negb (String.eqb (priceResp_Code priceResp) "200000")
      then Err (Errorf "KuCoin API error for price %s: %s"
                  [AStr symbol; AStr respBody])
      else Ok (priceResp_Data_Price priceResp)
  end.

Definition GetCurrentPrice (symbol : string) : W -> result float * W :=
  fun w =>
    match client.Get (GetCurrentPrice_url symbol) [] w with
    | (Err err, w1) =>
        (Err (Errorf "failed to get current price for %s: %w"
                [AStr symbol; AErr err]), w1)
    | (Ok respBody, w1) => (GetCurrentPrice_decode symbol respBody, w1)
    end.

(** [GetKlines]: [count] is a parameter of the method. *)
Definition GetKlines_url (symbol : string) (granularity count : Z) : string :=
  let endpoint :=
    Sprintf "/api/v1/kline/query?symbol=%s&granularity=%d"
      [AStr symbol; AInt granularity] in
  (baseURL g ++ endpoint)%string.

Definition GetKlines_check (symbol respBody : string) (klineResp : KlineResp)
  : result (list (list string)) :=
  if negb (String.eqb (klineResp_Code klineResp) "200000")
     && negb (String.eqb (klineResp_Code klineResp) "")
  then Err (Errorf "KuCoin API error for kline %s: %s"
              [AStr symbol; AStr respBody])
  else if (len (klineResp_Data klineResp) =? 0)%Z
  then Err (Errorf "no kline data returned for %s" [AStr symbol])
  else Ok (klineResp_Data klineResp).

Definition GetKlines_decode (symbol respBody : string)
  : result (list (list string)) :=
  match Unmarshal_KlineResp respBody with
  | (klineResp, None) => GetKlines_check symbol respBody klineResp
  | (klineResp, Some _) =>
      match Unmarshal_RawKlineResp respBody with
      | (_, Some err2) =>
          Err (Errorf "failed to unmarshal kline response for %s: %w"
                 [AStr symbol; AErr err2])
      | (rawKlineResp, None) =>
          if negb (String.eqb (rawKlineResp_Code rawKlineResp) "200000")
          then Err (Errorf "KuCoin API error for kline %s: %s"
                      [AStr symbol; AStr respBody])
          else
            let data :=
              map (map (fun v => Sprintf "%v" [AAny v]))
                (rawKlineResp_Data rawKlineResp) in
            GetKlines_check symbol respBody
              {| klineResp_Code := klineResp_Code klineResp;
                 klineResp_Data := data |}
      end
  end.

Definition GetKlines (symbol : string) (granularity count : Z)
  : W -> result (list (list string)) * W :=
  fun w =>
    match client.Get (GetKlines_url symbol granularity count) [] w with
    | (Err err, w1) =>
        (Err (Errorf "failed to get klines for %s: %w"
                [AStr symbol; AErr err]), w1)
    | (Ok respBody, w1) => (GetKlines_decode symbol respBody, w1)
    end.

End Methods.

End gateway.

(** ** domain *)

Module domain.

Record Asset : Type := mkAsset {
  Symbol : string;
  CurrentPrice : float;
  Price1H : float;
  PurchasePrice : float;
  Volume24H : float;
  MACD : float;
  RSI : float;
  LastUpdatedAt : Z
}.

(** [func (a *Asset) CalculateROI() float64] *)
Definition CalculateROI (a : Asset) : float :=
  if F64.eqb (Price1H a) F64.zero then F64.zero
  else F64.mul (F64.div (F64.sub (CurrentPrice a) (Price1H a)) (Price1H a))
         F64.c100.

End domain.

(** ** usecase *)

Module usecase.

Import domain.
Local Open Scope go_scope.

(** [type KuCoinGateway interface] *)
Class KuCoinGateway (W : Type) : Type := {
  GetTop20USDTpairsByVolume : W -> result (list string) * W;
  GetCurrentPrice : string -> W -> result float * W;
  CreateOrder : string -> string -> string -> string -> W -> result string * W;
  GetKlines : string -> Z -> Z -> W -> result (list (list string)) * W
}.

(** [type OpenAIGateway interface] *)
Class OpenAIGateway (W : Type) : Type := {
  AskAboutAssets : list string -> string -> W -> result string * W
}.

(** The five indicator values the trend decision reads. *)
Record Snapshot : Type := mkSnapshot {
  prevMacd : float;
  prevMacdSignal : float;
  lastMacd : float;
  lastMacdSignal : float;
  lastRsi : float
}.

(** Lines 96-98: the condition under which a long candidate is appended. *)
Definition isLongCandidate (s : Snapshot) : bool :=
  let isGoldenCross :=
    F64.ltb (prevMacd s) (prevMacdSignal s)
    && F64.gtb (lastMacd s) (lastMacdSignal s) in
  let isRsiNotOverbought := F64.ltb (lastRsi s) F64.c70 in
  isGoldenCross && isRsiNotOverbought.

(** Lines 107-109: the condition under which a short candidate is appended. *)
Definition isShortCandidate (s : Snapshot) : bool :=
  let isDeadCross :=
    F64.gtb (prevMacd s) (prevMacdSignal s)
    && F64.ltb (lastMacd s) (lastMacdSignal s) in
  let isRsiNotOversold := F64.gtb (lastRsi s) F64.c30 in
  isDeadCross && isRsiNotOversold.

Section Usecase.
Context {W : Type} {fg : Foreign} {ta : Talib}.
Context {kg : KuCoinGateway W} {og : OpenAIGateway W}.

(** [func createAsset(symbol, closePrices, macd, rsi) domain.Asset] *)
Definition createAsset (symbol : string) (closePrices : list float)
  (macd rsi : float) : M W Asset :=
  cur <- at_ closePrices (len closePrices - 1) ;;
  p1h <- at_ closePrices (len closePrices - 2) ;;
  ret {| Symbol := symbol;
         CurrentPrice := cur;
         Price1H := p1h;
         PurchasePrice := F64.zero;
         Volume24H := F64.zero;
         MACD := macd;
         RSI := rsi;
         LastUpdatedAt := 0 |}.

(** Lines 67-75: the close price of every candle, in the order received.
    The loop leaves the task at the first field that does not parse. *)
Inductive Closes : Type :=
| ClosesOk (closePrices : list float)
| ClosesErr (err : error)
| ClosesPanic.

Fixpoint parseCloses (klines : list (list string)) : Closes :=
  match klines with
  | [] => ClosesOk []
  | k :: rest =>
      match index k 2 with
      | None => ClosesPanic
      | Some field =>
          match ParseFloat field 64 with
          | Err err => ClosesErr err
          | Ok price =>
              match parseCloses rest with
              | ClosesOk prices => ClosesOk (price :: prices)
              | other => other
              end
          end
      end
  end.

(** Lines 88-92: the last two points of the MACD and signal series and the
    last point of the RSI series. *)
Definition readSnapshot (macd macdSignal rsi : list float) : M W Snapshot :=
  lastMacd <- at_ macd (len macd - 1) ;;
  lastMacdSignal <- at_ macdSignal (len macdSignal - 1) ;;
  prevMacd <- at_ macd (len macd - 2) ;;
  prevMacdSignal <- at_ macdSignal (len macdSignal - 2) ;;
  lastRsi <- at_ rsi (len rsi - 1) ;;
  ret {| prevMacd := prevMacd;
         prevMacdSignal := prevMacdSignal;
         lastMacd := lastMacd;
         lastMacdSignal := lastMacdSignal;
         lastRsi := lastRsi |}.

(** Lines 57-117: the body of the goroutine started for one pair. Its value
    is what the task appends to [longCandidates] and to [shortCandidates]. *)
Definition analyzePair (p : string) : M W (list Asset * list Asset) :=
  emit (LogPrintf "Analyzing %s..." [AStr p]) ;;
  r <- call (GetKlines p 60 100) (CallGetKlines p 60 100) ;;
  match r with
  | Err err =>
      emit (LogPrintf "Could not get klines for %s: %v" [AStr p; AErr err]) ;;
      ret ([], [])
  | Ok klines =>
      match parseCloses klines with
      | ClosesPanic => panic
      | ClosesErr err =>
          emit (LogPrintf "Could not parse close price for %s: %v"
                  [AStr p; AErr err]) ;;
          ret ([], [])
      | ClosesOk received =>
          closePrices <- orPanic (reverse received) ;;
          if len closePrices <? 26 then
            emit (LogPrintf "Not enough data for MACD calculation on %s"
                    [AStr p]) ;;
            ret ([], [])
          else
            let '(macd, macdSignal, _) := Macd closePrices 12 26 9 in
            let rsi := Rsi closePrices 14 in
            s <- readSnapshot macd macdSignal rsi ;;
            long <-
              (if isLongCandidate s then
                 asset <- createAsset p closePrices (lastMacd s) (lastRsi s) ;;
                 emit (LogPrintf "[LONG Candidate] %s: GoldenCross, RSI=%.2f"
                         [AStr p; AF64 (lastRsi s)]) ;;
                 ret [asset]
               else ret []) ;;
            short <-
              (if isShortCandidate s then
                 asset <- createAsset p closePrices (lastMacd s) (lastRsi s) ;;
                 emit (LogPrintf "[SHORT Candidate] %s: DeadCross, RSI=%.2f"
                         [AStr p; AF64 (lastRsi s)]) ;;
                 ret [asset]
               else ret []) ;;
            ret (long, short)
      end
  end.

(** Lines 55-120: one task per pair and the wait for all of them. The
    tasks are run one after the other, in the order of [pairs]; the source
    starts them concurrently and fixes no order among them, so the order is
    a choice of this model. *)
Fixpoint scanPairs (pairs : list string)
  (longCandidates shortCandidates : list Asset)
  : M W (list Asset * list Asset) :=
  match pairs with
  | [] => ret (longCandidates, shortCandidates)
  | p :: rest =>
      '(long, short) <- analyzePair p ;;
      scanPairs rest (longCandidates ++ long) (shortCandidates ++ short)
  end.

(** A task skips its pair: it logs [line] after the call that returned
    [r], appends nothing, and the scan goes on with the other pairs. *)
Definition skipsPair (p : string) (r : result (list (list string)))
  (line : Event) (w w1 : W) : Prop :=
  let ev1 := [LogPrintf "Analyzing %s..." [AStr p];
              CallGetKlines p 60 100 r; line] in
  analyzePair p w = (Val ([], []), w1, ev1) /\
  forall rest longCandidates shortCandidates,
    scanPairs (p :: rest) longCandidates shortCandidates w
    = match scanPairs rest longCandidates shortCandidates w1 with
      | (res, w2, ev2) => (res, w2, ev1 ++ ev2)
      end.

(** Lines 125-130 and 147-152: the description of each candidate. *)
Definition assetInfo (candidates : list Asset) : list string :=
  map (fun asset =>
         Sprintf "%s (ROI: %.2f%%, MACD: %.4f, RSI: %.2f)"
           [AStr (Symbol asset); AF64 (CalculateROI asset);
            AF64 (MACD asset); AF64 (RSI asset)])
    candidates.

Definition logInfos (infos : list string) : list Event :=
  map (fun info => LogPrintln ("- " ++ info)%string) infos.

Definition emits (evs : list Event) : M W unit := fun w => (Val tt, w, evs).

(** Lines 122-142. *)
Definition reportLong (longCandidates : list Asset) : M W unit :=
  if 0 <? len longCandidates then
    emit (LogPrintf (nl ++ "--- Found %d LONG candidates ---")%string
            [AInt (len longCandidates)]) ;;
    emits (logInfos (assetInfo longCandidates)) ;;
    emit (LogPrintln "Asking OpenAI for LONG analysis...") ;;
    r <- call (AskAboutAssets (assetInfo longCandidates) "buy")
           (CallAskAboutAssets (assetInfo longCandidates) "buy") ;;
    match r with
    | Err err =>
        emit (LogPrintf "Error getting LONG analysis from OpenAI: %v"
                [AErr err])
    | Ok analysis =>
        emit (FmtPrintln (nl ++ "--- OpenAI LONG Analysis ---")%string) ;;
        emit (FmtPrintln analysis) ;;
        emit (FmtPrintln "--------------------------")
    end
  else emit (LogPrintln (nl ++ "--- No LONG candidates found ---")%string).

(** Lines 144-164. *)
Definition reportShort (shortCandidates : list Asset) : M W unit :=
  if 0 <? len shortCandidates then
    emit (LogPrintf (nl ++ "--- Found %d SHORT candidates ---")%string
            [AInt (len shortCandidates)]) ;;
    emits (logInfos (assetInfo shortCandidates)) ;;
    emit (LogPrintln "Asking OpenAI for SHORT analysis...") ;;
    r <- call (AskAboutAssets (assetInfo shortCandidates) "sell")
           (CallAskAboutAssets (assetInfo shortCandidates) "sell") ;;
    match r with
    | Err err =>
        emit (LogPrintf "Error getting SHORT analysis from OpenAI: %v"
                [AErr err])
    | Ok analysis =>
        emit (FmtPrintln (nl ++ "--- OpenAI SHORT Analysis ---")%string) ;;
        emit (FmtPrintln analysis) ;;
        emit (FmtPrintln "---------------------------")
    end
  else emit (LogPrintln (nl ++ "--- No SHORT candidates found ---")%string).

(** [func (uc *TradingUsecase) AnalyzeTrends()] *)
Definition AnalyzeTrends : M W unit :=
  emit (LogPrintln "Fetching top 20 USDT pairs by volume...") ;;
  r <- call GetTop20USDTpairsByVolume CallGetTop20USDTpairsByVolume ;;
  match r with
  | Err err =>
      emit (LogFatalf "Error getting top pairs: %v" [AErr err]) ;;
      osExit 1
  | Ok pairs =>
      emit (LogPrintf ("Found pairs: %v" ++ nl)%string [AStrs pairs]) ;;
      '(longCandidates, shortCandidates) <- scanPairs pairs [] [] ;;
      reportLong longCandidates ;;
      reportShort shortCandidates
  end.

(** Lines 220-246: how one turn of the monitoring loop ends. *)
Inductive Turn : Type :=
| Continue
| Break.

(** The position after a turn: still open when the loop continues, closed
    when the loop is left. *)
Inductive Status : Type :=
| Open
| Closed.

Definition statusAfter (t : Turn) : Status :=
  match t with
  | Continue => Open
  | Break => Closed
  end.

(** Line 231: the profit-taking condition. *)
Definition targetReached (side : string) (latestPrice targetPrice : float)
  : bool :=
  (String.eqb side "buy" && F64.geb latestPrice targetPrice)
  || (String.eqb side "sell" && F64.leb latestPrice targetPrice).

(** Lines 232-235: the side of the closing order. *)
Definition closeSide (side : string) : string :=
  if String.eqb side "sell" then "buy" else "sell".

(** Lines 221-245: one turn of the [for] loop. *)
Definition monitorTurn (symbol side : string) (size targetPrice : float)
  : M W Turn :=
  emit (Sleep 30) ;;
  r <- call (GetCurrentPrice symbol) (CallGetCurrentPrice symbol) ;;
  match r with
  | Err err =>
      emit (LogPrintf "Could not get latest price for %s: %v"
              [AStr symbol; AErr err]) ;;
      ret Continue
  | Ok latestPrice =>
      emit (LogPrintf "Latest price for %s: %.4f"
              [AStr symbol; AF64 latestPrice]) ;;
      if targetReached side latestPrice targetPrice then
        emit (LogPrintf
                "Target price reached! Placing %s order to close position."
                [AStr (closeSide side)]) ;;
        let closeSizeStr := Sprintf "%f" [AF64 size] in
        r <- call (CreateOrder symbol (closeSide side) "market" closeSizeStr)
               (CallCreateOrder symbol (closeSide side) "market"
                  closeSizeStr) ;;
        match r with
        | Err err =>
            emit (LogPrintf "Failed to create %s order: %v"
                    [AStr (closeSide side); AErr err]) ;;
            ret Continue
        | Ok closeOrderID =>
            emit (LogPrintf
                    "%s order placed successfully. Order ID: %s. Exiting."
                    [AStr (closeSide side); AStr closeOrderID]) ;;
            ret Break
        end
      else ret Continue
  end.

(** Lines 220-246: the loop, for at most [fuel] turns; [None] when the loop
    is still running after them. *)
Fixpoint monitorLoop (fuel : nat) (symbol side : string)
  (size targetPrice : float) (w : W) : option (Res unit * W * list Event) :=
  match fuel with
  | O => None
  | S fuel' =>
      match monitorTurn symbol side size targetPrice w with
      | (Val Break, w1, ev1) => Some (Val tt, w1, ev1)
      | (Val Continue, w1, ev1) =>
          match monitorLoop fuel' symbol side size targetPrice w1 with
          | Some (r, w2, ev2) => Some (r, w2, ev1 ++ ev2)
          | None => None
          end
      | (Panic, w1, ev1) => Some (Panic, w1, ev1)
      | (Exit c, w1, ev1) => Some (Exit c, w1, ev1)
      end
  end.

(** Lines 179-218: everything before the loop. The value is [None] when
    the function has returned, and the size and the target price of the
    position when the loop is to be entered. *)
Definition enterTrade (symbol side : string) (amountUSD : float)
  (execute : bool) : M W (option (float * float)) :=
  if negb execute then
    emit (LogPrintln
            "Execute flag is not set. Exiting trade execution (Dry Run).") ;;
    ret None
  else if negb (String.eqb side "buy") && negb (String.eqb side "sell") then
    emit (LogPrintf "Invalid side: %s. Must be 'buy' or 'sell'." [AStr side]) ;;
    ret None
  else
    emit (LogPrintf "Starting trade execution for %s, side: %s, amount: %.2f USD"
            [AStr symbol; AStr side; AF64 amountUSD]) ;;
    r <- call (GetCurrentPrice symbol) (CallGetCurrentPrice symbol) ;;
    match r with
    | Err err =>
        emit (LogPrintf "Failed to get current price for %s: %v"
                [AStr symbol; AErr err]) ;;
        ret None
    | Ok currentPrice =>
        emit (LogPrintf "Current price of %s is %.4f USD"
                [AStr symbol; AF64 currentPrice]) ;;
        let size := F64.div amountUSD currentPrice in
        let sizeStr := Sprintf "%f" [AF64 size] in
        emit (LogPrintf "Placing market %s order for %s with size %s"
                [AStr side; AStr symbol; AStr sizeStr]) ;;
        r <- call (CreateOrder symbol side "market" sizeStr)
               (CallCreateOrder symbol side "market" sizeStr) ;;
        match r with
        | Err err =>
            emit (LogPrintf "Failed to create %s order: %v"
                    [AStr side; AErr err]) ;;
            ret None
        | Ok orderID =>
            emit (LogPrintf "%s order placed successfully. Order ID: %s"
                    [AStr side; AStr orderID]) ;;
            let entryPrice := currentPrice in
            emit (LogPrintf "Assumed entry price: %.4f" [AF64 entryPrice]) ;;
            if String.eqb side "buy" then
              let targetPrice := F64.mul entryPrice F64.c1_01 in
              emit (LogPrintf "Will place SELL order when price reaches >= %.4f"
                      [AF64 targetPrice]) ;;
              ret (Some (size, targetPrice))
            else
              let targetPrice := F64.mul entryPrice F64.c0_99 in
              emit (LogPrintf "Will place BUY order when price reaches <= %.4f"
                      [AF64 targetPrice]) ;;
              ret (Some (size, targetPrice))
        end
    end.

(** [func (uc *TradingUsecase) ExecuteTrade(symbol, side, amountUSD, execute)],
    its loop run for at most [fuel] turns. *)
Definition ExecuteTrade (fuel : nat) (symbol side : string)
  (amountUSD : float) (execute : bool) (w : W)
  : option (Res unit * W * list Event) :=
  match enterTrade symbol side amountUSD execute w with
  | (Val None, w1, ev1) => Some (Val tt, w1, ev1)
  | (Val (Some (size, targetPrice)), w1, ev1) =>
      match monitorLoop fuel symbol side size targetPrice w1 with
      | Some (r, w2, ev2) => Some (r, w2, ev1 ++ ev2)
      | None => None
      end
  | (Panic, w1, ev1) => Some (Panic, w1, ev1)
  | (Exit c, w1, ev1) => Some (Exit c, w1, ev1)
  end.

End Usecase.

End usecase.

(** ** interface/gateway, the rest of the KuCoin gateway *)

Module kucoin.

(** An element of [FuturesContractsResponse.Data]. *)
Record Contract : Type := mkContract {
  Symbol : string;
  Volume24h : float;
  IsDele : bool;
  Status : string;
  QuoteCurrency : string
}.

Record FuturesContractsResponse : Type := mkFuturesContractsResponse {
  Code : string;
  Data : list Contract
}.

(** The struct into which [CreateOrder] decodes a response. *)
Record OrderResp : Type := mkOrderResp {
  orderResp_Code : string;
  orderResp_Data_OrderID : string;
  orderResp_Msg : string
}.

(** encoding/json on the structs and on the map of an order. *)
Class Json : Type := {
  Unmarshal_FuturesContractsResponse
    : string -> FuturesContractsResponse * option error;
  Marshal_map : list (string * string) -> result string;
  Unmarshal_OrderResp : string -> OrderResp * option error
}.

(** [sort.Slice], with the order given on the elements. *)
Class Sort : Type := {
  Slice : forall A : Type, (A -> A -> bool) -> list A -> list A
}.

(** crypto/hmac with crypto/sha256, and encoding/base64. *)
Class Crypto : Type := {
  hmacSha256 : string -> string -> string;
  base64Encode : string -> string
}.

(** [time.Now()], read in nanoseconds and in milliseconds. *)
Class Clock (W : Type) : Type := {
  UnixNano : W -> Z * W;
  UnixMilli : W -> Z * W
}.

Section Methods.
Context {W : Type} {fg : Foreign} {js : Json} {so : Sort} {cr : Crypto}.
Context {tr : client.Transport W} {cl : Clock W}.
Variable g : gateway.KuCoinGateway.

(** Lines 73-77: the contracts that are open, not delisted and quoted in
    USDT, with their volumes. *)
Definition eligible (c : Contract) : bool :=
  String.eqb (Status c) "Open" && negb (IsDele c)
  && String.eqb (QuoteCurrency c) "USDT".

Definition usdtContracts (data : list Contract) : list (string * float) :=
  map (fun c => (Symbol c, Volume24h c)) (filter eligible data).

(** Lines 80-82: the order handed to [sort.Slice]. *)
Definition byVolume (a b : string * float) : bool :=
  F64.gtb (snd a) (snd b).

(** Lines 84-90: the symbols of the first 20. *)
Definition top20 (sorted : list (string * float)) : list string :=
  map fst (firstn 20 sorted).

Definition GetTop20USDTpairsByVolume_decode (respBody : string)
  : result (list string) :=
  match Unmarshal_FuturesContractsResponse respBody with
  | (_, Some err) =>
      Err (Errorf "failed to unmarshal contracts response: %w" [AErr err])
  | (contractsResp, None) =>
      if negb (String.eqb (Code contractsResp) "200000")
      then Err (Errorf "KuCoin API error: %s" [AStr respBody])
      else Ok (top20 (Slice _ byVolume (usdtContracts (Data contractsResp))))
  end.

(** [func (g *KuCoinGateway) GetTop20USDTpairsByVolume()] *)
Definition GetTop20USDTpairsByVolume : W -> result (list string) * W :=
  fun w =>
    let url := Sprintf "%s/api/v1/contracts/active" [AStr (gateway.baseURL g)] in
    match client.Get url [] w with
    | (Err err, w1) =>
        (Err (Errorf "failed to get active contracts: %w" [AErr err]), w1)
    | (Ok respBody, w1) => (GetTop20USDTpairsByVolume_decode respBody, w1)
    end.

(** [func (g *KuCoinGateway) getAuthHeaders(method, endpoint, body)] *)
Definition getAuthHeaders (method endpoint body : string)
  : W -> list (string * string) * W :=
  fun w =>
    match UnixMilli w with
    | (ms, w1) =>
        let timestamp := Sprintf "%d" [AInt ms] in
        let strToSign := (timestamp ++ method ++ endpoint ++ body)%string in
        let signature :=
          base64Encode (hmacSha256 (gateway.apiSecret g) strToSign) in
        let passphraseSignature :=
          base64Encode
            (hmacSha256 (gateway.apiSecret g) (gateway.passphrase g)) in
        ([("KC-API-KEY", gateway.apiKey g);
          ("KC-API-SIGN", signature);
          ("KC-API-TIMESTAMP", timestamp);
          ("KC-API-PASSPHRASE", passphraseSignature);
          ("KC-API-KEY-VERSION", "2");
          ("Content-Type", "application/json")], w1)
    end.

Definition CreateOrder_decode (respBody : string) : result string :=
  match Unmarshal_OrderResp respBody with
  | (_, Some _) =>
      Err (Errorf "failed to unmarshal order response: %s" [AStr respBody])
  | (orderResp, None) =>
      if negb (String.eqb (orderResp_Code orderResp) "200000")
      then Err (Errorf "failed to create order on KuCoin: %s"
                  [AStr (orderResp_Msg orderResp)])
      else Ok (orderResp_Data_OrderID orderResp)
  end.

(** [func (g *KuCoinGateway) CreateOrder(symbol, side, orderType, size)] *)
Definition CreateOrder (symbol side orderType size : string)
  : W -> result string * W :=
  fun w =>
    let endpoint := "/api/v1/orders" in
    let url := (gateway.baseURL g ++ endpoint)%string in
    match UnixNano w with
    | (ns, w1) =>
        let reqBodyMap :=
          [("clientOid", Sprintf "%d" [AInt ns]);
           ("symbol", symbol);
           ("side", side);
           ("type", orderType);
           ("leverage", "1");
           ("size", size)] in
        match Marshal_map reqBodyMap with
        | Err err =>
            (Err (Errorf "failed to marshal order request body: %w"
                    [AErr err]), w1)
        | Ok reqBody =>
            match getAuthHeaders "POST" endpoint reqBody w1 with
            | (headers, w2) =>
                match client.Post url headers reqBody w2 with
                | (Err err, w3) =>
                    (Err (Errorf "failed to create order: %w" [AErr err]), w3)
                | (Ok respBody, w3) => (CreateOrder_decode respBody, w3)
                end
            end
        end
    end.

(** The gateway as the collaborator of the usecase. *)
Definition asUsecase : usecase.KuCoinGateway W :=
  {| usecase.GetTop20USDTpairsByVolume := GetTop20USDTpairsByVolume;
     usecase.GetCurrentPrice := gateway.GetCurrentPrice g;
     usecase.CreateOrder := CreateOrder;
     usecase.GetKlines := gateway.GetKlines g |}.

End Methods.

End kucoin.

(** ** interface/gateway, the OpenAI gateway *)

Module openai.

Record OpenAIGateway : Type := mkOpenAIGateway {
  apiKey : string;
  baseURL : string
}.

(** [NewOpenAIGateway], over [config.GetEnv]. *)
Definition NewOpenAIGateway (GetEnv : string -> string -> string)
  : OpenAIGateway :=
  {| apiKey := GetEnv "OPENAI_API_KEY" "";
     baseURL := "https://api.openai.com/v1" |}.

Record Message : Type := mkMessage {
  Role : string;
  Content : string
}.

Record OpenAIRequest : Type := mkOpenAIRequest {
  Model : string;
  Messages : list Message
}.

(** [OpenAIResponse]: the content of the message of every choice. *)
Record OpenAIResponse : Type := mkOpenAIResponse {
  Choices : list string
}.

(** encoding/json on the two structs. *)
Class Json : Type := {
  Marshal_OpenAIRequest : OpenAIRequest -> result string;
  Unmarshal_OpenAIResponse : string -> OpenAIResponse * option error
}.

(** [strings.Join] *)
Definition Join (elems : list string) (sep : string) : string :=
  String.concat sep elems.

(** The two prompts, up to the two line feeds and the verb that end them. *)
Definition promptBuy : string :=
  "以下の通貨ペアが、MACDのゴールデンクロスとRSIが70未満という条件で抽出されました。これらは上昇トレンドの可能性があります。これらのテクニカル指標を考慮した上で、今後さらに上昇が期待できる通貨はどれですか？理由も添えて、最も有望なものを1つか2つに絞って教えてください。".

Definition promptSell : string :=
  "以下の通貨ペアが、MACDのデッドクロスとRSIが30以上という条件で抽出されました。これらは下降トレンドの可能性があります。これらのテクニカル指標を考慮した上で、今後さらに下落が期待できる（ショートポジションが有効な）通貨はどれですか？理由も添えて、最も有望なものを1つか2つに絞って教えてください。".

Section Methods.
Context {W : Type} {fg : Foreign} {js : Json} {tr : client.Transport W}.
Variable g : OpenAIGateway.

(** Lines 55-68 of the gateway: the prompt for a side. *)
Definition promptFor (assetSymbols : list string) (side : string)
  : result string :=
  if String.eqb side "buy" then
    Ok (Sprintf (promptBuy ++ nl ++ nl ++ "%s")%string
          [AStr (Join assetSymbols nl)])
  else if String.eqb side "sell" then
    Ok (Sprintf (promptSell ++ nl ++ nl ++ "%s")%string
          [AStr (Join assetSymbols nl)])
  else Err (Errorf "invalid side for OpenAI prompt: %s" [AStr side]).

Definition requestFor (prompt : string) : OpenAIRequest :=
  {| Model := "gpt-3.5-turbo";
     Messages := [{| Role := "user"; Content := prompt |}] |}.

Definition headers : list (string * string) :=
  [("Content-Type", "application/json");
   ("Authorization", ("Bearer " ++ apiKey g)%string)].

(** [func (g *OpenAIGateway) AskAboutAssets(assetSymbols, side)] *)
Definition AskAboutAssets (assetSymbols : list string) (side : string)
  : W -> result string * W :=
  fun w =>
    if String.eqb (apiKey g) "" then
      (Err (Errorf
              "OPENAI_API_KEY is not set. Please create a .env file and add your API key"
              []), w)
    else
      match promptFor assetSymbols side with
      | Err err => (Err err, w)
      | Ok prompt =>
          match Marshal_OpenAIRequest (requestFor prompt) with
          | Err err =>
              (Err (Errorf "failed to marshal openai request: %w" [AErr err]),
               w)
          | Ok requestBody =>
              let url := Sprintf "%s/chat/completions" [AStr (baseURL g)] in
              match client.Post url headers requestBody w with
              | (Err err, w1) =>
                  (Err (Errorf "failed to post to openai: %w" [AErr err]), w1)
              | (Ok respBody, w1) =>
                  match Unmarshal_OpenAIResponse respBody with
                  | (_, Some err) =>
                      (Err (Errorf "failed to unmarshal openai response: %w"
                              [AErr err]), w1)
                  | (openAIResp, None) =>
                      match Choices openAIResp with
                      | content :: _ => (Ok content, w1)
                      | [] => (Ok "No response from OpenAI.", w1)
                      end
                  end
              end
          end
      end.

(** The gateway as the collaborator of the usecase. *)
Definition asUsecase : usecase.OpenAIGateway W :=
  {| usecase.AskAboutAssets := AskAboutAssets |}.

End Methods.

End openai.

(** ** infra/config *)

Module config.

(** The environment of the process: [os.LookupEnv], and [godotenv.Load],
    which may change it. *)
Class Environ (W : Type) : Type := {
  LookupEnv : string -> W -> option string;
  godotenvLoad : W -> option error * W
}.

Section Env.
Context {W : Type} {en : Environ W}.

(** [func LoadEnv()] *)
Definition LoadEnv : M W unit :=
  fun w =>
    match godotenvLoad w with
    | (Some _, w1) =>
        (Val tt, w1,
         [LogPrintln "No .env file found, using environment variables"])
    | (None, w1) => (Val tt, w1, [])
    end.

(** [func GetEnv(key, fallback string) string], in the world [w]. *)
Definition GetEnv (w : W) (key fallback : string) : string :=
  match LookupEnv key w with
  | Some value => value
  | None => fallback
  end.

End Env.

End config.

(** ** interface/controller *)

Module controller.

Section CLIController.
Context {W : Type} {fg : Foreign} {ta : Talib}.
Context {kg : usecase.KuCoinGateway W} {og : usecase.OpenAIGateway W}.

(** [func (c *CLIController) RunAnalysis()] *)
Definition RunAnalysis : M W unit := usecase.AnalyzeTrends.

(** [func (c *CLIController) RunTrade(symbol, side, amountUSD, execute)] *)
Definition RunTrade (fuel : nat) (symbol side : string) (amountUSD : float)
  (execute : bool) : W -> option (Res unit * W * list Event) :=
  usecase.ExecuteTrade fuel symbol side amountUSD execute.

End CLIController.

End controller.

(** ** The command *)

Module cmd.

(** The flags of the command line, as parsed. *)
Record Flags : Type := mkFlags {
  trade : bool;
  symbol : string;
  side : string;
  amount : float;
  execute : bool
}.

(** The values of the flags that are not given. *)
Definition defaults : Flags :=
  {| trade := false;
     symbol := "BTC-USDT";
     side := "buy";
     amount := F64.ofZ 10;
     execute := false |}.

Section Main.
Context {W : Type} {fg : Foreign} {ta : Talib}.
Context {kj : kucoin.Json} {so : kucoin.Sort} {cr : kucoin.Crypto}.
Context {oj : openai.Json}.
Context {tr : client.Transport W} {cl : kucoin.Clock W}.
Context {en : config.Environ W}.

(** [func main()], after [flag.Parse]; the loop of a trade is run for at
    most [fuel] turns. *)
Definition main (fuel : nat) (flags : Flags)
  : W -> option (Res unit * W * list Event) :=
  fun w =>
    match config.LoadEnv w with
    | (_, w1, ev0) =>
        let kucoinGateway := gateway.NewKuCoinGateway (config.GetEnv w1) in
        let openaiGateway := openai.NewOpenAIGateway (config.GetEnv w1) in
        let kg := kucoin.asUsecase kucoinGateway in
        let og := openai.asUsecase openaiGateway in
        if trade flags then
          match controller.RunTrade (kg := kg) fuel
                  (symbol flags) (side flags) (amount flags) (execute flags)
                  w1 with
          | Some (r, w2, ev) =>
              Some (r, w2, ev0 ++ LogPrintln "--- Trade Mode ---" :: ev)
          | None => None
          end
        else
          match controller.RunAnalysis (kg := kg) (og := og) w1 with
          | (r, w2, ev) =>
              Some (r, w2, ev0 ++ LogPrintln "--- Analysis Mode ---" :: ev)
          end
    end.

End Main.

End cmd.

(** ** A scripted world

    Every collaborator answers from a queue of prepared results, and fails
    once its queue is empty. The instances below are used to run the
    embedding on concrete inputs. *)

Module Script.

Record World : Type := mkWorld {
  top20 : list (result (list string));
  prices : list (result float);
  orders : list (result string);
  klines : list (result (list (list string)));
  answers : list (result string);
  bodies : list (result string)
}.

Definition pop {A} (q : list (result A)) : result A * list (result A) :=
  match q with
  | [] => (Err "no response", [])
  | r :: q' => (r, q')
  end.

#[global] Instance kucoin : usecase.KuCoinGateway World := {|
  usecase.GetTop20USDTpairsByVolume := fun w =>
    let '(r, q) := pop (top20 w) in
    (r, mkWorld q (prices w) (orders w) (klines w) (answers w) (bodies w));
  usecase.GetCurrentPrice := fun _ w =>
    let '(r, q) := pop (prices w) in
    (r, mkWorld (top20 w) q (orders w) (klines w) (answers w) (bodies w));
  usecase.CreateOrder := fun _ _ _ _ w =>
    let '(r, q) := pop (orders w) in
    (r, mkWorld (top20 w) (prices w) q (klines w) (answers w) (bodies w));
  usecase.GetKlines := fun _ _ _ w =>
    let '(r, q) := pop (klines w) in
    (r, mkWorld (top20 w) (prices w) (orders w) q (answers w) (bodies w))
|}.

#[global] Instance openai : usecase.OpenAIGateway World := {|
  usecase.AskAboutAssets := fun _ _ w =>
    let '(r, q) := pop (answers w) in
    (r, mkWorld (top20 w) (prices w) (orders w) (klines w) q (bodies w))
|}.

#[global] Instance transport : client.Transport World := {|
  client.roundTrip := fun _ _ _ _ w =>
    let '(r, q) := pop (bodies w) in
    (r, mkWorld (top20 w) (prices w) (orders w) (klines w) (answers w) q)
|}.

(** A decimal numeral without sign, point or exponent. *)
Fixpoint digits (s : string) (acc : Z) : option Z :=
  match s with
  | EmptyString => Some acc
  | String c s' =>
      let n := Z.of_nat (Ascii.nat_of_ascii c) in
      if (48 <=? n) && (n <=? 57) then digits s' (10 * acc + (n - 48))
      else None
  end.

Definition parseDigits (s : string) (bitSize : Z) : result float :=
  match s with
  | EmptyString => Err "invalid syntax"
  | _ =>
      match digits s 0 with
      | Some n => Ok (F64.ofZ n)
      | None => Err "invalid syntax"
      end
  end.

(** A formatter that keeps the format and drops the arguments, and decoders
    that read the whole body as the status code. *)
#[global] Instance foreign : Foreign := {|
  Sprintf := fun format _ => format;
  ParseFloat := parseDigits;
  Unmarshal_PriceResp := fun body => (mkPriceResp body F64.zero, None);
  Unmarshal_KlineResp := fun body => (mkKlineResp body [], None);
  Unmarshal_RawKlineResp := fun body => (mkRawKlineResp body [], None)
|}.

(** An indicator engine for the runs: the MACD line is the price series,
    the signal line is constantly 5 and the RSI is constantly 50. *)
#[global] Instance talib : Talib := {|
  Macd := fun inReal _ _ _ =>
    (inReal, map (fun _ => F64.ofZ 5) inReal, inReal);
  Rsi := fun inReal _ => map (fun _ => F64.ofZ 50) inReal
|}.

Definition idle : World := mkWorld [] [] [] [] [] [].

(** A candle whose close price is [close]. *)
Definition candle (close : string) : list string :=
  ["1700000000000"; "1"; close; "1"; "1"; "1"].

(** The indicator engine of the runs reads the last two prices as the last
    two MACD values, against a signal of 5. A history of 26 candles, newest
    first, whose two newest close prices are [last] and [prev]: *)
Definition history (last prev : string) : list (list string) :=
  candle last :: candle prev :: repeat (candle "5") 24.

Definition asset (symbol : string) (cur p1h : Z) : domain.Asset :=
  domain.mkAsset symbol (F64.ofZ cur) (F64.ofZ p1h) F64.zero F64.zero
    (F64.ofZ cur) (F64.ofZ 50) 0.

(** The close prices of [history last prev], as parsed. *)
Definition closes (last prev : Z) : list float :=
  F64.ofZ last :: F64.ofZ prev :: repeat (F64.ofZ 5) 24.

(** Worlds in which only one kind of collaborator has answers. *)
Definition withTop20 (q : list (result (list string))) : World :=
  mkWorld q [] [] [] [] [].

Definition withKlines (q : list (result (list (list string)))) : World :=
  mkWorld [] [] [] q [] [].

Definition withExchange (ps : list (result float)) (os : list (result string))
  : World :=
  mkWorld [] ps os [] [] [].

Definition withBodies (q : list (result string)) : World :=
  mkWorld [] [] [] [] [] q.

End Script.

(** ** The gateways over the scripted transport

    Codecs, a sort, a signature and a clock with which the gateways run on
    the bodies of the scripted world. *)

Module Wire.

(** The contracts that every listing of the runs decodes to. *)
Definition listing : list kucoin.Contract :=
  [kucoin.mkContract "XBTUSDTM" (F64.ofZ 5) false "Open" "USDT";
   kucoin.mkContract "ETHUSDTM" (F64.ofZ 9) false "Open" "USDT";
   kucoin.mkContract "XRPUSDTM" (F64.ofZ 7) true "Open" "USDT";
   kucoin.mkContract "SOLUSDM" (F64.ofZ 8) false "Open" "USD";
   kucoin.mkContract "ADAUSDTM" (F64.ofZ 6) false "Paused" "USDT";
   kucoin.mkContract "DOTUSDTM" (F64.ofZ 3) false "Open" "USDT"].

(** Decoders that read the whole body as the status code, and an encoder
    that joins the values of the map. *)
#[global] Instance json : kucoin.Json := {|
  kucoin.Unmarshal_FuturesContractsResponse := fun body =>
    (kucoin.mkFuturesContractsResponse body listing, None);
  kucoin.Marshal_map := fun fields => Ok (String.concat "," (map snd fields));
  kucoin.Unmarshal_OrderResp := fun body =>
    (kucoin.mkOrderResp body "order-1" "rejected", None)
|}.

(** An insertion sort. *)
Fixpoint insert {A} (less : A -> A -> bool) (x : A) (l : list A) : list A :=
  match l with
  | [] => [x]
  | y :: l' => if less y x then y :: insert less x l' else x :: l
  end.

Definition insertionSort {A} (less : A -> A -> bool) (l : list A) : list A :=
  fold_right (insert less) [] l.

#[global] Instance sort : kucoin.Sort := {|
  kucoin.Slice := @insertionSort
|}.

(** A signature that shows what it signs. *)
#[global] Instance crypto : kucoin.Crypto := {|
  kucoin.hmacSha256 := fun key message => (key ++ ":" ++ message)%string;
  kucoin.base64Encode := fun s => s
|}.

(** A clock that stands still. *)
#[global] Instance clock : kucoin.Clock Script.World := {|
  kucoin.UnixNano := fun w => (1700000000000000000, w);
  kucoin.UnixMilli := fun w => (1700000000000, w)
|}.

(** The request is encoded as its prompt; a body is decoded as its only
    choice, and the empty body as no choice. *)
#[global] Instance openaiJson : openai.Json := {|
  openai.Marshal_OpenAIRequest := fun request =>
    Ok (String.concat "" (map openai.Content (openai.Messages request)));
  openai.Unmarshal_OpenAIResponse := fun body =>
    (openai.mkOpenAIResponse
       (match body with EmptyString => [] | _ => [body] end), None)
|}.

(** An environment of the process given by its variables, which
    [godotenv.Load] leaves as they are; [dotenv] tells whether the file
    is found. *)
Fixpoint lookup (key : string) (vars : list (string * string))
  : option string :=
  match vars with
  | [] => None
  | (k, v) :: vars' => if String.eqb k key then Some v else lookup key vars'
  end.

Definition environ (vars : list (string * string)) (dotenv : bool)
  : config.Environ Script.World := {|
  config.LookupEnv := fun key _ => lookup key vars;
  config.godotenvLoad := fun w =>
    (if dotenv then None else Some "open .env: no such file or directory", w)
|}.

(** The scripted transport, but refusing every request other than a GET. *)
Definition getOnly : client.Transport Script.World := {|
  client.roundTrip := fun method url headers body w =>
    if String.eqb method "GET"
    then client.roundTrip (Transport := Script.transport)
           method url headers body w
    else (Err "refused", w)
|}.

(** The scripted exchange, but refusing every ticker lookup and order. *)
Definition readOnly : usecase.KuCoinGateway Script.World := {|
  usecase.GetTop20USDTpairsByVolume :=
    usecase.GetTop20USDTpairsByVolume (KuCoinGateway := Script.kucoin);
  usecase.GetCurrentPrice := fun _ w => (Err "refused", w);
  usecase.CreateOrder := fun _ _ _ _ w => (Err "refused", w);
  usecase.GetKlines := usecase.GetKlines (KuCoinGateway := Script.kucoin)
|}.

End Wire.

(** * Properties *)

(** ** float64 comparisons *)

Lemma SFcompare_antisym (x y : float) :
  SFcompare y x = option_map CompOpp (SFcompare x y).
Proof.
  destruct x as [sx | sx | | sx mx ex], y as [sy | sy | | sy my ey];
    cbn; try reflexivity;
    try (destruct sx; reflexivity);
    try (destruct sy; reflexivity);
    try (destruct sx, sy; reflexivity).
  destruct sx, sy; cbn; try reflexivity;
    rewrite (Z.compare_antisym ex ey);
    destruct (Z.compare ex ey); cbn; try reflexivity;
    f_equal;
    rewrite (Pos.compare_cont_antisym mx my Eq); reflexivity.
Qed.

Lemma ltb_asym (x y : float) : F64.ltb x y = true -> F64.ltb y x = false.
Proof.
  unfold F64.ltb, SFltb. rewrite (SFcompare_antisym x y).
  destruct (SFcompare x y) as [[ | | ] | ]; cbn; congruence.
Qed.

Lemma ltb_leb (x y : float) : F64.ltb x y = true -> F64.leb x y = true.
Proof.
  unfold F64.ltb, F64.leb, SFltb, SFleb.
  destruct (SFcompare x y) as [[ | | ] | ]; cbn; congruence.
Qed.

Lemma eqb_not_ltb (x y : float) :
  F64.eqb x y = true -> F64.ltb x y = false /\ F64.gtb x y = false.
Proof.
  unfold F64.eqb, F64.ltb, F64.gtb, SFeqb, SFltb.
  rewrite (SFcompare_antisym x y).
  destruct (SFcompare x y) as [[ | | ] | ]; cbn; intuition congruence.
Qed.

(** [x == 0] holds of the two zeros and of nothing else. *)
Lemma eqb_zero (x : float) :
  F64.eqb x F64.zero = true <-> exists s, x = S754_zero s.
Proof.
  split.
  - destruct x as [s | s | | s m e]; cbn; try discriminate.
    + intros _. now exists s.
    + destruct s; discriminate.
    + destruct s; discriminate.
  - intros [s ->]. reflexivity.
Qed.


(** ** The trend decision *)

Lemma long_excludes_short (s : usecase.Snapshot) :
  usecase.isLongCandidate s = true -> usecase.isShortCandidate s = false.
Proof.
  unfold usecase.isLongCandidate, usecase.isShortCandidate, F64.gtb.
  intros Hl.
  apply andb_true_iff in Hl as [Hcross _].
  apply andb_true_iff in Hcross as [_ Hlast].
  rewrite (ltb_asym _ _ Hlast), andb_false_r. reflexivity.
Qed.

Lemma isLongCandidate_spec (s : usecase.Snapshot) :
  usecase.isLongCandidate s = true <->
  F64.ltb (usecase.prevMacd s) (usecase.prevMacdSignal s) = true /\
  F64.gtb (usecase.lastMacd s) (usecase.lastMacdSignal s) = true /\
  F64.ltb (usecase.lastRsi s) F64.c70 = true.
Proof.
  unfold usecase.isLongCandidate. rewrite !andb_true_iff. tauto.
Qed.

Lemma isShortCandidate_spec (s : usecase.Snapshot) :
  usecase.isShortCandidate s = true <->
  F64.gtb (usecase.prevMacd s) (usecase.prevMacdSignal s) = true /\
  F64.ltb (usecase.lastMacd s) (usecase.lastMacdSignal s) = true /\
  F64.gtb (usecase.lastRsi s) F64.c30 = true.
Proof.
  unfold usecase.isShortCandidate. rewrite !andb_true_iff. tauto.
Qed.

(** A candidate by the strict crossover also meets the rule with the weak
    inequalities on the previous values. *)
Lemma isLongCandidate_weak_cross (s : usecase.Snapshot) :
  usecase.isLongCandidate s = true ->
  F64.leb (usecase.prevMacd s) (usecase.prevMacdSignal s) = true /\
  F64.gtb (usecase.lastMacd s) (usecase.lastMacdSignal s) = true /\
  F64.ltb (usecase.lastRsi s) F64.c70 = true.
Proof.
  intros (Hp & Hl & Hr)%isLongCandidate_spec. auto using ltb_leb.
Qed.

Lemma isShortCandidate_weak_cross (s : usecase.Snapshot) :
  usecase.isShortCandidate s = true ->
  F64.geb (usecase.prevMacd s) (usecase.prevMacdSignal s) = true /\
  F64.ltb (usecase.lastMacd s) (usecase.lastMacdSignal s) = true /\
  F64.gtb (usecase.lastRsi s) F64.c30 = true.
Proof.
  intros (Hp & Hl & Hr)%isShortCandidate_spec.
  unfold F64.geb, F64.gtb in *. auto using ltb_leb.
Qed.

(** ** Indexing *)

Lemma index_Some {A} (l : list A) (i : Z) :
  0 <= i < len l -> exists a, index l i = Some a.
Proof.
  unfold index, len. intros Hi.
  destruct (Z.ltb_spec i 0) as [Hneg | _]; [lia | ].
  destruct (nth_error l (Z.to_nat i)) as [a | ] eqn:Hn.
  - now exists a.
  - apply nth_error_None in Hn. lia.
Qed.

Lemma at_Some {W A} (l : list A) (i : Z) (a : A) (w : W) :
  index l i = Some a -> at_ l i w = (Val a, w, []).
Proof. unfold at_. now intros ->. Qed.

Lemma at_cases {W A} (l : list A) (i : Z) (w : W) :
  at_ l i w = (Panic, w, []) \/ exists a, at_ l i w = (Val a, w, []).
Proof.
  unfold at_. destruct (index l i) as [a | ]; [right; now exists a | now left].
Qed.

Lemma len_rev {A} (l : list A) : len (rev l) = len l.
Proof. unfold len. now rewrite length_rev. Qed.

(** ** The reversal in place *)

Lemma index_app_mid {A} (pre : list A) x post :
  index (pre ++ x :: post) (len pre) = Some x.
Proof.
  unfold index, len.
  destruct (Z.ltb_spec (Z.of_nat (List.length pre)) 0) as [H | _]; [lia | ].
  rewrite Nat2Z.id, nth_error_app2, Nat.sub_diag by lia. reflexivity.
Qed.

Lemma store_app_mid {A} (pre : list A) x y post :
  store (pre ++ x :: post) (List.length pre) y = pre ++ y :: post.
Proof.
  induction pre as [ | h pre IH]; cbn; [reflexivity | now rewrite IH].
Qed.

(** With [i] elements before the middle part and [j] at its last element,
    the loop reverses the middle part and nothing else. *)
Lemma reverseFrom_middle {A} (fuel : nat) :
  forall (pre mid post : list A),
    (List.length mid <= 2 * fuel)%nat ->
    reverseFrom fuel (len pre) (len pre + len mid - 1) (pre ++ mid ++ post)
    = Some (pre ++ rev mid ++ post).
Proof.
  induction fuel as [ | fuel IH]; intros pre mid post Hfuel.
  - destruct mid; [reflexivity | cbn in Hfuel; lia].
  - cbn [reverseFrom].
    destruct mid as [ | x mid];
      [ | destruct (exists_last (l := x :: mid)) as (mid0 & y & E);
          [discriminate | ]].
    + unfold len at 3. cbn.
      destruct (Z.ltb_spec (len pre) (len pre + 0 - 1)); [lia | reflexivity].
    + destruct mid0 as [ | x0 mid0].
      * cbn in E. injection E as -> ->. unfold len at 3. cbn.
        destruct (Z.ltb_spec (len pre) (len pre + 1 - 1));
          [lia | reflexivity].
      * cbn in E. injection E as <- ->.
        assert (len (x :: mid0 ++ [y]) = len mid0 + 2) as Hlen
          by (unfold len; cbn; rewrite length_app; cbn; lia).
        rewrite Hlen.
        destruct (Z.ltb_spec (len pre) (len pre + (len mid0 + 2) - 1))
          as [_ | H]; [ | unfold len in H; lia].
        cbn [app]. rewrite index_app_mid.
        replace (pre ++ x :: (mid0 ++ [y]) ++ post)
          with ((pre ++ x :: mid0) ++ y :: post)
          by (rewrite <- !app_assoc; reflexivity).
        replace (len pre + (len mid0 + 2) - 1)
          with (len (pre ++ x :: mid0))
          by (unfold len; rewrite length_app; cbn; lia).
        rewrite index_app_mid.
        replace ((pre ++ x :: mid0) ++ y :: post)
          with (pre ++ x :: (mid0 ++ y :: post))
          by (rewrite <- !app_assoc; reflexivity).
        replace (Z.to_nat (len pre)) with (List.length pre)
          by (unfold len; now rewrite Nat2Z.id).
        rewrite store_app_mid.
        replace (pre ++ y :: mid0 ++ y :: post)
          with ((pre ++ y :: mid0) ++ y :: post)
          by (rewrite <- !app_assoc; reflexivity).
        replace (Z.to_nat (len (pre ++ x :: mid0)))
          with (List.length (pre ++ y :: mid0))
          by (unfold len; rewrite Nat2Z.id, !length_app; reflexivity).
        rewrite store_app_mid.
        replace ((pre ++ y :: mid0) ++ x :: post)
          with ((pre ++ [y]) ++ mid0 ++ (x :: post))
          by (rewrite <- !app_assoc; reflexivity).
        replace (len pre + 1) with (len (pre ++ [y]))
          by (unfold len; rewrite length_app; cbn; lia).
        replace (len (pre ++ x :: mid0) - 1)
          with (len (pre ++ [y]) + len mid0 - 1)
          by (unfold len; rewrite !length_app; cbn; lia).
        rewrite IH.
        -- cbn [rev]. rewrite rev_app_distr. cbn.
           rewrite <- !app_assoc. reflexivity.
        -- cbn in Hfuel. rewrite length_app in Hfuel. cbn in Hfuel. lia.
Qed.

(** The loop of lines 76-78 never indexes out of range, and leaves the
    slice reversed. *)
Lemma reverse_rev {A} (a : list A) : reverse a = Some (rev a).
Proof.
  unfold reverse.
  pose proof (reverseFrom_middle (List.length a) [] a []) as H.
  rewrite !app_nil_r in H. cbn [app len List.length] in H.
  change (Z.of_nat 0) with 0 in H. rewrite Z.add_0_l in H.
  apply H. lia.
Qed.

(** ** The analysis of one pair *)

Section AnalysisFacts.
Context {W : Type} {fg : Foreign} {ta : Talib}.
Context {kg : usecase.KuCoinGateway W} {og : usecase.OpenAIGateway W}.

Import usecase.

Ltac run :=
  unfold orPanic; unfold bind, emit, emits, call, ret, panic, osExit; cbn.

Lemma createAsset_Some symbol closePrices macd rsi cur p1h (w : W) :
  index closePrices (len closePrices - 1) = Some cur ->
  index closePrices (len closePrices - 2) = Some p1h ->
  createAsset symbol closePrices macd rsi w
  = (Val (domain.mkAsset symbol cur p1h F64.zero F64.zero macd rsi 0), w, []).
Proof.
  intros Hc Hp. unfold createAsset. run.
  rewrite (at_Some _ _ _ w Hc), (at_Some _ _ _ w Hp). reflexivity.
Qed.

Lemma createAsset_cases symbol closePrices macd rsi (w : W) :
  createAsset symbol closePrices macd rsi w = (Panic, w, []) \/
  exists a,
    createAsset symbol closePrices macd rsi w = (Val a, w, []) /\
    domain.Symbol a = symbol.
Proof.
  unfold createAsset. run.
  destruct (at_cases closePrices (len closePrices - 1) w) as [-> | [cur ->]];
    [now left | ].
  destruct (at_cases closePrices (len closePrices - 2) w) as [-> | [p1h ->]];
    [now left | ].
  right. eexists. split; reflexivity.
Qed.

Lemma readSnapshot_Some macd macdSignal rsi lastM lastS prevM prevS lastR
    (w : W) :
  index macd (len macd - 1) = Some lastM ->
  index macdSignal (len macdSignal - 1) = Some lastS ->
  index macd (len macd - 2) = Some prevM ->
  index macdSignal (len macdSignal - 2) = Some prevS ->
  index rsi (len rsi - 1) = Some lastR ->
  readSnapshot macd macdSignal rsi w
  = (Val (mkSnapshot prevM prevS lastM lastS lastR), w, []).
Proof.
  intros H1 H2 H3 H4 H5. unfold readSnapshot. run.
  rewrite (at_Some _ _ _ w H1), (at_Some _ _ _ w H2), (at_Some _ _ _ w H3),
    (at_Some _ _ _ w H4), (at_Some _ _ _ w H5).
  reflexivity.
Qed.

Lemma readSnapshot_cases macd macdSignal rsi (w : W) :
  readSnapshot macd macdSignal rsi w = (Panic, w, []) \/
  exists s, readSnapshot macd macdSignal rsi w = (Val s, w, []).
Proof.
  unfold readSnapshot. run.
  destruct (at_cases macd (len macd - 1) w) as [-> | [a1 ->]]; [now left | ].
  destruct (at_cases macdSignal (len macdSignal - 1) w) as [-> | [a2 ->]];
    [now left | ].
  destruct (at_cases macd (len macd - 2) w) as [-> | [a3 ->]]; [now left | ].
  destruct (at_cases macdSignal (len macdSignal - 2) w) as [-> | [a4 ->]];
    [now left | ].
  destruct (at_cases rsi (len rsi - 1) w) as [-> | [a5 ->]]; [now left | ].
  right. eexists. reflexivity.
Qed.

(** The three ways in which a task gives up on its pair, each with the
    line it logs. *)
Lemma analyzePair_fetch_failed p err (w w1 : W) :
  GetKlines p 60 100 w = (Err err, w1) ->
  analyzePair p w
  = (Val ([], []), w1,
     [LogPrintf "Analyzing %s..." [AStr p];
      CallGetKlines p 60 100 (Err err);
      LogPrintf "Could not get klines for %s: %v" [AStr p; AErr err]]).
Proof. intros Hk. unfold analyzePair. run. rewrite Hk. reflexivity. Qed.

Lemma analyzePair_parse_failed p klines err (w w1 : W) :
  GetKlines p 60 100 w = (Ok klines, w1) ->
  parseCloses klines = ClosesErr err ->
  analyzePair p w
  = (Val ([], []), w1,
     [LogPrintf "Analyzing %s..." [AStr p];
      CallGetKlines p 60 100 (Ok klines);
      LogPrintf "Could not parse close price for %s: %v" [AStr p; AErr err]]).
Proof.
  intros Hk Hp. unfold analyzePair. run. rewrite Hk. cbn. rewrite Hp.
  reflexivity.
Qed.

Lemma analyzePair_not_enough p klines received (w w1 : W) :
  GetKlines p 60 100 w = (Ok klines, w1) ->
  parseCloses klines = ClosesOk received ->
  len received < 26 ->
  analyzePair p w
  = (Val ([], []), w1,
     [LogPrintf "Analyzing %s..." [AStr p];
      CallGetKlines p 60 100 (Ok klines);
      LogPrintf "Not enough data for MACD calculation on %s" [AStr p]]).
Proof.
  intros Hk Hp Hlen. unfold analyzePair. run. rewrite Hk. cbn. rewrite Hp.
  rewrite reverse_rev. cbv beta iota. rewrite len_rev.
  destruct (Z.ltb_spec (len received) 26) as [_ | Hge]; [reflexivity | lia].
Qed.

(** A task that reaches the trend decision appends what the decision says,
    and nothing else. *)
Lemma analyzePair_decides p klines received macd macdSignal hist
    lastM lastS prevM prevS lastR (w w1 : W) :
  GetKlines p 60 100 w = (Ok klines, w1) ->
  parseCloses klines = ClosesOk received ->
  26 <= len received ->
  Macd (rev received) 12 26 9 = (macd, macdSignal, hist) ->
  index macd (len macd - 1) = Some lastM ->
  index macdSignal (len macdSignal - 1) = Some lastS ->
  index macd (len macd - 2) = Some prevM ->
  index macdSignal (len macdSignal - 2) = Some prevS ->
  index (Rsi (rev received) 14) (len (Rsi (rev received) 14) - 1)
  = Some lastR ->
  exists cur p1h,
    let s := mkSnapshot prevM prevS lastM lastS lastR in
    let asset := domain.mkAsset p cur p1h F64.zero F64.zero lastM lastR 0 in
    analyzePair p w
    = (Val (if isLongCandidate s then [asset] else [],
            if isShortCandidate s then [asset] else []),
       w1,
       [LogPrintf "Analyzing %s..." [AStr p];
        CallGetKlines p 60 100 (Ok klines)]
       ++ (if isLongCandidate s
           then [LogPrintf "[LONG Candidate] %s: GoldenCross, RSI=%.2f"
                   [AStr p; AF64 lastR]]
           else [])
       ++ (if isShortCandidate s
           then [LogPrintf "[SHORT Candidate] %s: DeadCross, RSI=%.2f"
                   [AStr p; AF64 lastR]]
           else [])).
Proof.
  intros Hk Hp Hlen Hm H1 H2 H3 H4 H5.
  destruct (index_Some (rev received) (len (rev received) - 1)) as [cur Hc];
    [rewrite len_rev; lia | ].
  destruct (index_Some (rev received) (len (rev received) - 2)) as [p1h Hh];
    [rewrite len_rev; lia | ].
  exists cur, p1h. intros s asset.
  unfold analyzePair. run. rewrite Hk. cbn. rewrite Hp.
  rewrite reverse_rev. cbv beta iota. rewrite len_rev.
  destruct (Z.ltb_spec (len received) 26) as [Hlt | _]; [lia | ].
  rewrite Hm.
  unfold bind.
  rewrite (readSnapshot_Some _ _ _ _ _ _ _ _ w1 H1 H2 H3 H4 H5).
  fold s.
  destruct (isLongCandidate s), (isShortCandidate s); cbn;
    rewrite ?(createAsset_Some p _ lastM lastR _ _ w1 Hc Hh); cbn;
    reflexivity.
Qed.

(** Whatever happens to a task, it appends to at most one of the two sets,
    and only assets of its own pair. *)
Lemma analyzePair_appends p long short ev (w w1 : W) :
  analyzePair p w = (Val (long, short), w1, ev) ->
  (long = [] \/ short = []) /\
  (forall a, In a long -> domain.Symbol a = p) /\
  (forall a, In a short -> domain.Symbol a = p).
Proof.
  unfold analyzePair. run.
  destruct (GetKlines p 60 100 w) as [[klines | err] w0]; cbn;
    [ | intros [= <- <- _ _]; cbn; tauto].
  destruct (parseCloses klines) as [received | err | ]; cbn;
    [ | intros [= <- <- _ _]; cbn; tauto | discriminate].
  rewrite reverse_rev. cbv beta iota.
  destruct (len (rev received) <? 26); cbn;
    [intros [= <- <- _ _]; cbn; tauto | ].
  destruct (Macd (rev received) 12 26 9) as [[macd macdSignal] hist].
  unfold bind.
  destruct (readSnapshot_cases macd macdSignal (Rsi (rev received) 14) w0)
    as [-> | [s ->]]; [discriminate | ].
  destruct (isLongCandidate s) eqn:Hlong.
  - rewrite (long_excludes_short s Hlong).
    destruct (createAsset_cases p (rev received) (lastMacd s) (lastRsi s) w0)
      as [-> | [a [-> Ha]]]; [discriminate | ].
    cbn. intros [= <- <- _ _]. cbn.
    repeat split; [now right | | tauto].
    intros a' [<- | []]. exact Ha.
  - cbn. destruct (isShortCandidate s).
    + destruct (createAsset_cases p (rev received) (lastMacd s) (lastRsi s) w0)
        as [-> | [a [-> Ha]]]; [discriminate | ].
      cbn. intros [= <- <- _ _]. cbn.
      repeat split; [now left | tauto | ].
      intros a' [<- | []]. exact Ha.
    + cbn. intros [= <- <- _ _]. cbn. tauto.
Qed.

(** ** The scan *)

Lemma scanPairs_cons p rest longCandidates shortCandidates (w : W) :
  scanPairs (p :: rest) longCandidates shortCandidates w
  = match analyzePair p w with
    | (Val (long, short), w1, ev1) =>
        match scanPairs rest (longCandidates ++ long)
                (shortCandidates ++ short) w1 with
        | (r, w2, ev2) => (r, w2, ev1 ++ ev2)
        end
    | (Panic, w1, ev1) => (Panic, w1, ev1)
    | (Exit c, w1, ev1) => (Exit c, w1, ev1)
    end.
Proof.
  cbn [scanPairs]. unfold bind.
  destruct (analyzePair p w) as [[[[long short] | | c] w1] ev1]; reflexivity.
Qed.

(** A task that appends nothing leaves the scan as it would be without
    its pair, but for the events of the task. *)
Lemma scanPairs_skip p rest longCandidates shortCandidates ev1 (w w1 : W) :
  analyzePair p w = (Val ([], []), w1, ev1) ->
  scanPairs (p :: rest) longCandidates shortCandidates w
  = match scanPairs rest longCandidates shortCandidates w1 with
    | (r, w2, ev2) => (r, w2, ev1 ++ ev2)
    end.
Proof.
  intros Ha. rewrite scanPairs_cons, Ha, !app_nil_r. reflexivity.
Qed.

Lemma scanPairs_symbols pairs :
  forall longCandidates shortCandidates long short ev (w w1 : W),
    scanPairs pairs longCandidates shortCandidates w
    = (Val (long, short), w1, ev) ->
    exists long' short',
      long = longCandidates ++ long' /\
      short = shortCandidates ++ short' /\
      (forall a, In a long' -> In (domain.Symbol a) pairs) /\
      (forall a, In a short' -> In (domain.Symbol a) pairs) /\
      (NoDup pairs ->
       forall a b, In a long' -> In b short' ->
                   domain.Symbol a <> domain.Symbol b).
Proof.
  induction pairs as [ | p rest IH]; intros L0 S0 long short ev w w1.
  - cbn. intros [= <- <- _ _]. exists [], [].
    rewrite !app_nil_r. cbn. repeat split; tauto.
  - rewrite scanPairs_cons.
    destruct (analyzePair p w) as [[[[l s] | | c] w0] ev0] eqn:Ha;
      try discriminate.
    destruct (scanPairs rest (L0 ++ l) (S0 ++ s) w0) as [[r w2] ev2] eqn:Hs.
    intros [= -> <- _].
    destruct (IH _ _ _ _ _ _ _ Hs) as (l' & s' & -> & -> & Hl & Hsh & Hd).
    destruct (analyzePair_appends _ _ _ _ _ _ Ha) as (Hex & Hsl & Hss).
    exists (l ++ l'), (s ++ s'). rewrite !app_assoc.
    repeat split; try reflexivity.
    + intros a [Hin | Hin]%in_app_or; [left; symmetry; auto | right; auto].
    + intros a [Hin | Hin]%in_app_or; [left; symmetry; auto | right; auto].
    + intros Hnd a b Hina Hinb. inversion Hnd as [ | ? ? Hnotin Hnd']; subst.
      apply in_app_or in Hina as [Hina | Hina];
        apply in_app_or in Hinb as [Hinb | Hinb].
      * destruct Hex as [-> | ->]; contradiction.
      * rewrite (Hsl a Hina). intros Heq. apply Hnotin. rewrite Heq. auto.
      * rewrite (Hss b Hinb). intros Heq. apply Hnotin. rewrite <- Heq. auto.
      * now apply Hd.
Qed.

(** ** Claims about the scan *)

(** C1 (as amended): for every indicator snapshot read by a task, the task
    produces a long candidate exactly when previous MACD < previous signal
    and current MACD > current signal and current RSI < 70, and a short
    candidate exactly when previous MACD > previous signal and current
    MACD < current signal and current RSI > 30; every candidate carries the
    pair, the current MACD and the current RSI; a snapshot whose previous
    MACD equals its previous signal yields no candidate. *)
Theorem C1_candidates_by_strict_crossover
    p klines received macd macdSignal hist
    lastM lastS prevM prevS lastR (w w1 : W) :
  GetKlines p 60 100 w = (Ok klines, w1) ->
  parseCloses klines = ClosesOk received ->
  26 <= len received ->
  Macd (rev received) 12 26 9 = (macd, macdSignal, hist) ->
  index macd (len macd - 1) = Some lastM ->
  index macdSignal (len macdSignal - 1) = Some lastS ->
  index macd (len macd - 2) = Some prevM ->
  index macdSignal (len macdSignal - 2) = Some prevS ->
  index (Rsi (rev received) 14) (len (Rsi (rev received) 14) - 1)
  = Some lastR ->
  exists long short ev,
    analyzePair p w = (Val (long, short), w1, ev) /\
    (long <> [] <->
     F64.ltb prevM prevS = true /\ F64.gtb lastM lastS = true /\
     F64.ltb lastR F64.c70 = true) /\
    (short <> [] <->
     F64.gtb prevM prevS = true /\ F64.ltb lastM lastS = true /\
     F64.gtb lastR F64.c30 = true) /\
    (forall a, In a long \/ In a short ->
               domain.Symbol a = p /\ domain.MACD a = lastM /\
               domain.RSI a = lastR) /\
    (F64.eqb prevM prevS = true -> long = [] /\ short = []).
Proof.
  intros Hk Hp Hlen Hm H1 H2 H3 H4 H5.
  destruct (analyzePair_decides _ _ _ _ _ _ _ _ _ _ _ _ _
              Hk Hp Hlen Hm H1 H2 H3 H4 H5) as (cur & p1h & Hrun).
  cbv zeta in Hrun.
  set (s := mkSnapshot prevM prevS lastM lastS lastR) in *.
  pose proof (isLongCandidate_spec s) as Hl.
  pose proof (isShortCandidate_spec s) as Hs.
  cbn [prevMacd prevMacdSignal lastMacd lastMacdSignal lastRsi s] in Hl, Hs.
  do 3 eexists. split; [exact Hrun | ].
  refine (conj _ (conj _ (conj _ _))).
  - split.
    + intros Hne. apply Hl. destruct (isLongCandidate s); congruence.
    + intros Hc. apply Hl in Hc. rewrite Hc. discriminate.
  - split.
    + intros Hne. apply Hs. destruct (isShortCandidate s); congruence.
    + intros Hc. apply Hs in Hc. rewrite Hc. discriminate.
  - intros a [Hin | Hin];
      [destruct (isLongCandidate s) | destruct (isShortCandidate s)];
      cbn in Hin; try contradiction;
      destruct Hin as [<- | []]; repeat split.
  - intros Heq. destruct (eqb_not_ltb _ _ Heq) as [Hlt Hgt]. split.
    + destruct (isLongCandidate s); [ | reflexivity].
      destruct (proj1 Hl eq_refl) as [E _]. congruence.
    + destruct (isShortCandidate s); [ | reflexivity].
      destruct (proj1 Hs eq_refl) as [E _]. congruence.
Qed.

(** C5: for every indicator snapshot at most one of the long rule and the
    short rule fires; hence a task appends to at most one of the two
    candidate sets, and in a scan of distinct instruments no instrument is
    in both the long and the short candidate set. *)
Theorem C5_long_and_short_exclusive :
  (forall s, isLongCandidate s && isShortCandidate s = false) /\
  (forall p long short ev (w w1 : W),
      analyzePair p w = (Val (long, short), w1, ev) ->
      long = [] \/ short = []) /\
  (forall pairs long short ev (w w1 : W),
      NoDup pairs ->
      scanPairs pairs [] [] w = (Val (long, short), w1, ev) ->
      forall a b, In a long -> In b short ->
                  domain.Symbol a <> domain.Symbol b).
Proof.
  split; [ | split].
  - intros s. destruct (isLongCandidate s) eqn:E; [ | reflexivity].
    now rewrite (long_excludes_short s E).
  - intros p long short ev w w1 Ha.
    exact (proj1 (analyzePair_appends _ _ _ _ _ _ Ha)).
  - intros pairs long short ev w w1 Hnd Hs a b Hina Hinb.
    destruct (scanPairs_symbols _ _ _ _ _ _ _ _ Hs)
      as (l' & s' & -> & -> & _ & _ & Hd).
    now apply Hd.
Qed.

(** C7: for every close-price series with fewer than 26 samples the task
    logs that there is not enough data and appends no candidate; what it
    does is the same under every indicator engine (none is consulted), and
    the scan goes on with the remaining pairs. *)
Theorem C7_short_history_is_skipped p klines received (w w1 : W) :
  GetKlines p 60 100 w = (Ok klines, w1) ->
  parseCloses klines = ClosesOk received ->
  len received < 26 ->
  skipsPair p (Ok klines)
    (LogPrintf "Not enough data for MACD calculation on %s" [AStr p]) w w1 /\
  (forall ta' : Talib,
      analyzePair (ta := ta') p w = analyzePair (ta := ta) p w).
Proof.
  intros Hk Hp Hlen. split; [split | ].
  - now apply (analyzePair_not_enough p klines received).
  - intros rest L S. apply scanPairs_skip.
    now apply (analyzePair_not_enough p klines received).
  - intros ta'.
    rewrite (analyzePair_not_enough p klines received w w1 Hk Hp Hlen).
    unfold analyzePair, orPanic, bind, emit, call, ret. cbn. rewrite Hk. cbn.
    rewrite Hp. rewrite reverse_rev. cbv beta iota.
    rewrite len_rev.
    destruct (Z.ltb_spec (len received) 26) as [_ | Hge]; [reflexivity | lia].
Qed.

(** C3 (as amended): a failure of the market-universe lookup is logged and
    then ends the process with exit status 1, before any pair is analysed;
    a failed price-history fetch, a close price that does not parse and a
    history of fewer than 26 samples are each logged with the pair, and the
    scan goes on with the remaining pairs. *)
Theorem C3_failures_are_logged :
  (forall err (w w1 : W),
      GetTop20USDTpairsByVolume w = (Err err, w1) ->
      AnalyzeTrends w
      = (Exit 1, w1,
         [LogPrintln "Fetching top 20 USDT pairs by volume...";
          CallGetTop20USDTpairsByVolume (Err err);
          LogFatalf "Error getting top pairs: %v" [AErr err]])) /\
  (forall p err (w w1 : W),
      GetKlines p 60 100 w = (Err err, w1) ->
      skipsPair p (Err err)
        (LogPrintf "Could not get klines for %s: %v" [AStr p; AErr err])
        w w1) /\
  (forall p klines err (w w1 : W),
      GetKlines p 60 100 w = (Ok klines, w1) ->
      parseCloses klines = ClosesErr err ->
      skipsPair p (Ok klines)
        (LogPrintf "Could not parse close price for %s: %v"
           [AStr p; AErr err])
        w w1) /\
  (forall p klines received (w w1 : W),
      GetKlines p 60 100 w = (Ok klines, w1) ->
      parseCloses klines = ClosesOk received ->
      len received < 26 ->
      skipsPair p (Ok klines)
        (LogPrintf "Not enough data for MACD calculation on %s" [AStr p])
        w w1).
Proof.
  repeat split.
  - intros err w w1 Ht. unfold AnalyzeTrends. run. rewrite Ht. reflexivity.
  - now apply analyzePair_fetch_failed.
  - intros rest L S. apply scanPairs_skip. now apply analyzePair_fetch_failed.
  - now apply analyzePair_parse_failed.
  - intros rest L S. apply scanPairs_skip. now apply analyzePair_parse_failed.
  - now apply (analyzePair_not_enough p klines received).
  - intros rest L S. apply scanPairs_skip.
    now apply (analyzePair_not_enough p klines received).
Qed.

End AnalysisFacts.

(** ** The trade *)

Section TradeFacts.
Context {W : Type} {fg : Foreign} {ta : Talib}.
Context {kg : usecase.KuCoinGateway W} {og : usecase.OpenAIGateway W}.

Import usecase.

Ltac run :=
  unfold orPanic; unfold bind, emit, emits, call, ret, panic, osExit; cbn.

(** One turn of the loop, by the answers of the exchange. *)
Lemma monitorTurn_eq symbol side size targetPrice (w : W) :
  monitorTurn symbol side size targetPrice w
  = match GetCurrentPrice symbol w with
    | (Err err, w1) =>
        (Val Continue, w1,
         [Sleep 30; CallGetCurrentPrice symbol (Err err);
          LogPrintf "Could not get latest price for %s: %v"
            [AStr symbol; AErr err]])
    | (Ok latestPrice, w1) =>
        let seen :=
          [Sleep 30; CallGetCurrentPrice symbol (Ok latestPrice);
           LogPrintf "Latest price for %s: %.4f"
             [AStr symbol; AF64 latestPrice]] in
        if targetReached side latestPrice targetPrice then
          let closeSizeStr := Sprintf "%f" [AF64 size] in
          let reached :=
            seen ++
            [LogPrintf
               "Target price reached! Placing %s order to close position."
               [AStr (closeSide side)]] in
          match CreateOrder symbol (closeSide side) "market" closeSizeStr w1
          with
          | (Err err, w2) =>
              (Val Continue, w2,
               reached ++
               [CallCreateOrder symbol (closeSide side) "market" closeSizeStr
                  (Err err);
                LogPrintf "Failed to create %s order: %v"
                  [AStr (closeSide side); AErr err]])
          | (Ok closeOrderID, w2) =>
              (Val Break, w2,
               reached ++
               [CallCreateOrder symbol (closeSide side) "market" closeSizeStr
                  (Ok closeOrderID);
                LogPrintf
                  "%s order placed successfully. Order ID: %s. Exiting."
                  [AStr (closeSide side); AStr closeOrderID]])
          end
        else (Val Continue, w1, seen)
    end.
Proof.
  unfold monitorTurn. run.
  destruct (GetCurrentPrice symbol w) as [[latestPrice | err] w1]; cbn;
    [ | reflexivity].
  destruct (targetReached side latestPrice targetPrice); cbn; [ | reflexivity].
  destruct (CreateOrder symbol (closeSide side) "market"
              (Sprintf "%f" [AF64 size]) w1) as [[oid | err] w2];
    reflexivity.
Qed.

(** A turn never panics and never exits the process. *)
Lemma monitorTurn_Val symbol side size targetPrice (w : W) :
  exists t w1 ev,
    monitorTurn symbol side size targetPrice w = (Val t, w1, ev).
Proof.
  rewrite monitorTurn_eq.
  destruct (GetCurrentPrice symbol w) as [[latestPrice | err] w1]; cbn;
    [ | do 3 eexists; reflexivity].
  destruct (targetReached side latestPrice targetPrice); cbn;
    [ | do 3 eexists; reflexivity].
  destruct (CreateOrder symbol (closeSide side) "market"
              (Sprintf "%f" [AF64 size]) w1) as [[oid | err] w2];
    do 3 eexists; reflexivity.
Qed.

(** A turn after which the loop continues has placed no accepted order. *)
Lemma monitorTurn_Continue_no_order symbol side size targetPrice ev
    (w w1 : W) :
  monitorTurn symbol side size targetPrice w = (Val Continue, w1, ev) ->
  forallb (fun e => negb (isOrderOk e)) ev = true.
Proof.
  rewrite monitorTurn_eq.
  destruct (GetCurrentPrice symbol w) as [[latestPrice | err] w0]; cbn;
    [ | intros [= <- <-]; reflexivity].
  destruct (targetReached side latestPrice targetPrice); cbn;
    [ | intros [= <- <-]; reflexivity].
  destruct (CreateOrder symbol (closeSide side) "market"
              (Sprintf "%f" [AF64 size]) w0) as [[oid | err] w2];
    [discriminate | intros [= <- <-]; reflexivity].
Qed.

(** A turn after which the loop is left ends with the accepted closing
    order, the only accepted order of the turn. *)
Lemma monitorTurn_Break_inv symbol side size targetPrice ev (w w2 : W) :
  monitorTurn symbol side size targetPrice w = (Val Break, w2, ev) ->
  exists latestPrice w1 closeOrderID,
    GetCurrentPrice symbol w = (Ok latestPrice, w1) /\
    targetReached side latestPrice targetPrice = true /\
    CreateOrder symbol (closeSide side) "market" (Sprintf "%f" [AF64 size]) w1
    = (Ok closeOrderID, w2) /\
    ev = [Sleep 30; CallGetCurrentPrice symbol (Ok latestPrice);
          LogPrintf "Latest price for %s: %.4f"
            [AStr symbol; AF64 latestPrice];
          LogPrintf
            "Target price reached! Placing %s order to close position."
            [AStr (closeSide side)]]
         ++ [CallCreateOrder symbol (closeSide side) "market"
               (Sprintf "%f" [AF64 size]) (Ok closeOrderID);
             LogPrintf
               "%s order placed successfully. Order ID: %s. Exiting."
               [AStr (closeSide side); AStr closeOrderID]].
Proof.
  rewrite monitorTurn_eq.
  destruct (GetCurrentPrice symbol w) as [[latestPrice | err] w0]; cbn;
    [ | discriminate].
  destruct (targetReached side latestPrice targetPrice) eqn:Hreach; cbn;
    [ | discriminate].
  destruct (CreateOrder symbol (closeSide side) "market"
              (Sprintf "%f" [AF64 size]) w0) as [[oid | err] w3] eqn:Ho;
    [ | discriminate].
  intros [= <- <-]. exists latestPrice, w0, oid. auto.
Qed.

Lemma monitorLoop_Continue fuel symbol side size targetPrice ev1 (w w1 : W) :
  monitorTurn symbol side size targetPrice w = (Val Continue, w1, ev1) ->
  monitorLoop (S fuel) symbol side size targetPrice w
  = match monitorLoop fuel symbol side size targetPrice w1 with
    | Some (r, w2, ev2) => Some (r, w2, ev1 ++ ev2)
    | None => None
    end.
Proof. intros Ht. cbn [monitorLoop]. rewrite Ht. reflexivity. Qed.

Lemma monitorLoop_Break fuel symbol side size targetPrice ev1 (w w1 : W) :
  monitorTurn symbol side size targetPrice w = (Val Break, w1, ev1) ->
  monitorLoop (S fuel) symbol side size targetPrice w = Some (Val tt, w1, ev1).
Proof. intros Ht. cbn [monitorLoop]. rewrite Ht. reflexivity. Qed.

(** More fuel does not change the outcome of a loop that has ended. *)
Lemma monitorLoop_more_fuel symbol side size targetPrice fuel :
  forall k x (w : W),
    monitorLoop fuel symbol side size targetPrice w = Some x ->
    monitorLoop (fuel + k) symbol side size targetPrice w = Some x.
Proof.
  induction fuel as [ | fuel IH]; intros k x w; [discriminate | ].
  cbn [monitorLoop Nat.add].
  destruct (monitorTurn symbol side size targetPrice w)
    as [[[[ | ] | | c] w1] ev1]; try (intros H; exact H).
  destruct (monitorLoop fuel symbol side size targetPrice w1)
    as [x1 | ] eqn:Hl; [ | discriminate].
  rewrite (IH k x1 w1 Hl). intros H; exact H.
Qed.

(** The loop ends only with an accepted closing order, and no order was
    accepted before it. *)
Lemma monitorLoop_ends symbol side size targetPrice fuel :
  forall r ev (w w' : W),
    monitorLoop fuel symbol side size targetPrice w = Some (r, w', ev) ->
    r = Val tt /\
    exists ev0 closeOrderID,
      ev = ev0 ++
           [CallCreateOrder symbol (closeSide side) "market"
              (Sprintf "%f" [AF64 size]) (Ok closeOrderID);
            LogPrintf "%s order placed successfully. Order ID: %s. Exiting."
              [AStr (closeSide side); AStr closeOrderID]] /\
      forallb (fun e => negb (isOrderOk e)) ev0 = true.
Proof.
  induction fuel as [ | fuel IH]; intros r ev w w'; [discriminate | ].
  cbn [monitorLoop].
  destruct (monitorTurn_Val symbol side size targetPrice w)
    as (t & w1 & ev1 & Ht).
  rewrite Ht. destruct t.
  - destruct (monitorLoop fuel symbol side size targetPrice w1)
      as [[[r2 w2] ev2] | ] eqn:Hl; [ | discriminate].
    intros [= <- <- <-].
    destruct (IH _ _ _ _ Hl) as (-> & ev0 & oid & -> & Hno).
    split; [reflexivity | ].
    exists (ev1 ++ ev0), oid. split; [now rewrite app_assoc | ].
    rewrite forallb_app, Hno,
      (monitorTurn_Continue_no_order _ _ _ _ _ _ _ Ht).
    reflexivity.
  - intros [= <- <- <-]. split; [reflexivity | ].
    destruct (monitorTurn_Break_inv _ _ _ _ _ _ _ Ht)
      as (p & w0 & oid & _ & _ & _ & ->).
    eexists _, oid. split; [reflexivity | reflexivity].
Qed.

(** The entry, by the answers of the exchange, for a recognised side and
    with the execute flag set. *)
Lemma enterTrade_eq symbol side amountUSD (w : W) :
  side = "buy" \/ side = "sell" ->
  enterTrade symbol side amountUSD true w
  = let started :=
      [LogPrintf
         "Starting trade execution for %s, side: %s, amount: %.2f USD"
         [AStr symbol; AStr side; AF64 amountUSD]] in
    match GetCurrentPrice symbol w with
    | (Err err, w1) =>
        (Val None, w1,
         started ++
         [CallGetCurrentPrice symbol (Err err);
          LogPrintf "Failed to get current price for %s: %v"
            [AStr symbol; AErr err]])
    | (Ok currentPrice, w1) =>
        let size := F64.div amountUSD currentPrice in
        let sizeStr := Sprintf "%f" [AF64 size] in
        let placing :=
          started ++
          [CallGetCurrentPrice symbol (Ok currentPrice);
           LogPrintf "Current price of %s is %.4f USD"
             [AStr symbol; AF64 currentPrice];
           LogPrintf "Placing market %s order for %s with size %s"
             [AStr side; AStr symbol; AStr sizeStr]] in
        match CreateOrder symbol side "market" sizeStr w1 with
        | (Err err, w2) =>
            (Val None, w2,
             placing ++
             [CallCreateOrder symbol side "market" sizeStr (Err err);
              LogPrintf "Failed to create %s order: %v"
                [AStr side; AErr err]])
        | (Ok orderID, w2) =>
            let targetPrice :=
              F64.mul currentPrice
                (if String.eqb side "buy" then F64.c1_01 else F64.c0_99) in
            (Val (Some (size, targetPrice)), w2,
             placing ++
             [CallCreateOrder symbol side "market" sizeStr (Ok orderID);
              LogPrintf "%s order placed successfully. Order ID: %s"
                [AStr side; AStr orderID];
              LogPrintf "Assumed entry price: %.4f" [AF64 currentPrice];
              if String.eqb side "buy"
              then LogPrintf
                     "Will place SELL order when price reaches >= %.4f"
                     [AF64 targetPrice]
              else LogPrintf
                     "Will place BUY order when price reaches <= %.4f"
                     [AF64 targetPrice]])
        end
    end.
Proof.
  intros Hside. unfold enterTrade. run.
  assert (negb (String.eqb side "buy") && negb (String.eqb side "sell")
          = false) as ->
    by (destruct Hside as [-> | ->]; reflexivity).
  destruct (GetCurrentPrice symbol w) as [[currentPrice | err] w1]; cbn;
    [ | reflexivity].
  destruct (CreateOrder symbol side "market"
              (Sprintf "%f" [AF64 (F64.div amountUSD currentPrice)]) w1)
    as [[orderID | err] w2]; cbn; [ | reflexivity].
  destruct (String.eqb side "buy"); reflexivity.
Qed.

(** ** Claims about the trade *)

(** C2 (as amended): for every intent whose side is neither "buy" nor
    "sell", the controller returns at once (for any bound on the loop),
    with no call of the exchange and the world unchanged; the dry-run check
    comes first, so the invalid side is reported when the execute flag is
    set, and the dry run is reported when it is not. *)
Theorem C2_invalid_side_aborts_without_calls
    fuel symbol side amountUSD execute (w : W) :
  side <> "buy" -> side <> "sell" ->
  ExecuteTrade fuel symbol side amountUSD execute w
  = Some (Val tt, w,
          [if execute
           then LogPrintf "Invalid side: %s. Must be 'buy' or 'sell'."
                  [AStr side]
           else LogPrintln
                  "Execute flag is not set. Exiting trade execution (Dry Run)."]).
Proof.
  intros Hb Hs. unfold ExecuteTrade, enterTrade. run.
  apply String.eqb_neq in Hb, Hs. rewrite Hb, Hs.
  destruct execute; reflexivity.
Qed.

(** C4: while the position is open, a failed price fetch leaves it open
    and places no order; a failed exit order leaves it open, and the loop
    goes on with the same size and target, so that the exit is tried again
    at the next price that reaches the target; a turn closes the position
    exactly when its exit order is accepted; the loop ends at such a turn
    and only there, with the single accepted order of the loop. *)
Theorem C4_monitor_loop_closes_only_on_accepted_exit
    symbol side size targetPrice :
  (forall err (w w1 : W),
      GetCurrentPrice symbol w = (Err err, w1) ->
      monitorTurn symbol side size targetPrice w
      = (Val Continue, w1,
         [Sleep 30; CallGetCurrentPrice symbol (Err err);
          LogPrintf "Could not get latest price for %s: %v"
            [AStr symbol; AErr err]])) /\
  (forall latestPrice err (w w1 w2 : W),
      GetCurrentPrice symbol w = (Ok latestPrice, w1) ->
      targetReached side latestPrice targetPrice = true ->
      CreateOrder symbol (closeSide side) "market"
        (Sprintf "%f" [AF64 size]) w1 = (Err err, w2) ->
      exists ev,
        monitorTurn symbol side size targetPrice w = (Val Continue, w2, ev)) /\
  (forall t ev (w w2 : W),
      monitorTurn symbol side size targetPrice w = (Val t, w2, ev) ->
      (statusAfter t = Closed <->
       exists latestPrice w1 closeOrderID,
         GetCurrentPrice symbol w = (Ok latestPrice, w1) /\
         targetReached side latestPrice targetPrice = true /\
         CreateOrder symbol (closeSide side) "market"
           (Sprintf "%f" [AF64 size]) w1 = (Ok closeOrderID, w2))) /\
  (forall fuel t ev1 (w w1 : W),
      monitorTurn symbol side size targetPrice w = (Val t, w1, ev1) ->
      monitorLoop (S fuel) symbol side size targetPrice w
      = match statusAfter t with
        | Closed => Some (Val tt, w1, ev1)
        | Open =>
            match monitorLoop fuel symbol side size targetPrice w1 with
            | Some (r, w2, ev2) => Some (r, w2, ev1 ++ ev2)
            | None => None
            end
        end) /\
  (forall fuel r ev (w w' : W),
      monitorLoop fuel symbol side size targetPrice w = Some (r, w', ev) ->
      r = Val tt /\
      (forall k,
          monitorLoop (fuel + k) symbol side size targetPrice w
          = Some (r, w', ev)) /\
      exists ev0 closeOrderID,
        ev = ev0 ++
             [CallCreateOrder symbol (closeSide side) "market"
                (Sprintf "%f" [AF64 size]) (Ok closeOrderID);
              LogPrintf
                "%s order placed successfully. Order ID: %s. Exiting."
                [AStr (closeSide side); AStr closeOrderID]] /\
        forallb (fun e => negb (isOrderOk e)) ev0 = true).
Proof.
  refine (conj _ (conj _ (conj _ (conj _ _)))).
  - intros err w w1 Hp. rewrite monitorTurn_eq, Hp. reflexivity.
  - intros latestPrice err w w1 w2 Hp Hr Ho.
    rewrite monitorTurn_eq, Hp. cbv zeta. rewrite Hr, Ho.
    eexists. reflexivity.
  - intros t ev w w2 Ht. split.
    + destruct t; [discriminate | ]. intros _.
      destruct (monitorTurn_Break_inv _ _ _ _ _ _ _ Ht)
        as (p & w1 & oid & Hp & Hr & Ho & _).
      exists p, w1, oid. auto.
    + intros (p & w1 & oid & Hp & Hr & Ho).
      rewrite monitorTurn_eq, Hp in Ht. cbv zeta in Ht.
      rewrite Hr, Ho in Ht. injection Ht as <- _. reflexivity.
  - intros fuel t ev1 w w1 Ht. destruct t; cbn [statusAfter].
    + now apply monitorLoop_Continue.
    + now apply monitorLoop_Break.
  - intros fuel r ev w w' Hl.
    destruct (monitorLoop_ends _ _ _ _ _ _ _ _ _ Hl) as (-> & Hev).
    split; [reflexivity | ]. split; [ | exact Hev].
    intros k. now apply monitorLoop_more_fuel.
Qed.

(** A loop that has ended has ended at a crossing: its last events are a
    poll whose price has reached the target and the accepted closing order
    for the size. *)
Lemma monitorLoop_ends_at_crossing symbol side size targetPrice fuel :
  forall r ev (w w' : W),
    monitorLoop fuel symbol side size targetPrice w = Some (r, w', ev) ->
    exists ev0 latestPrice closeOrderID,
      ev = ev0 ++
           [CallGetCurrentPrice symbol (Ok latestPrice);
            LogPrintf "Latest price for %s: %.4f"
              [AStr symbol; AF64 latestPrice];
            LogPrintf
              "Target price reached! Placing %s order to close position."
              [AStr (closeSide side)];
            CallCreateOrder symbol (closeSide side) "market"
              (Sprintf "%f" [AF64 size]) (Ok closeOrderID);
            LogPrintf "%s order placed successfully. Order ID: %s. Exiting."
              [AStr (closeSide side); AStr closeOrderID]] /\
      targetReached side latestPrice targetPrice = true.
Proof.
  induction fuel as [ | fuel IH]; intros r ev w w'; [discriminate | ].
  cbn [monitorLoop].
  destruct (monitorTurn symbol side size targetPrice w)
    as [[[[ | ] | | c] w1] ev1] eqn:Ht.
  - destruct (monitorLoop fuel symbol side size targetPrice w1)
      as [[[r2 w2] ev2] | ] eqn:Hl; [ | discriminate].
    intros [= <- <- <-].
    destruct (IH _ _ _ _ Hl) as (ev0 & L & oid & -> & Hreach).
    exists (ev1 ++ ev0), L, oid. split; [now rewrite app_assoc | exact Hreach].
  - intros [= <- <- <-]. revert Ht. rewrite monitorTurn_eq.
    destruct (GetCurrentPrice symbol w) as [[L | err] w0]; [ | discriminate].
    cbv zeta.
    destruct (targetReached side L targetPrice) eqn:Hreach; [ | discriminate].
    destruct (CreateOrder symbol (closeSide side) "market"
                (Sprintf "%f" [AF64 size]) w0) as [[oid | err] w3];
      [ | discriminate].
    intros [= _ <-]. exists [Sleep 30], L, oid. split; [reflexivity | exact Hreach].
  - destruct (monitorTurn_Val symbol side size targetPrice w)
      as (t & w2 & ev2 & Ht'). rewrite Ht in Ht'. discriminate.
  - destruct (monitorTurn_Val symbol side size targetPrice w)
      as (t & w2 & ev2 & Ht'). rewrite Ht in Ht'. discriminate.
Qed.

(** C6: for a "buy" entry with notional A and fetched entry price P the
    controller computes the size A/P and the target P*1.01, and a turn of
    the loop goes for the closing order exactly when the polled price is >=
    the target; for "sell" the target is P*0.99 and the condition is <=.
    The controller monitors the position with exactly that size and that
    target: after an accepted entry ExecuteTrade is the loop run with A/P
    and P*1.01 (P*0.99 for "sell"); a poll of the loop whose price has not
    reached the target places no order and the loop goes on with the same
    size and target, a poll whose price has reached it places the closing
    order for the size, and a trade that has ended has ended with such a
    poll. At P = 100 and A = 1000 the size is 10 and the targets are 101
    and 99, exactly. *)
Theorem C6_size_target_and_crossing symbol :
  (forall amountUSD currentPrice orderID (w w1 w2 : W),
      GetCurrentPrice symbol w = (Ok currentPrice, w1) ->
      CreateOrder symbol "buy" "market"
        (Sprintf "%f" [AF64 (F64.div amountUSD currentPrice)]) w1
      = (Ok orderID, w2) ->
      exists ev,
        enterTrade symbol "buy" amountUSD true w
        = (Val (Some (F64.div amountUSD currentPrice,
                      F64.mul currentPrice F64.c1_01)), w2, ev)) /\
  (forall amountUSD currentPrice orderID (w w1 w2 : W),
      GetCurrentPrice symbol w = (Ok currentPrice, w1) ->
      CreateOrder symbol "sell" "market"
        (Sprintf "%f" [AF64 (F64.div amountUSD currentPrice)]) w1
      = (Ok orderID, w2) ->
      exists ev,
        enterTrade symbol "sell" amountUSD true w
        = (Val (Some (F64.div amountUSD currentPrice,
                      F64.mul currentPrice F64.c0_99)), w2, ev)) /\
  (forall latestPrice targetPrice,
      targetReached "buy" latestPrice targetPrice
      = F64.geb latestPrice targetPrice /\
      targetReached "sell" latestPrice targetPrice
      = F64.leb latestPrice targetPrice) /\
  (forall side size targetPrice latestPrice t ev (w w1 w2 : W),
      GetCurrentPrice symbol w = (Ok latestPrice, w1) ->
      monitorTurn symbol side size targetPrice w = (Val t, w2, ev) ->
      (In (LogPrintf
             "Target price reached! Placing %s order to close position."
             [AStr (closeSide side)]) ev
       <-> targetReached side latestPrice targetPrice = true)) /\
  (forall fuel side amountUSD currentPrice orderID (w w1 w2 : W),
      side = "buy" \/ side = "sell" ->
      GetCurrentPrice symbol w = (Ok currentPrice, w1) ->
      CreateOrder symbol side "market"
        (Sprintf "%f" [AF64 (F64.div amountUSD currentPrice)]) w1
      = (Ok orderID, w2) ->
      exists ev1,
        enterTrade symbol side amountUSD true w
        = (Val (Some (F64.div amountUSD currentPrice,
                      F64.mul currentPrice
                        (if String.eqb side "buy"
                         then F64.c1_01 else F64.c0_99))), w2, ev1) /\
        ExecuteTrade fuel symbol side amountUSD true w
        = match monitorLoop fuel symbol side
                  (F64.div amountUSD currentPrice)
                  (F64.mul currentPrice
                     (if String.eqb side "buy" then F64.c1_01 else F64.c0_99))
                  w2 with
          | Some (r, w3, ev2) => Some (r, w3, ev1 ++ ev2)
          | None => None
          end) /\
  (forall fuel side size targetPrice latestPrice (w w1 : W),
      GetCurrentPrice symbol w = (Ok latestPrice, w1) ->
      (targetReached side latestPrice targetPrice = false ->
       monitorLoop (S fuel) symbol side size targetPrice w
       = match monitorLoop fuel symbol side size targetPrice w1 with
         | Some (r, w2, ev2) =>
             Some (r, w2,
                   [Sleep 30; CallGetCurrentPrice symbol (Ok latestPrice);
                    LogPrintf "Latest price for %s: %.4f"
                      [AStr symbol; AF64 latestPrice]] ++ ev2)
         | None => None
         end) /\
      (targetReached side latestPrice targetPrice = true ->
       forall closeOrderID (w2 : W),
         CreateOrder symbol (closeSide side) "market"
           (Sprintf "%f" [AF64 size]) w1
         = (Ok closeOrderID, w2) ->
         monitorLoop (S fuel) symbol side size targetPrice w
         = Some (Val tt, w2,
                 [Sleep 30; CallGetCurrentPrice symbol (Ok latestPrice);
                  LogPrintf "Latest price for %s: %.4f"
                    [AStr symbol; AF64 latestPrice];
                  LogPrintf
                    "Target price reached! Placing %s order to close position."
                    [AStr (closeSide side)];
                  CallCreateOrder symbol (closeSide side) "market"
                    (Sprintf "%f" [AF64 size]) (Ok closeOrderID);
                  LogPrintf
                    "%s order placed successfully. Order ID: %s. Exiting."
                    [AStr (closeSide side); AStr closeOrderID]]))) /\
  (forall fuel side amountUSD currentPrice orderID res ev (w w1 w2 w' : W),
      side = "buy" \/ side = "sell" ->
      GetCurrentPrice symbol w = (Ok currentPrice, w1) ->
      CreateOrder symbol side "market"
        (Sprintf "%f" [AF64 (F64.div amountUSD currentPrice)]) w1
      = (Ok orderID, w2) ->
      ExecuteTrade fuel symbol side amountUSD true w = Some (res, w', ev) ->
      exists ev0 latestPrice closeOrderID,
        ev = ev0 ++
             [CallGetCurrentPrice symbol (Ok latestPrice);
              LogPrintf "Latest price for %s: %.4f"
                [AStr symbol; AF64 latestPrice];
              LogPrintf
                "Target price reached! Placing %s order to close position."
                [AStr (closeSide side)];
              CallCreateOrder symbol (closeSide side) "market"
                (Sprintf "%f" [AF64 (F64.div amountUSD currentPrice)])
                (Ok closeOrderID);
              LogPrintf "%s order placed successfully. Order ID: %s. Exiting."
                [AStr (closeSide side); AStr closeOrderID]] /\
        targetReached side latestPrice
          (F64.mul currentPrice
             (if String.eqb side "buy" then F64.c1_01 else F64.c0_99))
        = true) /\
  F64.div (F64.ofZ 1000) (F64.ofZ 100) = F64.ofZ 10 /\
  F64.mul (F64.ofZ 100) F64.c1_01 = F64.ofZ 101 /\
  F64.mul (F64.ofZ 100) F64.c0_99 = F64.ofZ 99.
Proof.
  assert (forall side amountUSD currentPrice orderID (w w1 w2 : W),
             side = "buy" \/ side = "sell" ->
             GetCurrentPrice symbol w = (Ok currentPrice, w1) ->
             CreateOrder symbol side "market"
               (Sprintf "%f" [AF64 (F64.div amountUSD currentPrice)]) w1
             = (Ok orderID, w2) ->
             exists ev1,
               enterTrade symbol side amountUSD true w
               = (Val (Some (F64.div amountUSD currentPrice,
                             F64.mul currentPrice
                               (if String.eqb side "buy"
                                then F64.c1_01 else F64.c0_99))), w2, ev1))
    as Hentry.
  { intros side A P oid w w1 w2 Hside Hp Ho.
    rewrite (enterTrade_eq symbol side A w Hside), Hp.
    cbv zeta. rewrite Ho. eexists. reflexivity. }
  refine (conj _ (conj _ (conj _ (conj _ (conj _ (conj _ (conj _ _))))))).
  - intros A P oid w w1 w2 Hp Ho.
    exact (Hentry "buy" A P oid w w1 w2 (or_introl eq_refl) Hp Ho).
  - intros A P oid w w1 w2 Hp Ho.
    exact (Hentry "sell" A P oid w w1 w2 (or_intror eq_refl) Hp Ho).
  - intros latest target. unfold targetReached. cbn.
    rewrite !orb_false_r. split; reflexivity.
  - intros side size target latest t ev w w1 w2 Hp.
    rewrite monitorTurn_eq, Hp. cbv zeta.
    destruct (targetReached side latest target).
    + destruct (CreateOrder symbol (closeSide side) "market"
                  (Sprintf "%f" [AF64 size]) w1) as [[oid | err] w3];
        intros [= _ _ <-]; (split; [reflexivity | ]); intros _;
        cbn; auto.
    + intros [= _ _ <-]. split; [ | discriminate].
      cbn. intros [H | [H | [H | []]]]; discriminate.
  - intros fuel side A P oid w w1 w2 Hside Hp Ho.
    destruct (Hentry side A P oid w w1 w2 Hside Hp Ho) as [ev1 He].
    exists ev1. split; [exact He | ].
    unfold ExecuteTrade. rewrite He. reflexivity.
  - intros fuel side size target latest w w1 Hp. split.
    + intros Hr. cbn [monitorLoop]. rewrite monitorTurn_eq, Hp. cbv zeta.
      rewrite Hr. reflexivity.
    + intros Hr oid w2 Ho. cbn [monitorLoop].
      rewrite monitorTurn_eq, Hp. cbv zeta. rewrite Hr, Ho. reflexivity.
  - intros fuel side A P oid res ev w w1 w2 w' Hside Hp Ho.
    destruct (Hentry side A P oid w w1 w2 Hside Hp Ho) as [ev1 He].
    unfold ExecuteTrade. rewrite He.
    destruct (monitorLoop fuel symbol side (F64.div A P)
                (F64.mul P (if String.eqb side "buy"
                            then F64.c1_01 else F64.c0_99)) w2)
      as [[[r2 w3] ev2] | ] eqn:Hl; [ | discriminate].
    intros [= _ _ <-].
    destruct (monitorLoop_ends_at_crossing _ _ _ _ _ _ _ _ _ Hl)
      as (ev0 & L & oid2 & -> & Hreach).
    exists (ev1 ++ ev0), L, oid2. split; [now rewrite app_assoc | exact Hreach].
  - repeat split; vm_compute; reflexivity.
Qed.

End TradeFacts.

(** ** The gateway *)

Section GatewayFacts.
Context {W : Type} {fg : Foreign} {ta : Talib} {tr : client.Transport W}.
Context {kg : usecase.KuCoinGateway W} {og : usecase.OpenAIGateway W}.
Variable g : gateway.KuCoinGateway.


(** C9: the price-history lookup ignores its count parameter: two calls
    that differ only in the count ask for the same URL, which is built
    from the base URL, the symbol and the granularity alone, and from the
    same world they return the same result and leave the same world. *)
Theorem C9_GetKlines_ignores_count symbol granularity count1 count2 :
  gateway.GetKlines_url g symbol granularity count1
  = gateway.GetKlines_url g symbol granularity count2 /\
  gateway.GetKlines_url g symbol granularity count1
  = (gateway.baseURL g
     ++ Sprintf "/api/v1/kline/query?symbol=%s&granularity=%d"
          [AStr symbol; AInt granularity])%string /\
  (forall w : W,
      gateway.GetKlines g symbol granularity count1 w
      = gateway.GetKlines g symbol granularity count2 w).
Proof. repeat split. Qed.


End GatewayFacts.

(** ** The return on investment *)

(** C8: for every Asset, CalculateROI returns 0 when the one-interval-prior
    price is 0 (either zero of float64), and otherwise returns
    ((current - prior) / prior) * 100 in float64 arithmetic; with
    current = 105 and prior = 100 the result is exactly 5. *)
Theorem C8_CalculateROI_cases :
  (forall a,
      (exists s, domain.Price1H a = S754_zero s) ->
      domain.CalculateROI a = F64.zero) /\
  (forall a,
      (forall s, domain.Price1H a <> S754_zero s) ->
      domain.CalculateROI a
      = F64.mul
          (F64.div (F64.sub (domain.CurrentPrice a) (domain.Price1H a))
             (domain.Price1H a))
          F64.c100) /\
  domain.CalculateROI (Script.asset "BTCUSDTM" 105 100) = F64.ofZ 5.
Proof.
  refine (conj _ (conj _ _)).
  - intros a Hz. unfold domain.CalculateROI.
    rewrite (proj2 (eqb_zero _) Hz). reflexivity.
  - intros a Hnz. unfold domain.CalculateROI.
    destruct (F64.eqb (domain.Price1H a) F64.zero) eqn:E; [ | reflexivity].
    apply eqb_zero in E. destruct E as [s Hs]. now destruct (Hnz s).
  - vm_compute. reflexivity.
Qed.

(** * Runs on the scripted world *)

Ltac runs := repeat (split; [vm_compute; reflexivity | ]); vm_compute; reflexivity.

(** C1, as stated, fails: previous MACD equal to previous signal (5 and 5),
    current MACD above current signal (7 and 5) and RSI 50 below 70 satisfy
    the long rule of the claim, and the task appends no candidate. *)
Lemma C1_counterexample_equal_previous_values :
  F64.leb (F64.ofZ 5) (F64.ofZ 5) = true /\
  F64.gtb (F64.ofZ 7) (F64.ofZ 5) = true /\
  F64.ltb (F64.ofZ 50) F64.c70 = true /\
  usecase.isLongCandidate
    (usecase.mkSnapshot (F64.ofZ 5) (F64.ofZ 5) (F64.ofZ 7) (F64.ofZ 5)
       (F64.ofZ 50)) = false /\
  fst (fst (usecase.analyzePair "XBTUSDTM"
              (Script.withKlines [Ok (Script.history "7" "5")])))
  = Val ([], []).
Proof. runs. Qed.

(** C1 at a golden cross: previous MACD 3 below the signal 5, current MACD
    7 above it, RSI 50. *)
Lemma C1_witness_golden_cross :
  exists long short ev,
    usecase.analyzePair "XBTUSDTM"
      (Script.withKlines [Ok (Script.history "7" "3")])
    = (Val (long, short), Script.idle, ev) /\
    long <> [].
Proof.
  assert (26 <= len (Script.closes 7 3)) as H26 by (vm_compute; discriminate).
  destruct (C1_candidates_by_strict_crossover (W := Script.World)
              "XBTUSDTM" (Script.history "7" "3") (Script.closes 7 3)
              (rev (Script.closes 7 3))
              (map (fun _ => F64.ofZ 5) (rev (Script.closes 7 3)))
              (rev (Script.closes 7 3))
              (F64.ofZ 7) (F64.ofZ 5) (F64.ofZ 3) (F64.ofZ 5) (F64.ofZ 50)
              (Script.withKlines [Ok (Script.history "7" "3")]) Script.idle)
    as (long & short & ev & Hrun & Hl & _);
    try reflexivity; try exact H26.
  exists long, short, ev. split; [exact Hrun | ].
  apply Hl. vm_compute. auto.
Defined.

(** C5, as stated, fails: a universe that lists a symbol twice starts two
    tasks for it, each on the history it fetches; when the first history is
    at a golden cross and the second at a dead cross, the symbol is placed
    in the long set and in the short set of the same scan. *)
Lemma C5_counterexample_symbol_listed_twice :
  fst (fst (usecase.scanPairs ["AUSDTM"; "AUSDTM"] [] []
              (Script.withKlines
                 [Ok (Script.history "7" "3"); Ok (Script.history "3" "7")])))
  = Val ([Script.asset "AUSDTM" 7 3], [Script.asset "AUSDTM" 3 7]) /\
  In "AUSDTM" (map domain.Symbol [Script.asset "AUSDTM" 7 3]) /\
  In "AUSDTM" (map domain.Symbol [Script.asset "AUSDTM" 3 7]) /\
  exists w ev,
    usecase.AnalyzeTrends
      (Script.mkWorld [Ok ["AUSDTM"; "AUSDTM"]] [] []
         [Ok (Script.history "7" "3"); Ok (Script.history "3" "7")] [] [])
    = (Val tt, w, ev) /\
    In (LogPrintf "[LONG Candidate] %s: GoldenCross, RSI=%.2f"
          [AStr "AUSDTM"; AF64 (F64.ofZ 50)]) ev /\
    In (LogPrintf "[SHORT Candidate] %s: DeadCross, RSI=%.2f"
          [AStr "AUSDTM"; AF64 (F64.ofZ 50)]) ev.
Proof.
  split; [vm_compute; reflexivity | ].
  split; [now left | ]. split; [now left | ].
  do 2 eexists. split; [vm_compute; reflexivity | ].
  split; cbn; tauto.
Qed.

(** C5 on a scan of two pairs, the first at a golden cross and the second
    at a dead cross. *)
Lemma C5_witness_two_pairs :
  NoDup ["AUSDTM"; "BUSDTM"] /\
  domain.Symbol (Script.asset "AUSDTM" 7 3)
  <> domain.Symbol (Script.asset "BUSDTM" 3 7).
Proof.
  assert (NoDup ["AUSDTM"; "BUSDTM"]) as Hnd.
  { repeat constructor; cbn; intuition discriminate. }
  split; [exact Hnd | ].
  eapply (proj2 (proj2 (C5_long_and_short_exclusive (W := Script.World)))
            ["AUSDTM"; "BUSDTM"]
            [Script.asset "AUSDTM" 7 3] [Script.asset "BUSDTM" 3 7] _
            (Script.withKlines
               [Ok (Script.history "7" "3"); Ok (Script.history "3" "7")])
            Script.idle Hnd).
  - reflexivity.
  - now left.
  - now left.
Defined.

(** C7 on a history of two candles. *)
Lemma C7_witness_two_candles :
  usecase.skipsPair "XBTUSDTM" (Ok [Script.candle "7"; Script.candle "3"])
    (LogPrintf "Not enough data for MACD calculation on %s"
       [AStr "XBTUSDTM"])
    (Script.withKlines [Ok [Script.candle "7"; Script.candle "3"]])
    Script.idle.
Proof.
  apply (C7_short_history_is_skipped (W := Script.World) "XBTUSDTM"
           [Script.candle "7"; Script.candle "3"] [F64.ofZ 7; F64.ofZ 3]);
    reflexivity.
Defined.

(** C3, as stated, fails: when the market-universe lookup fails, the
    failure is logged and the process is ended with exit status 1. *)
Lemma C3_counterexample_universe_lookup_exits :
  usecase.AnalyzeTrends (Script.withTop20 [Err "timeout"])
  = (Exit 1, Script.idle,
     [LogPrintln "Fetching top 20 USDT pairs by volume...";
      CallGetTop20USDTpairsByVolume (Err "timeout");
      LogFatalf "Error getting top pairs: %v" [AErr "timeout"]]) /\
  forall w ev,
    usecase.AnalyzeTrends (Script.withTop20 [Err "timeout"])
    <> (Val tt, w, ev).
Proof.
  split; [vm_compute; reflexivity | ].
  intros w ev. vm_compute. discriminate.
Qed.

(** C3 on a pair whose price history cannot be fetched. *)
Lemma C3_witness_fetch_failure :
  usecase.skipsPair "XBTUSDTM" (Err "timeout")
    (LogPrintf "Could not get klines for %s: %v"
       [AStr "XBTUSDTM"; AErr "timeout"])
    (Script.withKlines [Err "timeout"]) Script.idle.
Proof.
  apply (proj1 (proj2 (C3_failures_are_logged (W := Script.World)))).
  reflexivity.
Defined.

(** C2, as stated, fails: with the side "hold" and the execute flag unset,
    the dry run is reported and the invalid side is not. *)
Lemma C2_counterexample_dry_run_checked_first :
  usecase.ExecuteTrade 0 "XBTUSDTM" "hold" (F64.ofZ 1000) false Script.idle
  = Some (Val tt, Script.idle,
          [LogPrintln
             "Execute flag is not set. Exiting trade execution (Dry Run)."])
  /\ ~ In (LogPrintf "Invalid side: %s. Must be 'buy' or 'sell'."
             [AStr "hold"])
          [LogPrintln
             "Execute flag is not set. Exiting trade execution (Dry Run)."].
Proof.
  split; [vm_compute; reflexivity | ].
  intros [H | []]. discriminate H.
Qed.

(** C2 on the side "hold" with the execute flag set. *)
Lemma C2_witness_hold :
  usecase.ExecuteTrade 0 "XBTUSDTM" "hold" (F64.ofZ 1000) true Script.idle
  = Some (Val tt, Script.idle,
          [LogPrintf "Invalid side: %s. Must be 'buy' or 'sell'."
             [AStr "hold"]]).
Proof.
  apply (C2_invalid_side_aborts_without_calls (W := Script.World)
           0 "XBTUSDTM" "hold" (F64.ofZ 1000) true Script.idle);
    discriminate.
Defined.

(** C4 on a price fetch that times out. *)
Lemma C4_witness_price_timeout :
  usecase.monitorTurn "XBTUSDTM" "buy" (F64.ofZ 10) (F64.ofZ 101)
    (Script.withExchange [Err "timeout"] [])
  = (Val usecase.Continue, Script.idle,
     [Sleep 30; CallGetCurrentPrice "XBTUSDTM" (Err "timeout");
      LogPrintf "Could not get latest price for %s: %v"
        [AStr "XBTUSDTM"; AErr "timeout"]]).
Proof.
  apply (proj1 (C4_monitor_loop_closes_only_on_accepted_exit
                  (W := Script.World)
                  "XBTUSDTM" "buy" (F64.ofZ 10) (F64.ofZ 101))).
  reflexivity.
Defined.

(** A whole trade: entry at 100, a fetch that fails, an exit order that is
    rejected at 102, a price below the target, and the exit at 103. Two
    orders are accepted: the entry and the exit. *)
Example ExecuteTrade_run :
  exists ev,
    usecase.ExecuteTrade 4 "XBTUSDTM" "buy" (F64.ofZ 1000) true
      (Script.withExchange
         [Ok (F64.ofZ 100); Err "timeout"; Ok (F64.ofZ 102);
          Ok (F64.ofZ 100); Ok (F64.ofZ 103)]
         [Ok "1"; Err "rejected"; Ok "2"])
    = Some (Val tt, Script.idle, ev) /\
    List.length (filter isOrderOk ev) = 2%nat /\
    usecase.ExecuteTrade 3 "XBTUSDTM" "buy" (F64.ofZ 1000) true
      (Script.withExchange
         [Ok (F64.ofZ 100); Err "timeout"; Ok (F64.ofZ 102);
          Ok (F64.ofZ 100); Ok (F64.ofZ 103)]
         [Ok "1"; Err "rejected"; Ok "2"])
    = None.
Proof.
  eexists. split; [vm_compute; reflexivity | ].
  split; vm_compute; reflexivity.
Qed.

(** C6 on a "buy" of 1000 at the price 100. *)
Lemma C6_witness_buy_1000_at_100 :
  exists ev,
    usecase.enterTrade "XBTUSDTM" "buy" (F64.ofZ 1000) true
      (Script.withExchange [Ok (F64.ofZ 100)] [Ok "1"])
    = (Val (Some (F64.ofZ 10, F64.ofZ 101)), Script.idle, ev).
Proof.
  destruct (proj1 (C6_size_target_and_crossing (W := Script.World) "XBTUSDTM")
              (F64.ofZ 1000) (F64.ofZ 100) "1"
              (Script.withExchange [Ok (F64.ofZ 100)] [Ok "1"])
              (Script.withExchange [] [Ok "1"]) Script.idle) as [ev Hev];
    try reflexivity.
  exists ev. exact Hev.
Defined.

(** C8 on a prior price of 0. *)
Lemma C8_witness_prior_zero :
  domain.CalculateROI (Script.asset "XBTUSDTM" 105 0) = F64.zero.
Proof.
  apply (proj1 C8_CalculateROI_cases). exists false. reflexivity.
Defined.


(** * Further properties of the scan *)

Section ScanFacts.
Context {W : Type} {fg : Foreign} {ta : Talib}.
Context {kg : usecase.KuCoinGateway W} {og : usecase.OpenAIGateway W}.

Import usecase.

Ltac run :=
  unfold orPanic; unfold bind, emit, emits, call, ret, panic, osExit; cbn.

Lemma forallb_weaken {A} (f g : A -> bool) (l : list A) :
  (forall a, f a = true -> g a = true) ->
  forallb f l = true -> forallb g l = true.
Proof.
  intros Hfg. rewrite !forallb_forall. auto.
Qed.

Lemma klinesAsked_app ev1 ev2 :
  klinesAsked (ev1 ++ ev2) = klinesAsked ev1 ++ klinesAsked ev2.
Proof.
  induction ev1 as [ | e ev1 IH]; [reflexivity | ].
  destruct e; cbn; rewrite IH; reflexivity.
Qed.

Lemma parseCloses_length klines :
  forall prices,
    parseCloses klines = ClosesOk prices ->
    List.length prices = List.length klines /\
    Forall2 (fun k price =>
               exists field,
                 index k 2 = Some field /\ ParseFloat field 64 = Ok price)
      klines prices.
Proof.
  induction klines as [ | k rest IH]; intros prices; cbn [parseCloses].
  - intros [= <-]. split; [reflexivity | constructor].
  - destruct (index k 2) as [field | ] eqn:Hi; cbn; [ | discriminate].
    destruct (ParseFloat field 64) as [price | err] eqn:Hf; cbn;
      [ | discriminate].
    destruct (parseCloses rest) as [prices' | err | ]; cbn;
      try discriminate.
    intros [= <-]. destruct (IH prices' eq_refl) as [Hl Hall].
    split; [cbn; now rewrite Hl | ].
    constructor; [now exists field | exact Hall].
Qed.

Lemma parseCloses_app_panic pre k post prices :
  parseCloses pre = ClosesOk prices ->
  index k 2 = None ->
  parseCloses (pre ++ k :: post) = ClosesPanic.
Proof.
  revert prices.
  induction pre as [ | k0 pre IH]; intros prices; cbn [parseCloses app].
  - intros _ ->. reflexivity.
  - destruct (index k0 2) as [field | ]; cbn; [ | discriminate].
    destruct (ParseFloat field 64) as [price | err]; cbn; [ | discriminate].
    destruct (parseCloses pre) as [prices' | err | ] eqn:Hp; cbn;
      try discriminate.
    intros _ Hk. now rewrite (IH prices' eq_refl Hk).
Qed.

Lemma parseCloses_panic_inv klines :
  parseCloses klines = ClosesPanic ->
  exists pre k post prices,
    klines = pre ++ k :: post /\
    parseCloses pre = ClosesOk prices /\
    index k 2 = None.
Proof.
  induction klines as [ | k rest IH]; cbn [parseCloses]; [discriminate | ].
  destruct (index k 2) as [field | ] eqn:Hi; cbn.
  - destruct (ParseFloat field 64) as [price | err] eqn:Hf; cbn;
      [ | discriminate].
    destruct (parseCloses rest) as [prices' | err | ]; cbn;
      try discriminate.
    intros _. destruct (IH eq_refl) as (pre & k1 & post & prices & -> & Hp & Hk).
    exists (k :: pre), k1, post, (price :: prices).
    split; [reflexivity | ]. split; [ | exact Hk].
    cbn [parseCloses]. now rewrite Hi, Hf, Hp.
  - intros _. exists [], k, rest, []. auto.
Qed.

Lemma index_None_short {A} (l : list A) (i : Z) :
  0 <= i -> (index l i = None <-> len l <= i).
Proof.
  intros Hi. unfold index, len.
  destruct (Z.ltb_spec i 0) as [H | _]; [lia | ].
  rewrite nth_error_None. lia.
Qed.

Lemma createAsset_prices symbol closePrices macd rsi (w : W) :
  createAsset symbol closePrices macd rsi w = (Panic, w, []) \/
  exists a,
    createAsset symbol closePrices macd rsi w = (Val a, w, []) /\
    index closePrices (len closePrices - 1) = Some (domain.CurrentPrice a) /\
    index closePrices (len closePrices - 2) = Some (domain.Price1H a).
Proof.
  unfold createAsset, at_. run.
  destruct (index closePrices (len closePrices - 1)) as [cur | ]; cbn;
    [ | now left].
  destruct (index closePrices (len closePrices - 2)) as [p1h | ]; cbn;
    [ | now left].
  right. eexists. repeat split.
Qed.

(** What a task does, whatever it is given. *)
Lemma analyzePair_outcome p (w : W) :
  exists r w1 res logs,
    GetKlines p 60 100 w = (r, w1) /\
    analyzePair p w
    = (res, w1,
       LogPrintf "Analyzing %s..." [AStr p]
       :: CallGetKlines p 60 100 r :: logs) /\
    forallb isLog logs = true /\
    (forall c, res <> Exit c) /\
    (forall long short,
        res = Val (long, short) ->
        (List.length long + List.length short <= 1)%nat /\
        forall a,
          In a (long ++ short) ->
          exists klines received,
            r = Ok klines /\
            parseCloses klines = ClosesOk received /\
            26 <= len received /\
            index (rev received) (len received - 1)
            = Some (domain.CurrentPrice a) /\
            index (rev received) (len received - 2)
            = Some (domain.Price1H a)).
Proof.
  unfold analyzePair. run.
  destruct (GetKlines p 60 100 w) as [[klines | err] w1]; cbn.
  2:{ do 4 eexists. split; [reflexivity | ]. split; [reflexivity | ].
      split; [reflexivity | ]. split; [discriminate | ].
      intros long short [= <- <-]. cbn. split; [lia | tauto]. }
  destruct (parseCloses klines) as [received | err | ] eqn:Hp; cbn.
  2:{ do 4 eexists. split; [reflexivity | ]. split; [reflexivity | ].
      split; [reflexivity | ]. split; [discriminate | ].
      intros long short [= <- <-]. cbn. split; [lia | tauto]. }
  2:{ do 4 eexists. split; [reflexivity | ]. split; [reflexivity | ].
      split; [reflexivity | ]. split; discriminate. }
  rewrite reverse_rev. cbv beta iota. rewrite len_rev.
  destruct (Z.ltb_spec (len received) 26) as [Hlt | Hge]; cbn.
  { do 4 eexists. split; [reflexivity | ]. split; [reflexivity | ].
    split; [reflexivity | ]. split; [discriminate | ].
    intros long short [= <- <-]. cbn. split; [lia | tauto]. }
  destruct (Macd (rev received) 12 26 9) as [[macd macdSignal] hist].
  unfold bind.
  destruct (readSnapshot_cases macd macdSignal (Rsi (rev received) 14) w1)
    as [-> | [s ->]].
  { do 4 eexists. split; [reflexivity | ]. split; [reflexivity | ].
    split; [reflexivity | ]. split; discriminate. }
  assert (forall a,
             index (rev received) (len (rev received) - 1)
             = Some (domain.CurrentPrice a) ->
             index (rev received) (len (rev received) - 2)
             = Some (domain.Price1H a) ->
             exists klines0 received0,
               @Ok (list (list string)) klines = Ok klines0 /\
               parseCloses klines0 = ClosesOk received0 /\
               26 <= len received0 /\
               index (rev received0) (len received0 - 1)
               = Some (domain.CurrentPrice a) /\
               index (rev received0) (len received0 - 2)
               = Some (domain.Price1H a)) as Hasset.
  { intros a Hc Hh. rewrite len_rev in Hc, Hh.
    exists klines, received. auto. }
  destruct (isLongCandidate s) eqn:Hlong.
  - rewrite (long_excludes_short s Hlong).
    destruct (createAsset_prices p (rev received) (lastMacd s) (lastRsi s) w1)
      as [-> | [a (-> & Hc & Hh)]].
    { do 4 eexists. split; [reflexivity | ]. split; [reflexivity | ].
      split; [reflexivity | ]. split; discriminate. }
    cbn. do 4 eexists. split; [reflexivity | ]. split; [reflexivity | ].
    split; [reflexivity | ]. split; [discriminate | ].
    intros long short [= <- <-]. cbn. split; [lia | ].
    intros a' [<- | []]. now apply Hasset.
  - cbn. destruct (isShortCandidate s).
    + destruct (createAsset_prices p (rev received) (lastMacd s) (lastRsi s)
                  w1) as [-> | [a (-> & Hc & Hh)]].
      { do 4 eexists. split; [reflexivity | ]. split; [reflexivity | ].
        split; [reflexivity | ]. split; discriminate. }
      cbn. do 4 eexists. split; [reflexivity | ]. split; [reflexivity | ].
      split; [reflexivity | ]. split; [discriminate | ].
      intros long short [= <- <-]. cbn. split; [lia | ].
      intros a' [<- | []]. now apply Hasset.
    + cbn. do 4 eexists. split; [reflexivity | ]. split; [reflexivity | ].
      split; [reflexivity | ]. split; [discriminate | ].
      intros long short [= <- <-]. cbn. split; [lia | tauto].
Qed.

Lemma index_rev_last {A} (x : A) (l : list A) :
  index (rev (x :: l)) (len (x :: l) - 1) = Some x.
Proof.
  cbn [rev].
  replace (len (x :: l) - 1) with (len (rev l))
    by (rewrite len_rev; unfold len; cbn [List.length]; lia).
  apply index_app_mid.
Qed.

Lemma index_rev_penultimate {A} (x y : A) (l : list A) :
  index (rev (x :: y :: l)) (len (x :: y :: l) - 2) = Some y.
Proof.
  cbn [rev]. rewrite <- app_assoc. cbn [app].
  replace (len (x :: y :: l) - 2) with (len (rev l))
    by (rewrite len_rev; unfold len; cbn [List.length]; lia).
  apply index_app_mid.
Qed.

(** The scan, whatever the tasks are given. *)
Lemma scanPairs_outcome pairs :
  forall longCandidates shortCandidates (w : W),
  exists res w1 ev,
    scanPairs pairs longCandidates shortCandidates w = (res, w1, ev) /\
    forallb (fun e => isLog e || isKlinesCall e) ev = true /\
    (forall c, res <> Exit c) /\
    (forall long short,
        res = Val (long, short) ->
        klinesAsked ev = map (fun p => (p, 60, 100)) pairs /\
        exists long' short',
          long = longCandidates ++ long' /\
          short = shortCandidates ++ short' /\
          (List.length long' + List.length short' <= List.length pairs)%nat).
Proof.
  induction pairs as [ | p rest IH]; intros L0 S0 w.
  - do 3 eexists. split; [reflexivity | ]. split; [reflexivity | ].
    split; [discriminate | ].
    intros long short [= <- <-]. split; [reflexivity | ].
    exists [], []. rewrite !app_nil_r. cbn. auto.
  - rewrite scanPairs_cons.
    destruct (analyzePair_outcome p w)
      as (r & w0 & res0 & logs & _ & -> & Hlogs & Hexit & Hval).
    destruct res0 as [[l s] | | c]; [ | | now destruct (Hexit c)].
    + destruct (IH (L0 ++ l) (S0 ++ s) w0)
        as (res & w1 & ev & -> & Hev & Hexit' & Hval').
      do 3 eexists. split; [reflexivity | ].
      split.
      { cbn. rewrite forallb_app, Hev, andb_true_r.
        revert Hlogs. apply forallb_weaken.
        intros e He. now rewrite He. }
      split; [exact Hexit' | ].
      intros long short ->.
      destruct (Hval' _ _ eq_refl) as (Hk & l' & s' & -> & -> & Hn).
      destruct (Hval _ _ eq_refl) as (Hone & _).
      split.
      { cbn. rewrite klinesAsked_app, Hk. f_equal.
        clear - Hlogs. induction logs as [ | e logs IHl]; [reflexivity | ].
        cbn in Hlogs. apply andb_true_iff in Hlogs as [He Hl].
        destruct e; try discriminate; cbn; auto. }
      exists (l ++ l'), (s ++ s'). rewrite !app_assoc.
      split; [reflexivity | ]. split; [reflexivity | ].
      rewrite !length_app. cbn. lia.
    + do 3 eexists. split; [reflexivity | ].
      split.
      { cbn. revert Hlogs. apply forallb_weaken.
        intros e He. now rewrite He. }
      split; discriminate.
Qed.

(** AnalyzeTrends after a successful lookup of the universe. *)
Lemma AnalyzeTrends_eq pairs (w0 w : W) :
  GetTop20USDTpairsByVolume w0 = (Ok pairs, w) ->
  AnalyzeTrends w0
  = let found :=
      [LogPrintln "Fetching top 20 USDT pairs by volume...";
       CallGetTop20USDTpairsByVolume (Ok pairs);
       LogPrintf ("Found pairs: %v" ++ nl)%string [AStrs pairs]] in
    match scanPairs pairs [] [] w with
    | (Val (longCandidates, shortCandidates), w1, ev1) =>
        match reportLong longCandidates w1 with
        | (Val _, w2, ev2) =>
            match reportShort shortCandidates w2 with
            | (r, w3, ev3) => (r, w3, found ++ ev1 ++ ev2 ++ ev3)
            end
        | (Panic, w2, ev2) => (Panic, w2, found ++ ev1 ++ ev2)
        | (Exit c, w2, ev2) => (Exit c, w2, found ++ ev1 ++ ev2)
        end
    | (Panic, w1, ev1) => (Panic, w1, found ++ ev1)
    | (Exit c, w1, ev1) => (Exit c, w1, found ++ ev1)
    end.
Proof.
  intros Ht.
  cbv beta iota delta [AnalyzeTrends bind emit call ret].
  rewrite Ht. cbv beta iota.
  destruct (scanPairs pairs [] [] w) as [[[[L S] | | c] w1] ev1];
    try reflexivity.
  destruct (reportLong L w1) as [[[[] | | c] w2] ev2]; try reflexivity.
  destruct (reportShort S w2) as [[r w3] ev3]. reflexivity.
Qed.

(** X2: when every candle has a close field that parses, there is exactly
    one close price per candle, in the order received, and each is the
    float parsed from field 2 of its candle. *)
Theorem X2_parseCloses_one_price_per_candle klines prices :
  parseCloses klines = ClosesOk prices ->
  List.length prices = List.length klines /\
  Forall2 (fun k price =>
             exists field,
               index k 2 = Some field /\ ParseFloat field 64 = Ok price)
    klines prices.
Proof. apply parseCloses_length. Qed.

(** X3: a candle with fewer than three fields, after candles whose close
    fields parse, makes the task panic at [k[2]]: no line is logged after
    the fetch, the remaining pairs of the scan are not analysed, and
    AnalyzeTrends ends in the panic without any report. *)
Theorem X3_short_candle_panics_the_scan p pre k post prices (w w1 : W) :
  GetKlines p 60 100 w = (Ok (pre ++ k :: post), w1) ->
  parseCloses pre = ClosesOk prices ->
  len k <= 2 ->
  let ev := [LogPrintf "Analyzing %s..." [AStr p];
             CallGetKlines p 60 100 (Ok (pre ++ k :: post))] in
  analyzePair p w = (Panic, w1, ev) /\
  (forall rest longCandidates shortCandidates,
      scanPairs (p :: rest) longCandidates shortCandidates w
      = (Panic, w1, ev)) /\
  (forall rest (w0 : W),
      GetTop20USDTpairsByVolume w0 = (Ok (p :: rest), w) ->
      AnalyzeTrends w0
      = (Panic, w1,
         [LogPrintln "Fetching top 20 USDT pairs by volume...";
          CallGetTop20USDTpairsByVolume (Ok (p :: rest));
          LogPrintf ("Found pairs: %v" ++ nl)%string [AStrs (p :: rest)]]
         ++ ev)).
Proof.
  intros Hk Hp Hlen ev.
  assert (parseCloses (pre ++ k :: post) = ClosesPanic) as Hpanic.
  { apply (parseCloses_app_panic pre k post prices Hp).
    now apply index_None_short. }
  assert (analyzePair p w = (Panic, w1, ev)) as Ha.
  { unfold analyzePair. run. rewrite Hk. cbn. rewrite Hpanic. reflexivity. }
  split; [exact Ha | ]. split.
  - intros rest L S. rewrite scanPairs_cons, Ha. reflexivity.
  - intros rest w0 Ht. rewrite (AnalyzeTrends_eq _ _ _ Ht). cbv zeta.
    rewrite scanPairs_cons, Ha. reflexivity.
Qed.

(** X4: every candidate of a task stems from a fetched history of at least
    26 candles whose close fields all parse; its current price is the close
    of the first candle received, and its price one interval before is the
    close of the second. *)
Theorem X4_candidate_prices p long short ev a (w w1 : W) :
  analyzePair p w = (Val (long, short), w1, ev) ->
  In a (long ++ short) ->
  exists klines c0 c1 more,
    GetKlines p 60 100 w = (Ok klines, w1) /\
    parseCloses klines = ClosesOk (c0 :: c1 :: more) /\
    26 <= len (c0 :: c1 :: more) /\
    domain.CurrentPrice a = c0 /\
    domain.Price1H a = c1.
Proof.
  intros Ha Hin.
  destruct (analyzePair_outcome p w)
    as (r & w0 & res & logs & Hk & Hrun & _ & _ & Hval).
  rewrite Hrun in Ha. injection Ha as -> -> _.
  destruct (Hval _ _ eq_refl) as (_ & Hassets).
  destruct (Hassets a Hin) as (klines & received & -> & Hp & Hlen & Hc & Hh).
  destruct received as [ | c0 [ | c1 more]];
    try (unfold len in Hlen; cbn in Hlen; lia).
  rewrite index_rev_last in Hc. rewrite index_rev_penultimate in Hh.
  injection Hc as Hc. injection Hh as Hh.
  exists klines, c0, c1, more. auto.
Qed.

(** X5: a scan that returns has asked for the price history of every pair
    exactly once, with granularity 60 and count 100, in whatever order its
    tasks are run one after the other; it has called no other collaborator;
    it has kept the candidates it started with and added at most one
    candidate per pair. *)
Theorem X5_scan_asks_once_per_pair
    pairs order longCandidates shortCandidates long short ev (w w1 : W) :
  Permutation order pairs ->
  scanPairs order longCandidates shortCandidates w
  = (Val (long, short), w1, ev) ->
  Permutation (klinesAsked ev) (map (fun p => (p, 60, 100)) pairs) /\
  forallb (fun e => isLog e || isKlinesCall e) ev = true /\
  exists long' short',
    long = longCandidates ++ long' /\
    short = shortCandidates ++ short' /\
    (List.length long' + List.length short' <= List.length pairs)%nat.
Proof.
  intros Hperm Hs.
  destruct (scanPairs_outcome order longCandidates shortCandidates w)
    as (res & w0 & ev0 & Hrun & Hev & _ & Hval).
  rewrite Hrun in Hs. injection Hs as -> _ ->.
  destruct (Hval _ _ eq_refl) as (Hk & long' & short' & Hl & Hs & Hn).
  split; [rewrite Hk; now apply Permutation_map | ].
  split; [exact Hev | ].
  exists long', short'. rewrite <- (Permutation_length Hperm). auto.
Qed.

End ScanFacts.

(** X1: the loop that reverses the close prices in place never indexes out
    of range and leaves the slice in reverse order. *)
Theorem X1_reversal_in_place {A} (a : list A) :
  reverse a = Some (rev a).
Proof. apply reverse_rev. Qed.

(** * Further properties of the report *)

Section ReportFacts.
Context {W : Type} {fg : Foreign} {ta : Talib}.
Context {kg : usecase.KuCoinGateway W} {og : usecase.OpenAIGateway W}.

Import usecase.

Lemma no_ask_in_scan_events ev :
  forallb (fun e => isLog e || isKlinesCall e) ev = true ->
  filter isAsk ev = [].
Proof.
  induction ev as [ | e ev IH]; [reflexivity | ].
  cbn. intros [He Hev]%andb_true_iff.
  rewrite (IH Hev). destruct e; try discriminate; reflexivity.
Qed.

Lemma no_klines_in_report_events ev :
  forallb (fun e => isLog e || isAsk e) ev = true ->
  klinesAsked ev = [].
Proof.
  induction ev as [ | e ev IH]; [reflexivity | ].
  cbn. intros [He Hev]%andb_true_iff.
  destruct e; try discriminate; cbn; auto.
Qed.

Lemma logInfos_logs infos :
  forallb (fun e => isLog e || isAsk e) (logInfos infos) = true /\
  filter isAsk (logInfos infos) = [].
Proof.
  induction infos as [ | info infos [IH1 IH2]]; [split; reflexivity | ].
  split; [exact IH1 | exact IH2].
Qed.

Lemma len_cons_pos {A} (a : A) (l : list A) : (0 <? len (a :: l)) = true.
Proof. apply Z.ltb_lt. unfold len. cbn [List.length]. lia. Qed.

(** The report on one candidate set, by the answer of the summarizer. *)
Lemma reportLong_eq longCandidates (w : W) :
  reportLong longCandidates w
  = match longCandidates with
    | [] =>
        (Val tt, w,
         [LogPrintln (nl ++ "--- No LONG candidates found ---")%string])
    | _ :: _ =>
        let infos := assetInfo longCandidates in
        let asked r :=
          [LogPrintf (nl ++ "--- Found %d LONG candidates ---")%string
             [AInt (len longCandidates)]]
          ++ logInfos infos
          ++ [LogPrintln "Asking OpenAI for LONG analysis...";
              CallAskAboutAssets infos "buy" r] in
        match AskAboutAssets infos "buy" w with
        | (Err err, w1) =>
            (Val tt, w1,
             asked (Err err)
             ++ [LogPrintf "Error getting LONG analysis from OpenAI: %v"
                   [AErr err]])
        | (Ok analysis, w1) =>
            (Val tt, w1,
             asked (Ok analysis)
             ++ [FmtPrintln (nl ++ "--- OpenAI LONG Analysis ---")%string;
                 FmtPrintln analysis;
                 FmtPrintln "--------------------------"])
        end
    end.
Proof.
  destruct longCandidates as [ | a l]; [reflexivity | ].
  unfold reportLong. rewrite len_cons_pos.
  cbv beta iota delta [bind emit emits call ret].
  destruct (AskAboutAssets (assetInfo (a :: l)) "buy" w) as [[analysis | err] w1];
    cbv beta iota zeta; rewrite <- ?app_assoc; reflexivity.
Qed.

Lemma reportShort_eq shortCandidates (w : W) :
  reportShort shortCandidates w
  = match shortCandidates with
    | [] =>
        (Val tt, w,
         [LogPrintln (nl ++ "--- No SHORT candidates found ---")%string])
    | _ :: _ =>
        let infos := assetInfo shortCandidates in
        let asked r :=
          [LogPrintf (nl ++ "--- Found %d SHORT candidates ---")%string
             [AInt (len shortCandidates)]]
          ++ logInfos infos
          ++ [LogPrintln "Asking OpenAI for SHORT analysis...";
              CallAskAboutAssets infos "sell" r] in
        match AskAboutAssets infos "sell" w with
        | (Err err, w1) =>
            (Val tt, w1,
             asked (Err err)
             ++ [LogPrintf "Error getting SHORT analysis from OpenAI: %v"
                   [AErr err]])
        | (Ok analysis, w1) =>
            (Val tt, w1,
             asked (Ok analysis)
             ++ [FmtPrintln (nl ++ "--- OpenAI SHORT Analysis ---")%string;
                 FmtPrintln analysis;
                 FmtPrintln "---------------------------"])
        end
    end.
Proof.
  destruct shortCandidates as [ | a l]; [reflexivity | ].
  unfold reportShort. rewrite len_cons_pos.
  cbv beta iota delta [bind emit emits call ret].
  destruct (AskAboutAssets (assetInfo (a :: l)) "sell" w)
    as [[analysis | err] w1];
    cbv beta iota zeta; rewrite <- ?app_assoc; reflexivity.
Qed.

Lemma filter_isAsk_logInfos_app infos ev :
  filter isAsk (logInfos infos ++ ev) = filter isAsk ev.
Proof.
  rewrite filter_app, (proj2 (logInfos_logs infos)). reflexivity.
Qed.

Lemma forallb_report_logInfos_app infos ev :
  forallb (fun e => isLog e || isAsk e) ev = true ->
  forallb (fun e => isLog e || isAsk e) (logInfos infos ++ ev) = true.
Proof.
  intros Hev. now rewrite forallb_app, (proj1 (logInfos_logs infos)), Hev.
Qed.

(** What the two reports do, whatever the summarizer answers. *)
Lemma report_outcome :
  (forall longCandidates (w : W),
      exists w1 ev,
        reportLong longCandidates w = (Val tt, w1, ev) /\
        forallb (fun e => isLog e || isAsk e) ev = true /\
        List.length (assetInfo longCandidates) = List.length longCandidates /\
        match longCandidates with
        | [] => w1 = w /\ filter isAsk ev = []
        | _ :: _ =>
            exists r,
              AskAboutAssets (assetInfo longCandidates) "buy" w = (r, w1) /\
              filter isAsk ev
              = [CallAskAboutAssets (assetInfo longCandidates) "buy" r]
        end) /\
  (forall shortCandidates (w : W),
      exists w1 ev,
        reportShort shortCandidates w = (Val tt, w1, ev) /\
        forallb (fun e => isLog e || isAsk e) ev = true /\
        List.length (assetInfo shortCandidates)
        = List.length shortCandidates /\
        match shortCandidates with
        | [] => w1 = w /\ filter isAsk ev = []
        | _ :: _ =>
            exists r,
              AskAboutAssets (assetInfo shortCandidates) "sell" w = (r, w1) /\
              filter isAsk ev
              = [CallAskAboutAssets (assetInfo shortCandidates) "sell" r]
        end).
Proof.
  split.
  - intros cands w. rewrite reportLong_eq.
    destruct cands as [ | a l].
    + do 2 eexists. repeat split.
    + cbv zeta.
      destruct (AskAboutAssets (assetInfo (a :: l)) "buy" w)
        as [[analysis | err] w1];
        do 2 eexists; (split; [reflexivity | ]);
        (split; [rewrite <- ?app_assoc;
                 cbn [app forallb isLog isAsk orb andb];
                 now apply forallb_report_logInfos_app | ]);
        (split; [unfold assetInfo; now rewrite length_map | ]);
        eexists; (split; [reflexivity | ]);
        rewrite <- ?app_assoc;
        cbn [app filter isAsk]; rewrite filter_isAsk_logInfos_app;
        reflexivity.
  - intros cands w. rewrite reportShort_eq.
    destruct cands as [ | a l].
    + do 2 eexists. repeat split.
    + cbv zeta.
      destruct (AskAboutAssets (assetInfo (a :: l)) "sell" w)
        as [[analysis | err] w1];
        do 2 eexists; (split; [reflexivity | ]);
        (split; [rewrite <- ?app_assoc;
                 cbn [app forallb isLog isAsk orb andb];
                 now apply forallb_report_logInfos_app | ]);
        (split; [unfold assetInfo; now rewrite length_map | ]);
        eexists; (split; [reflexivity | ]);
        rewrite <- ?app_assoc;
        cbn [app filter isAsk]; rewrite filter_isAsk_logInfos_app;
        reflexivity.
Qed.

(** X6: the report on a candidate set always returns normally. For an
    empty set it calls nobody and leaves the world as it is. For a non-empty
    set it asks the summarizer exactly once, with one description per
    candidate and the side "buy" for the long set and "sell" for the short
    set; whether the summarizer answers or fails changes only what is
    printed. *)
Theorem X6_report_asks_once_for_a_nonempty_set :
  (forall longCandidates (w : W),
      exists w1 ev,
        reportLong longCandidates w = (Val tt, w1, ev) /\
        forallb (fun e => isLog e || isAsk e) ev = true /\
        List.length (assetInfo longCandidates) = List.length longCandidates /\
        match longCandidates with
        | [] => w1 = w /\ filter isAsk ev = []
        | _ :: _ =>
            exists r,
              AskAboutAssets (assetInfo longCandidates) "buy" w = (r, w1) /\
              filter isAsk ev
              = [CallAskAboutAssets (assetInfo longCandidates) "buy" r]
        end) /\
  (forall shortCandidates (w : W),
      exists w1 ev,
        reportShort shortCandidates w = (Val tt, w1, ev) /\
        forallb (fun e => isLog e || isAsk e) ev = true /\
        List.length (assetInfo shortCandidates)
        = List.length shortCandidates /\
        match shortCandidates with
        | [] => w1 = w /\ filter isAsk ev = []
        | _ :: _ =>
            exists r,
              AskAboutAssets (assetInfo shortCandidates) "sell" w = (r, w1) /\
              filter isAsk ev
              = [CallAskAboutAssets (assetInfo shortCandidates) "sell" r]
        end).
Proof. exact report_outcome. Qed.

(** X7: AnalyzeTrends ends the process with an exit status only when the
    lookup of the universe has failed, with status 1 and before any price
    history or summary is asked for; it panics only when a task of the scan
    panics, and then no summary is asked for; when it returns, the price
    history of every pair of the universe has been asked for exactly once,
    in some order, and the summarizer has been asked at most twice. *)
Theorem X7_AnalyzeTrends_outcomes res ev (w w' : W) :
  AnalyzeTrends w = (res, w', ev) ->
  match res with
  | Exit c =>
      c = 1 /\
      (exists err, GetTop20USDTpairsByVolume w = (Err err, w')) /\
      klinesAsked ev = [] /\ filter isAsk ev = []
  | Panic =>
      exists pairs w1,
        GetTop20USDTpairsByVolume w = (Ok pairs, w1) /\
        fst (fst (scanPairs pairs [] [] w1)) = Panic /\
        filter isAsk ev = []
  | Val _ =>
      exists pairs w1,
        GetTop20USDTpairsByVolume w = (Ok pairs, w1) /\
        Permutation (klinesAsked ev) (map (fun p => (p, 60, 100)) pairs) /\
        (List.length (filter isAsk ev) <= 2)%nat
  end.
Proof.
  destruct (GetTop20USDTpairsByVolume w) as [[pairs | err] w1] eqn:Ht.
  - rewrite (AnalyzeTrends_eq _ _ _ Ht). cbv zeta.
    destruct (scanPairs_outcome pairs [] [] w1)
      as (res1 & w2 & ev1 & Hscan & Hev1 & Hexit & Hval).
    rewrite Hscan.
    destruct res1 as [[L S] | | c]; [ | | now destruct (Hexit c)].
    + destruct (Hval _ _ eq_refl) as (Hk & _).
      destruct (proj1 report_outcome L w2)
        as (w3 & ev2 & -> & Hev2 & _ & Hask2).
      destruct (proj2 report_outcome S w3)
        as (w4 & ev3 & -> & Hev3 & _ & Hask3).
      intros [= <- <- <-]. exists pairs, w1. split; [reflexivity | ].
      split.
      * cbn [app klinesAsked].
        rewrite !klinesAsked_app, Hk,
          (no_klines_in_report_events _ Hev2),
          (no_klines_in_report_events _ Hev3), !app_nil_r.
        apply Permutation_refl.
      * cbn [app filter isAsk].
        rewrite !filter_app, (no_ask_in_scan_events _ Hev1), !length_app.
        cbn [List.length Nat.add].
        assert (List.length (filter isAsk ev2) <= 1)%nat as H2
          by (destruct L; [destruct Hask2 as [_ ->]
                          | destruct Hask2 as (r & _ & ->)]; cbn; lia).
        assert (List.length (filter isAsk ev3) <= 1)%nat as H3
          by (destruct S; [destruct Hask3 as [_ ->]
                          | destruct Hask3 as (r & _ & ->)]; cbn; lia).
        lia.
    + intros [= <- <- <-]. exists pairs, w1. split; [reflexivity | ].
      split; [now rewrite Hscan | ].
      cbn [app filter isAsk]. now apply no_ask_in_scan_events.
  - unfold AnalyzeTrends.
    cbv beta iota delta [bind emit call ret osExit]. rewrite Ht.
    cbv beta iota. intros [= <- <- <-].
    split; [reflexivity | ]. split; [now exists err | ].
    split; reflexivity.
Qed.

End ReportFacts.

(** * Further properties of the trade *)

Section TradeMore.
Context {W : Type} {fg : Foreign} {ta : Talib}.
Context {kg : usecase.KuCoinGateway W} {og : usecase.OpenAIGateway W}.

Import usecase.



(** One turn of the loop: one sleep of 30 seconds, one price fetch, at most
    one order. *)
Lemma monitorTurn_counts symbol side size targetPrice t ev (w w1 : W) :
  monitorTurn symbol side size targetPrice w = (Val t, w1, ev) ->
  filter isSleep ev = [Sleep 30] /\
  List.length (filter isPriceCall ev) = 1%nat /\
  (List.length (filter isOrder ev) <= 1)%nat.
Proof.
  rewrite monitorTurn_eq.
  destruct (GetCurrentPrice symbol w) as [[latestPrice | err] w0]; cbv zeta.
  - destruct (targetReached side latestPrice targetPrice).
    + destruct (CreateOrder symbol (closeSide side) "market"
                  (Sprintf "%f" [AF64 size]) w0) as [[oid | err] w2];
        intros [= _ _ <-]; cbn; auto.
    + intros [= _ _ <-]; cbn; auto.
  - intros [= _ _ <-]; cbn; auto.
Qed.

Lemma monitorLoop_counts symbol side size targetPrice fuel :
  forall r ev (w w' : W),
    monitorLoop fuel symbol side size targetPrice w = Some (r, w', ev) ->
    exists n,
      (1 <= n <= fuel)%nat /\
      filter isSleep ev = repeat (Sleep 30) n /\
      List.length (filter isPriceCall ev) = n /\
      (List.length (filter isOrder ev) <= n)%nat.
Proof.
  induction fuel as [ | fuel IH]; intros r ev w w'; [discriminate | ].
  cbn [monitorLoop].
  destruct (monitorTurn_Val symbol side size targetPrice w)
    as (t & w1 & ev1 & Ht).
  rewrite Ht.
  destruct (monitorTurn_counts _ _ _ _ _ _ _ _ Ht) as (Hs & Hp & Ho).
  destruct t.
  - destruct (monitorLoop fuel symbol side size targetPrice w1)
      as [[[r2 w2] ev2] | ] eqn:Hl; [ | discriminate].
    intros [= <- <- <-].
    destruct (IH _ _ _ _ Hl) as (n & Hn & Hs2 & Hp2 & Ho2).
    exists (S n). rewrite !filter_app, !length_app, Hs, Hs2, Hp, Hp2.
    repeat split; try lia. 
  - intros [= <- <- <-]. exists 1%nat. repeat split; auto; lia.
Qed.

(** The entry, whatever it is given. *)
Lemma enterTrade_outcome symbol side amountUSD execute (w : W) :
  exists o w1 ev,
    enterTrade symbol side amountUSD execute w = (Val o, w1, ev) /\
    filter isSleep ev = [] /\
    (List.length (filter isPriceCall ev) <= 1)%nat /\
    (List.length (filter isOrder ev) <= 1)%nat /\
    match o with
    | None => filter isOrderOk ev = []
    | Some (size, targetPrice) =>
        (side = "buy" \/ side = "sell") /\ execute = true /\
        exists currentPrice orderID,
          size = F64.div amountUSD currentPrice /\
          targetPrice
          = F64.mul currentPrice
              (if String.eqb side "buy" then F64.c1_01 else F64.c0_99) /\
          filter isOrderOk ev
          = [CallCreateOrder symbol side "market"
               (Sprintf "%f" [AF64 size]) (Ok orderID)]
    end.
Proof.
  destruct execute.
  2:{ do 3 eexists. split; [reflexivity | ]. cbn. auto. }
  assert (side = "buy" \/ side = "sell"
          \/ (String.eqb side "buy" = false /\ String.eqb side "sell" = false))
    as [Hside | [Hside | [Hb Hs]]].
  { destruct (String.eqb_spec side "buy"); [auto | ].
    destruct (String.eqb_spec side "sell"); auto. }
  3:{ unfold enterTrade. rewrite Hb, Hs.
      do 3 eexists. split; [reflexivity | ]. cbn. auto. }
  all: rewrite enterTrade_eq by auto; cbv zeta;
    destruct (GetCurrentPrice symbol w) as [[currentPrice | err] w1];
    [ destruct (CreateOrder symbol side "market"
                  (Sprintf "%f" [AF64 (F64.div amountUSD currentPrice)]) w1)
        as [[orderID | err] w2]
    | ];
    do 3 eexists; (split; [reflexivity | ]);
    subst side; cbn; repeat split; auto;
    exists currentPrice, orderID; auto.
Qed.

(** X8: an entry that fails is not retried and the position is never
    monitored. With the execute flag unset nothing is called, whatever the
    side. With a recognised side and the flag set, a failed price fetch ends
    the trade before any order is placed, and a rejected entry order ends
    it after that one order, without any sleep or further price fetch. In
    each case the trade returns for every bound on the loop. *)
Theorem X8_failed_entry_aborts_the_trade fuel symbol side amountUSD :
  (forall (w : W),
      ExecuteTrade fuel symbol side amountUSD false w
      = Some (Val tt, w,
              [LogPrintln
                 "Execute flag is not set. Exiting trade execution (Dry Run)."]))
  /\
  (forall err (w w1 : W),
      side = "buy" \/ side = "sell" ->
      GetCurrentPrice symbol w = (Err err, w1) ->
      ExecuteTrade fuel symbol side amountUSD true w
      = Some (Val tt, w1,
              [LogPrintf
                 "Starting trade execution for %s, side: %s, amount: %.2f USD"
                 [AStr symbol; AStr side; AF64 amountUSD];
               CallGetCurrentPrice symbol (Err err);
               LogPrintf "Failed to get current price for %s: %v"
                 [AStr symbol; AErr err]])) /\
  (forall currentPrice err (w w1 w2 : W),
      side = "buy" \/ side = "sell" ->
      GetCurrentPrice symbol w = (Ok currentPrice, w1) ->
      CreateOrder symbol side "market"
        (Sprintf "%f" [AF64 (F64.div amountUSD currentPrice)]) w1
      = (Err err, w2) ->
      exists ev,
        ExecuteTrade fuel symbol side amountUSD true w
        = Some (Val tt, w2, ev) /\
        filter isOrder ev
        = [CallCreateOrder symbol side "market"
             (Sprintf "%f" [AF64 (F64.div amountUSD currentPrice)])
             (Err err)] /\
        filter isSleep ev = [] /\
        filter isPriceCall ev
        = [CallGetCurrentPrice symbol (Ok currentPrice)]).
Proof.
  refine (conj _ (conj _ _)).
  - intros w. reflexivity.
  - intros err w w1 Hside Hp. unfold ExecuteTrade.
    rewrite (enterTrade_eq symbol side amountUSD w Hside), Hp. reflexivity.
  - intros P err w w1 w2 Hside Hp Ho. unfold ExecuteTrade.
    rewrite (enterTrade_eq symbol side amountUSD w Hside), Hp. cbv zeta.
    rewrite Ho. eexists. split; [reflexivity | ]. cbn. auto.
Qed.

(** X9: a trade never panics and never exits the process: whenever it
    ends, it returns. *)
Theorem X9_ExecuteTrade_only_returns
    fuel symbol side amountUSD execute res ev (w w' : W) :
  ExecuteTrade fuel symbol side amountUSD execute w = Some (res, w', ev) ->
  res = Val tt.
Proof.
  unfold ExecuteTrade.
  destruct (enterTrade_outcome symbol side amountUSD execute w)
    as (o & w1 & ev1 & -> & _).
  destruct o as [[size targetPrice] | ]; [ | now intros [= <- _ _]].
  destruct (monitorLoop fuel symbol side size targetPrice w1)
    as [[[r2 w2] ev2] | ] eqn:Hl; [ | discriminate].
  intros [= <- _ _].
  exact (proj1 (monitorLoop_ends _ _ _ _ _ _ _ _ _ Hl)).
Qed.


(** X11: a trade that has ended within [fuel] turns of the loop has slept
    at most [fuel] times, 30 seconds each time, and never during the entry;
    it has fetched the price at most once more than it has slept, and has
    placed at most one order more than it has slept. *)
Theorem X11_polling_discipline
    fuel symbol side amountUSD execute res ev (w w' : W) :
  ExecuteTrade fuel symbol side amountUSD execute w = Some (res, w', ev) ->
  exists n,
    (n <= fuel)%nat /\
    filter isSleep ev = repeat (Sleep 30) n /\
    (List.length (filter isPriceCall ev) <= n + 1)%nat /\
    (List.length (filter isOrder ev) <= n + 1)%nat.
Proof.
  unfold ExecuteTrade.
  destruct (enterTrade_outcome symbol side amountUSD execute w)
    as (o & w1 & ev1 & -> & Hs1 & Hp1 & Ho1 & _).
  destruct o as [[size targetPrice] | ].
  - destruct (monitorLoop fuel symbol side size targetPrice w1)
      as [[[r2 w2] ev2] | ] eqn:Hl; [ | discriminate].
    intros [= _ _ <-].
    destruct (monitorLoop_counts _ _ _ _ _ _ _ _ _ Hl)
      as (n & Hn & Hs2 & Hp2 & Ho2).
    exists n. rewrite !filter_app, !length_app, Hs1, Hs2.
    repeat split; try lia.
  - intros [= _ _ <-]. exists 0%nat. rewrite Hs1. repeat split; lia.
Qed.

End TradeMore.

(** * Further properties of the gateway *)

Section GatewayMore.
Context {W : Type} {fg : Foreign} {tr : client.Transport W}.
Variable g : gateway.KuCoinGateway.

Lemma len_zero_iff {A} (l : list A) : (len l =? 0) = true <-> l = [].
Proof.
  rewrite Z.eqb_eq. unfold len. destruct l; cbn; split; try discriminate;
    try reflexivity; lia.
Qed.

Lemma GetKlines_check_Ok symbol respBody klineResp data :
  gateway.GetKlines_check symbol respBody klineResp = Ok data <->
  (klineResp_Code klineResp = "200000" \/ klineResp_Code klineResp = "") /\
  data = klineResp_Data klineResp /\ data <> [].
Proof.
  unfold gateway.GetKlines_check.
  destruct (String.eqb_spec (klineResp_Code klineResp) "200000") as [Hc | Hc];
    destruct (String.eqb_spec (klineResp_Code klineResp) "") as [He | He];
    cbn [negb andb].
  4:{ split; [discriminate | ]. intros ([? | ?] & _); contradiction. }
  all: destruct (len (klineResp_Data klineResp) =? 0) eqn:Hl;
    [ apply len_zero_iff in Hl; split; [discriminate | ];
      intros (_ & -> & Hne); contradiction
    | split;
      [ intros [= <-]; repeat split; auto;
        intros Hnil; apply len_zero_iff in Hnil; congruence
      | intros (_ & -> & _); reflexivity ] ].
Qed.

(** X12: GetKlines succeeds exactly when the request succeeds and the body
    decodes to a non-empty series under an accepted code: either the body
    decodes as strings with code "200000" or with no code at all, or it
    decodes only as untyped values, under the code "200000", and every value
    is printed with the verb v. In particular a success never carries an
    empty series. *)
Theorem X12_GetKlines_success symbol granularity count data (w w1 : W) :
  gateway.GetKlines g symbol granularity count w = (Ok data, w1) <->
  exists respBody,
    client.Get (gateway.GetKlines_url g symbol granularity count) [] w
    = (Ok respBody, w1) /\
    data <> [] /\
    ((exists code,
         Unmarshal_KlineResp respBody = (mkKlineResp code data, None) /\
         (code = "200000" \/ code = "")) \/
     (exists partial err raw,
         Unmarshal_KlineResp respBody = (partial, Some err) /\
         Unmarshal_RawKlineResp respBody
         = (mkRawKlineResp "200000" raw, None) /\
         (klineResp_Code partial = "200000" \/ klineResp_Code partial = "") /\
         data = map (map (fun v => Sprintf "%v" [AAny v])) raw)).
Proof.
  unfold gateway.GetKlines.
  destruct (client.Get (gateway.GetKlines_url g symbol granularity count) [] w)
    as [[respBody | err0] w0].
  2:{ split; [discriminate | ]. intros (b & [=] & _). }
  unfold gateway.GetKlines_decode.
  destruct (Unmarshal_KlineResp respBody) as [[code typed] [err | ]] eqn:Hu.
  - destruct (Unmarshal_RawKlineResp respBody) as [[rawCode raw] [err2 | ]]
      eqn:Hr.
    + split; [discriminate | ].
      intros (b & [= <- <-] & _ & [(c & Hu' & _) | (p & e & r & _ & Hr' & _)]).
      * rewrite Hu in Hu'. discriminate.
      * rewrite Hr in Hr'. discriminate.
    + cbn [rawKlineResp_Code rawKlineResp_Data].
      destruct (String.eqb_spec rawCode "200000") as [-> | Hc]; cbn [negb].
      * split.
        -- intros [= Hcheck <-]. apply GetKlines_check_Ok in Hcheck.
           cbn in Hcheck. destruct Hcheck as (Hcode & -> & Hne).
           exists respBody. split; [reflexivity | ]. split; [exact Hne | ].
           right. exists (mkKlineResp code typed), err, raw. auto.
        -- intros (b & [= <- <-] & Hne
                   & [(c & Hu' & _) | (p & e & r & Hu' & Hr' & Hp & ->)]).
           ++ rewrite Hu in Hu'. discriminate.
           ++ rewrite Hu in Hu'. rewrite Hr in Hr'.
              injection Hu' as <- <-. injection Hr' as <-.
              f_equal. apply GetKlines_check_Ok. cbn. auto.
      * split; [discriminate | ].
        intros (b & [= <- <-] & _
                & [(c & Hu' & _) | (p & e & r & _ & Hr' & _)]).
        -- rewrite Hu in Hu'. discriminate.
        -- rewrite Hr in Hr'. injection Hr' as -> _. contradiction.
  - split.
    + intros [= Hcheck <-]. apply GetKlines_check_Ok in Hcheck.
      cbn in Hcheck. destruct Hcheck as (Hcode & -> & Hne).
      exists respBody. split; [reflexivity | ]. split; [exact Hne | ].
      left. exists code. auto.
    + intros (b & [= <- <-] & Hne
              & [(c & Hu' & Hc) | (p & e & r & Hu' & _)]).
      * rewrite Hu in Hu'. injection Hu' as <- <-.
        f_equal. apply GetKlines_check_Ok. cbn. auto.
      * rewrite Hu in Hu'. discriminate.
Qed.

(** X13: GetCurrentPrice succeeds exactly when the request succeeds and the
    body decodes without error under the code "200000"; the price returned
    is the decoded one. Every other response is an error. *)
Theorem X13_GetCurrentPrice_success symbol price (w w1 : W) :
  gateway.GetCurrentPrice g symbol w = (Ok price, w1) <->
  exists respBody,
    client.Get (gateway.GetCurrentPrice_url g symbol) [] w
    = (Ok respBody, w1) /\
    Unmarshal_PriceResp respBody = (mkPriceResp "200000" price, None).
Proof.
  unfold gateway.GetCurrentPrice.
  destruct (client.Get (gateway.GetCurrentPrice_url g symbol) [] w)
    as [[respBody | err0] w0].
  2:{ split; [discriminate | ]. intros (b & [=] & _). }
  unfold gateway.GetCurrentPrice_decode.
  destruct (Unmarshal_PriceResp respBody) as [[code p] [err | ]] eqn:Hu.
  - split; [discriminate | ]. intros (b & [= <- <-] & Hu').
    rewrite Hu in Hu'. discriminate.
  - cbn [priceResp_Code priceResp_Data_Price].
    destruct (String.eqb_spec code "200000") as [-> | Hc]; cbn [negb].
    + split.
      * intros [= <- <-]. now exists respBody.
      * intros (b & [= <- <-] & Hu'). rewrite Hu in Hu'.
        injection Hu' as <-. reflexivity.
    + split; [discriminate | ].
      intros (b & [= <- <-] & Hu'). rewrite Hu in Hu'.
      injection Hu' as -> _. contradiction.
Qed.

End GatewayMore.

(** * Further properties of the exchange gateway *)

Section ExchangeFacts.
Context {W : Type} {fg : Foreign} {js : kucoin.Json} {so : kucoin.Sort}.
Context {cr : kucoin.Crypto} {tr : client.Transport W} {cl : kucoin.Clock W}.
Variable g : gateway.KuCoinGateway.

Lemma GetTop20USDTpairsByVolume_Ok pairs (w w' : W) :
  kucoin.GetTop20USDTpairsByVolume g w = (Ok pairs, w') <->
  exists respBody contractsResp,
    client.Get (Sprintf "%s/api/v1/contracts/active" [AStr (gateway.baseURL g)])
      [] w
    = (Ok respBody, w') /\
    kucoin.Unmarshal_FuturesContractsResponse respBody
    = (contractsResp, None) /\
    kucoin.Code contractsResp = "200000" /\
    pairs
    = map fst
        (firstn 20
           (kucoin.Slice _ kucoin.byVolume
              (kucoin.usdtContracts (kucoin.Data contractsResp)))).
Proof.
  unfold kucoin.GetTop20USDTpairsByVolume.
  destruct (client.Get _ [] w) as [[respBody | err0] w0].
  2:{ split; [discriminate | ]. intros (b & c & [=] & _). }
  unfold kucoin.GetTop20USDTpairsByVolume_decode.
  destruct (kucoin.Unmarshal_FuturesContractsResponse respBody)
    as [resp [err | ]] eqn:Hu.
  - split; [discriminate | ]. intros (b & c & [= <- <-] & Hu' & _).
    rewrite Hu in Hu'. discriminate.
  - destruct (String.eqb_spec (kucoin.Code resp) "200000") as [Hc | Hc];
      cbn [negb].
    + split.
      * intros [= <- <-]. exists respBody, resp. auto.
      * intros (b & c & [= <- <-] & Hu' & _ & ->). rewrite Hu in Hu'.
        injection Hu' as <-. reflexivity.
    + split; [discriminate | ].
      intros (b & c & [= <- <-] & Hu' & Hc' & _). rewrite Hu in Hu'.
      injection Hu' as <-. contradiction.
Qed.

Lemma sorted_app_inv {A} (R : A -> A -> Prop) (l1 l2 : list A) :
  StronglySorted R (l1 ++ l2) ->
  forall a b, In a l1 -> In b l2 -> R a b.
Proof.
  induction l1 as [ | x l1 IH]; intros Hs a b Ha Hb; [contradiction | ].
  cbn in Hs. apply StronglySorted_inv in Hs as [Hs Hx].
  destruct Ha as [<- | Ha].
  - rewrite Forall_forall in Hx. apply Hx, in_or_app. now right.
  - now apply IH.
Qed.

(** X14: a successful lookup of the universe returns at most 20 symbols,
    and it succeeds only on a response that decodes without error under the
    code "200000"; the symbols are those of the first 20 entries of the
    sorted list of the open, listed, USDT-quoted contracts. *)
Theorem X14_universe_has_at_most_20_symbols pairs (w w' : W) :
  kucoin.GetTop20USDTpairsByVolume g w = (Ok pairs, w') ->
  (List.length pairs <= 20)%nat /\
  exists respBody contractsResp,
    client.Get (Sprintf "%s/api/v1/contracts/active" [AStr (gateway.baseURL g)])
      [] w
    = (Ok respBody, w') /\
    kucoin.Unmarshal_FuturesContractsResponse respBody
    = (contractsResp, None) /\
    kucoin.Code contractsResp = "200000" /\
    pairs
    = map fst
        (firstn 20
           (kucoin.Slice _ kucoin.byVolume
              (kucoin.usdtContracts (kucoin.Data contractsResp)))).
Proof.
  intros H. apply GetTop20USDTpairsByVolume_Ok in H.
  destruct H as (b & c & Hg & Hu & Hc & ->).
  split; [ | now exists b, c].
  rewrite length_map. apply firstn_le_length.
Qed.

(** X15: when the sort returns its input rearranged and in the order it was
    asked for (no entry has a larger volume than an entry before it), the
    universe is made of the 20 contracts, or of all of them when there are
    fewer, that are open, not delisted and quoted in USDT, and no such
    contract that is left out has a larger 24h volume than one that is
    returned. *)
Theorem X15_universe_is_the_top_of_the_volume_ranking
    respBody contractsResp (w w' : W) :
  client.Get (Sprintf "%s/api/v1/contracts/active" [AStr (gateway.baseURL g)])
    [] w
  = (Ok respBody, w') ->
  kucoin.Unmarshal_FuturesContractsResponse respBody
  = (contractsResp, None) ->
  kucoin.Code contractsResp = "200000" ->
  Permutation
    (kucoin.Slice _ kucoin.byVolume
       (kucoin.usdtContracts (kucoin.Data contractsResp)))
    (kucoin.usdtContracts (kucoin.Data contractsResp)) ->
  StronglySorted (fun a b => kucoin.byVolume b a = false)
    (kucoin.Slice _ kucoin.byVolume
       (kucoin.usdtContracts (kucoin.Data contractsResp))) ->
  exists kept dropped,
    kucoin.GetTop20USDTpairsByVolume g w = (Ok (map fst kept), w') /\
    Permutation (kept ++ dropped)
      (kucoin.usdtContracts (kucoin.Data contractsResp)) /\
    List.length kept
    = Nat.min 20
        (List.length (filter kucoin.eligible (kucoin.Data contractsResp))) /\
    (forall a,
        In a kept ->
        exists c,
          In c (kucoin.Data contractsResp) /\
          kucoin.Status c = "Open" /\
          kucoin.IsDele c = false /\
          kucoin.QuoteCurrency c = "USDT" /\
          a = (kucoin.Symbol c, kucoin.Volume24h c)) /\
    (forall a b,
        In a kept -> In b dropped -> F64.gtb (snd b) (snd a) = false).
Proof.
  intros Hg Hu Hc Hperm Hsorted.
  set (listed := kucoin.usdtContracts (kucoin.Data contractsResp)) in *.
  set (sorted := kucoin.Slice _ kucoin.byVolume listed) in *.
  exists (firstn 20 sorted), (skipn 20 sorted).
  refine (conj _ (conj _ (conj _ (conj _ _)))).
  - apply GetTop20USDTpairsByVolume_Ok. exists respBody, contractsResp. auto.
  - now rewrite firstn_skipn.
  - rewrite length_firstn, (Permutation_length Hperm).
    unfold listed, kucoin.usdtContracts. now rewrite length_map.
  - intros a Ha.
    assert (In a listed) as Hin.
    { apply (Permutation_in _ Hperm).
      rewrite <- (firstn_skipn 20 sorted). apply in_or_app. now left. }
    unfold listed, kucoin.usdtContracts in Hin.
    apply in_map_iff in Hin as (c & <- & Hc').
    apply filter_In in Hc' as [Hin He].
    unfold kucoin.eligible in He.
    apply andb_true_iff in He as [He Hq].
    apply andb_true_iff in He as [Hs Hd].
    exists c. split; [exact Hin | ].
    split; [now apply String.eqb_eq | ].
    split; [now destruct (kucoin.IsDele c) | ].
    split; [now apply String.eqb_eq | reflexivity].
  - intros a b Ha Hb.
    rewrite <- (firstn_skipn 20 sorted) in Hsorted.
    exact (sorted_app_inv _ _ _ Hsorted a b Ha Hb).
Qed.

(** X16: an order is accepted exactly when its request body is encoded,
    the one POST to the orders endpoint succeeds and its response decodes
    without error under the code "200000"; the id returned is the decoded
    one. The request carries a client id read from the clock, the leverage
    "1", and a signature over the timestamp, the method, the endpoint and
    the very body that is sent. *)
Theorem X16_CreateOrder_success
    symbol side orderType size orderID (w w' : W) :
  kucoin.CreateOrder g symbol side orderType size w = (Ok orderID, w') <->
  exists ns w1 reqBody ms w2 respBody msg,
    kucoin.UnixNano w = (ns, w1) /\
    kucoin.Marshal_map
      [("clientOid", Sprintf "%d" [AInt ns]); ("symbol", symbol);
       ("side", side); ("type", orderType); ("leverage", "1");
       ("size", size)]
    = Ok reqBody /\
    kucoin.UnixMilli w1 = (ms, w2) /\
    client.roundTrip "POST" (gateway.baseURL g ++ "/api/v1/orders")%string
      [("KC-API-KEY", gateway.apiKey g);
       ("KC-API-SIGN",
        kucoin.base64Encode
          (kucoin.hmacSha256 (gateway.apiSecret g)
             (Sprintf "%d" [AInt ms] ++ "POST" ++ "/api/v1/orders"
              ++ reqBody)%string));
       ("KC-API-TIMESTAMP", Sprintf "%d" [AInt ms]);
       ("KC-API-PASSPHRASE",
        kucoin.base64Encode
          (kucoin.hmacSha256 (gateway.apiSecret g) (gateway.passphrase g)));
       ("KC-API-KEY-VERSION", "2");
       ("Content-Type", "application/json")]
      (Some reqBody) w2
    = (Ok respBody, w') /\
    kucoin.Unmarshal_OrderResp respBody
    = (kucoin.mkOrderResp "200000" orderID msg, None).
Proof.
  unfold kucoin.CreateOrder, kucoin.getAuthHeaders,
    kucoin.CreateOrder_decode, client.Post.
  split.
  - destruct (kucoin.UnixNano w) as [ns w1] eqn:Hn.
    destruct (kucoin.Marshal_map _) as [reqBody | err0] eqn:Hm;
      [ | discriminate].
    destruct (kucoin.UnixMilli w1) as [ms w2] eqn:Hms.
    destruct (client.roundTrip "POST" _ _ (Some reqBody) w2)
      as [[respBody | err1] w3] eqn:Hp; [ | discriminate].
    destruct (kucoin.Unmarshal_OrderResp respBody)
      as [[code oid msg] [err | ]] eqn:Hu; [discriminate | ].
    cbn [kucoin.orderResp_Code kucoin.orderResp_Msg
           kucoin.orderResp_Data_OrderID].
    destruct (String.eqb_spec code "200000") as [-> | Hc]; cbn [negb];
      [ | discriminate].
    intros [= <- <-].
    exists ns, w1, reqBody, ms, w2, respBody, msg. auto 10.
  - intros (ns & w1 & reqBody & ms & w2 & respBody & msg
            & Hn & Hm & Hms & Hp & Hu).
    rewrite Hn. cbv beta iota zeta. rewrite Hm. cbv beta iota zeta.
    rewrite Hms. cbv beta iota zeta. rewrite Hp. cbv beta iota zeta.
    rewrite Hu. reflexivity.
Qed.

End ExchangeFacts.

(** * Further properties of the summarizer gateway *)

Section SummarizerFacts.
Context {W : Type} {fg : Foreign} {js : openai.Json}.
Context {tr : client.Transport W}.
Variable g : openai.OpenAIGateway.

Lemma AskAboutAssets_no_key assetSymbols side (w : W) :
  openai.apiKey g = "" ->
  openai.AskAboutAssets g assetSymbols side w
  = (Err (Errorf
            "OPENAI_API_KEY is not set. Please create a .env file and add your API key"
            []), w).
Proof. intros Hk. unfold openai.AskAboutAssets. now rewrite Hk. Qed.

(** X17: without an API key, or for a side other than "buy" and "sell",
    the summarizer gateway fails before anything is sent: the world is left
    as it was, whatever the transport. The key is checked first, so without
    a key the error is the one about the key, whatever the side. *)
Theorem X17_AskAboutAssets_refuses_before_sending assetSymbols side (w : W) :
  openai.apiKey g = "" \/ (side <> "buy" /\ side <> "sell") ->
  exists err,
    openai.AskAboutAssets g assetSymbols side w = (Err err, w) /\
    (openai.apiKey g = "" ->
     err = Errorf
             "OPENAI_API_KEY is not set. Please create a .env file and add your API key"
             []) /\
    (openai.apiKey g <> "" ->
     err = Errorf "invalid side for OpenAI prompt: %s" [AStr side]).
Proof.
  intros H. unfold openai.AskAboutAssets.
  destruct (String.eqb_spec (openai.apiKey g) "") as [Hk | Hk].
  - eexists. split; [reflexivity | ]. split; [reflexivity | contradiction].
  - destruct H as [H | [Hb Hs]]; [contradiction | ].
    unfold openai.promptFor.
    destruct (String.eqb_spec side "buy") as [? | _]; [contradiction | ].
    destruct (String.eqb_spec side "sell") as [? | _]; [contradiction | ].
    eexists. split; [reflexivity | ]. split; [contradiction | reflexivity].
Qed.

(** X18: the summarizer gateway answers exactly when the key is set, the
    side is "buy" or "sell", the request is encoded, the one POST to the
    chat-completions endpoint succeeds and its body decodes without error.
    The answer is the content of the first choice; a response without any
    choice is not an error: the answer is then a fixed sentence. *)
Theorem X18_AskAboutAssets_answer assetSymbols side answer (w w' : W) :
  openai.AskAboutAssets g assetSymbols side w = (Ok answer, w') <->
  openai.apiKey g <> "" /\
  exists prompt requestBody respBody openAIResp,
    (side = "buy" /\
     prompt = Sprintf (openai.promptBuy ++ nl ++ nl ++ "%s")%string
                [AStr (openai.Join assetSymbols nl)] \/
     side = "sell" /\
     prompt = Sprintf (openai.promptSell ++ nl ++ nl ++ "%s")%string
                [AStr (openai.Join assetSymbols nl)]) /\
    openai.Marshal_OpenAIRequest
      (openai.mkOpenAIRequest "gpt-3.5-turbo"
         [openai.mkMessage "user" prompt])
    = Ok requestBody /\
    client.roundTrip "POST"
      (Sprintf "%s/chat/completions" [AStr (openai.baseURL g)])
      [("Content-Type", "application/json");
       ("Authorization", ("Bearer " ++ openai.apiKey g)%string)]
      (Some requestBody) w
    = (Ok respBody, w') /\
    openai.Unmarshal_OpenAIResponse respBody = (openAIResp, None) /\
    answer = match openai.Choices openAIResp with
             | content :: _ => content
             | [] => "No response from OpenAI."
             end.
Proof.
  unfold openai.AskAboutAssets, openai.promptFor, openai.requestFor,
    openai.headers, client.Post.
  split.
  - destruct (String.eqb_spec (openai.apiKey g) "") as [Hk | Hk];
      [discriminate | ].
    intros H. split; [exact Hk | ]. revert H.
    destruct (String.eqb_spec side "buy") as [Hb | Hb];
      [ | destruct (String.eqb_spec side "sell") as [Hs | Hs];
          [ | discriminate] ].
    all: destruct (openai.Marshal_OpenAIRequest _)
           as [requestBody | err0] eqn:Hm; [ | discriminate].
    all: destruct (client.roundTrip "POST" _ _ (Some requestBody) w)
           as [[respBody | err1] w1] eqn:Hp; [ | discriminate].
    all: destruct (openai.Unmarshal_OpenAIResponse respBody)
           as [resp [err | ]] eqn:Hu; [discriminate | ].
    all: intros H; eexists; exists requestBody, respBody, resp;
      split; [(left; split; [exact Hb | reflexivity])
              || (right; split; [exact Hs | reflexivity]) | ];
      split; [exact Hm | ].
    all: destruct (openai.Choices resp) as [ | content rest];
      injection H as <- <-; auto.
  - intros (Hk & prompt & requestBody & respBody & resp
            & Hside & Hm & Hp & Hu & ->).
    destruct (String.eqb_spec (openai.apiKey g) "") as [? | _];
      [contradiction | ].
    destruct Hside as [[-> ->] | [-> ->]]; cbn [String.eqb Ascii.eqb Bool.eqb];
      cbv beta iota; rewrite Hm; cbv beta iota zeta; rewrite Hp;
      cbv beta iota; rewrite Hu;
      destruct (openai.Choices resp); reflexivity.
Qed.

End SummarizerFacts.

(** * The two modes and the command *)

Section ModeFacts.
Context {W : Type} {fg : Foreign} {ta : Talib}.

Lemma analyzePair_ext (kg1 kg2 : usecase.KuCoinGateway W) :
  (forall symbol granularity count w,
      @usecase.GetKlines W kg1 symbol granularity count w
      = @usecase.GetKlines W kg2 symbol granularity count w) ->
  forall p w,
    usecase.analyzePair (kg := kg1) p w = usecase.analyzePair (kg := kg2) p w.
Proof.
  intros Hk p w. unfold usecase.analyzePair.
  cbv beta iota delta [bind emit call]. rewrite (Hk p 60 100 w).
  reflexivity.
Qed.

Lemma scanPairs_ext (kg1 kg2 : usecase.KuCoinGateway W) :
  (forall symbol granularity count w,
      @usecase.GetKlines W kg1 symbol granularity count w
      = @usecase.GetKlines W kg2 symbol granularity count w) ->
  forall pairs longCandidates shortCandidates w,
    usecase.scanPairs (kg := kg1) pairs longCandidates shortCandidates w
    = usecase.scanPairs (kg := kg2) pairs longCandidates shortCandidates w.
Proof.
  intros Hk pairs.
  induction pairs as [ | p rest IH]; intros L S w; [reflexivity | ].
  rewrite !scanPairs_cons, (analyzePair_ext kg1 kg2 Hk).
  destruct (usecase.analyzePair (kg := kg2) p w)
    as [[[[long short] | | c] w1] ev1]; try reflexivity.
  now rewrite IH.
Qed.

Lemma report_ext (og1 og2 : usecase.OpenAIGateway W) :
  (forall assetSymbols side w,
      @usecase.AskAboutAssets W og1 assetSymbols side w
      = @usecase.AskAboutAssets W og2 assetSymbols side w) ->
  forall candidates w,
    usecase.reportLong (og := og1) candidates w
    = usecase.reportLong (og := og2) candidates w /\
    usecase.reportShort (og := og1) candidates w
    = usecase.reportShort (og := og2) candidates w.
Proof.
  intros Ha candidates w.
  rewrite !reportLong_eq, !reportShort_eq.
  destruct candidates; [split; reflexivity | ].
  cbv zeta. rewrite !Ha. split; reflexivity.
Qed.

Lemma AnalyzeTrends_ext (kg1 kg2 : usecase.KuCoinGateway W)
    (og1 og2 : usecase.OpenAIGateway W) :
  (forall w,
      @usecase.GetTop20USDTpairsByVolume W kg1 w
      = @usecase.GetTop20USDTpairsByVolume W kg2 w) ->
  (forall symbol granularity count w,
      @usecase.GetKlines W kg1 symbol granularity count w
      = @usecase.GetKlines W kg2 symbol granularity count w) ->
  (forall assetSymbols side w,
      @usecase.AskAboutAssets W og1 assetSymbols side w
      = @usecase.AskAboutAssets W og2 assetSymbols side w) ->
  forall w,
    usecase.AnalyzeTrends (kg := kg1) (og := og1) w
    = usecase.AnalyzeTrends (kg := kg2) (og := og2) w.
Proof.
  intros Ht Hk Ha w.
  destruct (@usecase.GetTop20USDTpairsByVolume W kg1 w)
    as [[pairs | err] w1] eqn:E1.
  - rewrite (AnalyzeTrends_eq (kg := kg1) (og := og1) _ _ _ E1).
    rewrite Ht in E1.
    rewrite (AnalyzeTrends_eq (kg := kg2) (og := og2) _ _ _ E1).
    cbv zeta. rewrite (scanPairs_ext kg1 kg2 Hk).
    destruct (usecase.scanPairs (kg := kg2) pairs [] [] w1)
      as [[[[L S] | | c] w2] ev2]; try reflexivity.
    rewrite (proj1 (report_ext og1 og2 Ha L w2)).
    destruct (usecase.reportLong (og := og2) L w2)
      as [[[[] | | c] w3] ev3]; try reflexivity.
    now rewrite (proj2 (report_ext og1 og2 Ha S w3)).
  - unfold usecase.AnalyzeTrends.
    cbv beta iota delta [bind emit call ret osExit].
    rewrite <- Ht, E1. reflexivity.
Qed.

Lemma monitorTurn_ext (kg1 kg2 : usecase.KuCoinGateway W) :
  (forall symbol w,
      @usecase.GetCurrentPrice W kg1 symbol w
      = @usecase.GetCurrentPrice W kg2 symbol w) ->
  (forall symbol side orderType size w,
      @usecase.CreateOrder W kg1 symbol side orderType size w
      = @usecase.CreateOrder W kg2 symbol side orderType size w) ->
  forall symbol side size targetPrice w,
    usecase.monitorTurn (kg := kg1) symbol side size targetPrice w
    = usecase.monitorTurn (kg := kg2) symbol side size targetPrice w.
Proof.
  intros Hp Ho symbol side size targetPrice w.
  rewrite !monitorTurn_eq, Hp.
  destruct (@usecase.GetCurrentPrice W kg2 symbol w) as [[P | err] w1];
    [ | reflexivity].
  cbv zeta. now rewrite Ho.
Qed.

Lemma monitorLoop_ext (kg1 kg2 : usecase.KuCoinGateway W) :
  (forall symbol w,
      @usecase.GetCurrentPrice W kg1 symbol w
      = @usecase.GetCurrentPrice W kg2 symbol w) ->
  (forall symbol side orderType size w,
      @usecase.CreateOrder W kg1 symbol side orderType size w
      = @usecase.CreateOrder W kg2 symbol side orderType size w) ->
  forall fuel symbol side size targetPrice w,
    usecase.monitorLoop (kg := kg1) fuel symbol side size targetPrice w
    = usecase.monitorLoop (kg := kg2) fuel symbol side size targetPrice w.
Proof.
  intros Hp Ho fuel.
  induction fuel as [ | fuel IH]; intros symbol side size targetPrice w;
    [reflexivity | ].
  cbn [usecase.monitorLoop]. rewrite (monitorTurn_ext kg1 kg2 Hp Ho).
  destruct (usecase.monitorTurn (kg := kg2) symbol side size targetPrice w)
    as [[[[ | ] | | c] w1] ev1]; try reflexivity.
  now rewrite IH.
Qed.

Lemma enterTrade_ext (kg1 kg2 : usecase.KuCoinGateway W) :
  (forall symbol w,
      @usecase.GetCurrentPrice W kg1 symbol w
      = @usecase.GetCurrentPrice W kg2 symbol w) ->
  (forall symbol side orderType size w,
      @usecase.CreateOrder W kg1 symbol side orderType size w
      = @usecase.CreateOrder W kg2 symbol side orderType size w) ->
  forall symbol side amountUSD execute w,
    usecase.enterTrade (kg := kg1) symbol side amountUSD execute w
    = usecase.enterTrade (kg := kg2) symbol side amountUSD execute w.
Proof.
  intros Hp Ho symbol side amountUSD execute w.
  destruct execute; [ | reflexivity].
  destruct (String.eqb_spec side "buy") as [Hb | Hb];
    [ | destruct (String.eqb_spec side "sell") as [Hs | Hs] ].
  - rewrite !(enterTrade_eq symbol side amountUSD w (or_introl Hb)), Hp.
    destruct (@usecase.GetCurrentPrice W kg2 symbol w) as [[P | err] w1];
      [ | reflexivity].
    cbv zeta. now rewrite Ho.
  - rewrite !(enterTrade_eq symbol side amountUSD w (or_intror Hs)), Hp.
    destruct (@usecase.GetCurrentPrice W kg2 symbol w) as [[P | err] w1];
      [ | reflexivity].
    cbv zeta. now rewrite Ho.
  - unfold usecase.enterTrade. cbn [negb].
    apply String.eqb_neq in Hb, Hs. rewrite Hb, Hs. reflexivity.
Qed.

Lemma ExecuteTrade_ext (kg1 kg2 : usecase.KuCoinGateway W) :
  (forall symbol w,
      @usecase.GetCurrentPrice W kg1 symbol w
      = @usecase.GetCurrentPrice W kg2 symbol w) ->
  (forall symbol side orderType size w,
      @usecase.CreateOrder W kg1 symbol side orderType size w
      = @usecase.CreateOrder W kg2 symbol side orderType size w) ->
  forall fuel symbol side amountUSD execute w,
    usecase.ExecuteTrade (kg := kg1) fuel symbol side amountUSD execute w
    = usecase.ExecuteTrade (kg := kg2) fuel symbol side amountUSD execute w.
Proof.
  intros Hp Ho fuel symbol side amountUSD execute w.
  unfold usecase.ExecuteTrade. rewrite (enterTrade_ext kg1 kg2 Hp Ho).
  destruct (usecase.enterTrade (kg := kg2) symbol side amountUSD execute w)
    as [[[[[size targetPrice] | ] | | c] w1] ev1]; try reflexivity.
  now rewrite (monitorLoop_ext kg1 kg2 Hp Ho).
Qed.

(** X19: the two modes use disjoint parts of the exchange. The analysis
    depends on the exchange only through the lookup of the universe and the
    price histories: it places no order and fetches no ticker price,
    whatever those two operations would do. A trade depends on the exchange
    only through the ticker price and the orders. *)
Theorem X19_modes_use_disjoint_exchange_operations
    (kg1 kg2 : usecase.KuCoinGateway W) (og : usecase.OpenAIGateway W) :
  ((forall w,
       @usecase.GetTop20USDTpairsByVolume W kg1 w
       = @usecase.GetTop20USDTpairsByVolume W kg2 w) ->
   (forall symbol granularity count w,
       @usecase.GetKlines W kg1 symbol granularity count w
       = @usecase.GetKlines W kg2 symbol granularity count w) ->
   forall w,
     usecase.AnalyzeTrends (kg := kg1) (og := og) w
     = usecase.AnalyzeTrends (kg := kg2) (og := og) w) /\
  ((forall symbol w,
       @usecase.GetCurrentPrice W kg1 symbol w
       = @usecase.GetCurrentPrice W kg2 symbol w) ->
   (forall symbol side orderType size w,
       @usecase.CreateOrder W kg1 symbol side orderType size w
       = @usecase.CreateOrder W kg2 symbol side orderType size w) ->
   forall fuel symbol side amountUSD execute w,
     usecase.ExecuteTrade (kg := kg1) fuel symbol side amountUSD execute w
     = usecase.ExecuteTrade (kg := kg2) fuel symbol side amountUSD execute w).
Proof.
  split.
  - intros Ht Hk. apply AnalyzeTrends_ext; auto.
  - apply ExecuteTrade_ext.
Qed.

End ModeFacts.

Section CommandFacts.
Context {W : Type} {fg : Foreign} {ta : Talib}.
Context {kj : kucoin.Json} {so : kucoin.Sort} {cr : kucoin.Crypto}.
Context {oj : openai.Json} {cl : kucoin.Clock W}.

Lemma LoadEnv_eq {en : config.Environ W} (w : W) :
  config.LoadEnv w
  = (Val tt, snd (config.godotenvLoad w),
     match fst (config.godotenvLoad w) with
     | Some _ => [LogPrintln "No .env file found, using environment variables"]
     | None => []
     end).
Proof.
  unfold config.LoadEnv.
  destruct (config.godotenvLoad w) as [[err | ] w1]; reflexivity.
Qed.

Lemma exchange_reads_ext (tr1 tr2 : client.Transport W)
    (g1 g2 : gateway.KuCoinGateway) :
  (forall url headers w,
      client.Get (tr := tr1) url headers w
      = client.Get (tr := tr2) url headers w) ->
  gateway.baseURL g1 = gateway.baseURL g2 ->
  (forall w,
      kucoin.GetTop20USDTpairsByVolume (tr := tr1) g1 w
      = kucoin.GetTop20USDTpairsByVolume (tr := tr2) g2 w) /\
  (forall symbol granularity count w,
      gateway.GetKlines (tr := tr1) g1 symbol granularity count w
      = gateway.GetKlines (tr := tr2) g2 symbol granularity count w).
Proof.
  intros Hget Hurl. split.
  - intros w. unfold kucoin.GetTop20USDTpairsByVolume.
    now rewrite Hget, Hurl.
  - intros symbol granularity count w.
    unfold gateway.GetKlines, gateway.GetKlines_url.
    now rewrite Hget, Hurl.
Qed.

(** X20: the command run with the trade flag and without the execute flag
    is a dry run from end to end: after the environment file is loaded, it
    logs the mode and the dry run and returns, for every symbol, side and
    amount; no request is sent and the clock is not read, the world is as
    the loading of the environment left it. *)
Theorem X20_trade_without_execute_sends_nothing
    {tr : client.Transport W} {en : config.Environ W} fuel flags (w : W) :
  cmd.trade flags = true ->
  cmd.execute flags = false ->
  cmd.main fuel flags w
  = Some (Val tt, snd (config.godotenvLoad w),
          match fst (config.godotenvLoad w) with
          | Some _ =>
              [LogPrintln "No .env file found, using environment variables"]
          | None => []
          end
          ++ [LogPrintln "--- Trade Mode ---";
              LogPrintln
                "Execute flag is not set. Exiting trade execution (Dry Run)."]).
Proof.
  intros Ht He. unfold cmd.main, controller.RunTrade.
  rewrite LoadEnv_eq, Ht, He. reflexivity.
Qed.

(** X21: when the key of the summarizer is not set, or is set to the empty
    string, after the environment file is loaded, the command in analysis
    mode sends only GET requests: its outcome, the world it leaves and
    everything it logs are the same under any two transports that answer
    GET requests alike. *)
Theorem X21_analysis_without_a_key_only_sends_GET
    (tr1 tr2 : client.Transport W) {en : config.Environ W}
    fuel flags (w : W) :
  cmd.trade flags = false ->
  config.LookupEnv "OPENAI_API_KEY" (snd (config.godotenvLoad w)) = None \/
  config.LookupEnv "OPENAI_API_KEY" (snd (config.godotenvLoad w)) = Some "" ->
  (forall url headers w0,
      client.Get (tr := tr1) url headers w0
      = client.Get (tr := tr2) url headers w0) ->
  cmd.main (tr := tr1) fuel flags w = cmd.main (tr := tr2) fuel flags w.
Proof.
  intros Ht Hkey Hget. unfold cmd.main, controller.RunAnalysis.
  rewrite LoadEnv_eq, Ht. cbv zeta.
  set (w1 := snd (config.godotenvLoad w)) in *.
  set (g := gateway.NewKuCoinGateway (config.GetEnv w1)).
  set (o := openai.NewOpenAIGateway (config.GetEnv w1)).
  assert (openai.apiKey o = "") as Hempty.
  { unfold o, openai.NewOpenAIGateway, config.GetEnv. cbn.
    destruct Hkey as [-> | ->]; reflexivity. }
  destruct (exchange_reads_ext tr1 tr2 g g Hget eq_refl) as [Htop Hk].
  rewrite (AnalyzeTrends_ext
             (kucoin.asUsecase (tr := tr1) g) (kucoin.asUsecase (tr := tr2) g)
             (openai.asUsecase (tr := tr1) o)
             (openai.asUsecase (tr := tr2) o)).
  - reflexivity.
  - exact Htop.
  - exact Hk.
  - intros assetSymbols side w0. cbn [usecase.AskAboutAssets openai.asUsecase].
    now rewrite !AskAboutAssets_no_key.
Qed.

(** X22: the command in analysis mode does not use the credentials of the
    exchange: two environments that load alike and agree on the key of the
    summarizer give the same run, whatever the exchange key, secret and
    passphrase are in each. *)
Theorem X22_analysis_ignores_the_exchange_credentials
    {tr : client.Transport W} (en1 en2 : config.Environ W)
    fuel flags (w : W) :
  cmd.trade flags = false ->
  @config.godotenvLoad W en1 w = @config.godotenvLoad W en2 w ->
  @config.LookupEnv W en1 "OPENAI_API_KEY" (snd (@config.godotenvLoad W en1 w))
  = @config.LookupEnv W en2 "OPENAI_API_KEY"
      (snd (@config.godotenvLoad W en1 w)) ->
  cmd.main (en := en1) fuel flags w = cmd.main (en := en2) fuel flags w.
Proof.
  intros Ht Hload Hkey. unfold cmd.main, controller.RunAnalysis.
  rewrite !LoadEnv_eq, Ht, <- Hload. cbv zeta.
  set (w1 := snd (@config.godotenvLoad W en1 w)) in *.
  set (g1 := gateway.NewKuCoinGateway (config.GetEnv (en := en1) w1)).
  set (g2 := gateway.NewKuCoinGateway (config.GetEnv (en := en2) w1)).
  assert (openai.NewOpenAIGateway (config.GetEnv (en := en1) w1)
          = openai.NewOpenAIGateway (config.GetEnv (en := en2) w1)) as ->.
  { unfold openai.NewOpenAIGateway, config.GetEnv. now rewrite Hkey. }
  destruct (exchange_reads_ext tr tr g1 g2 (fun _ _ _ => eq_refl) eq_refl)
    as [Htop Hk].
  rewrite (AnalyzeTrends_ext
             (kucoin.asUsecase g1) (kucoin.asUsecase g2)
             (openai.asUsecase
                (openai.NewOpenAIGateway (config.GetEnv (en := en2) w1)))
             (openai.asUsecase
                (openai.NewOpenAIGateway (config.GetEnv (en := en2) w1)))).
  - reflexivity.
  - exact Htop.
  - exact Hk.
  - reflexivity.
Qed.

End CommandFacts.


(** * Further runs on the scripted world *)

(** X2 on two candles. *)
Lemma X2_witness_two_candles :
  List.length [F64.ofZ 7; F64.ofZ 3]
  = List.length [Script.candle "7"; Script.candle "3"].
Proof.
  refine (proj1 (X2_parseCloses_one_price_per_candle (fg := Script.foreign)
                   [Script.candle "7"; Script.candle "3"]
                   [F64.ofZ 7; F64.ofZ 3] _)).
  reflexivity.
Defined.

(** X3 on a candle of two fields after a candle that parses. *)
Lemma X3_witness_candle_of_two_fields :
  usecase.analyzePair "XBTUSDTM"
    (Script.withKlines [Ok [Script.candle "7"; ["1700000000000"; "1"]]])
  = (Panic, Script.idle,
     [LogPrintf "Analyzing %s..." [AStr "XBTUSDTM"];
      CallGetKlines "XBTUSDTM" 60 100
        (Ok [Script.candle "7"; ["1700000000000"; "1"]])]).
Proof.
  refine (proj1 (X3_short_candle_panics_the_scan (W := Script.World)
                   "XBTUSDTM" [Script.candle "7"] ["1700000000000"; "1"] []
                   [F64.ofZ 7]
                   (Script.withKlines
                      [Ok [Script.candle "7"; ["1700000000000"; "1"]]])
                   Script.idle _ _ _)).
  - reflexivity.
  - reflexivity.
  - unfold len. cbn. lia.
Defined.

(** X4 on a golden cross: the newest close is 7 and the one before is 3. *)
Lemma X4_witness_golden_cross :
  exists klines c0 c1 more,
    usecase.GetKlines "XBTUSDTM" 60 100
      (Script.withKlines [Ok (Script.history "7" "3")])
    = (Ok klines, Script.idle) /\
    usecase.parseCloses klines = usecase.ClosesOk (c0 :: c1 :: more) /\
    26 <= len (c0 :: c1 :: more) /\
    domain.CurrentPrice (Script.asset "XBTUSDTM" 7 3) = c0 /\
    domain.Price1H (Script.asset "XBTUSDTM" 7 3) = c1.
Proof.
  eapply (X4_candidate_prices (W := Script.World) "XBTUSDTM"
            [Script.asset "XBTUSDTM" 7 3] []).
  - vm_compute. reflexivity.
  - now left.
Defined.

(** X5 on a universe of two pairs whose tasks are run in the other order;
    the first one run cannot be fetched. *)
Lemma X5_witness_two_pairs :
  exists ev,
    usecase.scanPairs ["ETHUSDTM"; "XBTUSDTM"] [] []
      (Script.withKlines [Err "timeout"; Ok (Script.history "7" "3")])
    = (Val ([Script.asset "XBTUSDTM" 7 3], []), Script.idle, ev) /\
    Permutation (klinesAsked ev)
      [("XBTUSDTM", 60, 100); ("ETHUSDTM", 60, 100)].
Proof.
  eexists.
  refine ((fun H => conj H
             (proj1 (X5_scan_asks_once_per_pair (W := Script.World)
                       ["XBTUSDTM"; "ETHUSDTM"] ["ETHUSDTM"; "XBTUSDTM"]
                       _ _ _ _ _ _ _ (perm_swap _ _ _) H))) _).
  vm_compute. reflexivity.
Defined.

(** X7 on a universe of one pair with a golden cross. *)
Lemma X7_witness_one_pair :
  exists ev,
    usecase.AnalyzeTrends
      (Script.mkWorld [Ok ["XBTUSDTM"]] [] []
         [Ok (Script.history "7" "3")] [Ok "long"] [])
    = (Val tt, Script.idle, ev) /\
    exists pairs w1,
      usecase.GetTop20USDTpairsByVolume
        (Script.mkWorld [Ok ["XBTUSDTM"]] [] []
           [Ok (Script.history "7" "3")] [Ok "long"] [])
      = (Ok pairs, w1) /\
      Permutation (klinesAsked ev) (map (fun p => (p, 60, 100)) pairs) /\
      (List.length (filter isAsk ev) <= 2)%nat.
Proof.
  eexists.
  refine ((fun H => conj H
             (X7_AnalyzeTrends_outcomes (W := Script.World) _ _ _ _ H)) _).
  vm_compute. reflexivity.
Defined.

(** X8 on a ticker that times out. *)
Lemma X8_witness_ticker_timeout :
  usecase.ExecuteTrade 0 "XBTUSDTM" "buy" (F64.ofZ 1000) true
    (Script.withExchange [Err "timeout"] [])
  = Some (Val tt, Script.idle,
          [LogPrintf
             "Starting trade execution for %s, side: %s, amount: %.2f USD"
             [AStr "XBTUSDTM"; AStr "buy"; AF64 (F64.ofZ 1000)];
           CallGetCurrentPrice "XBTUSDTM" (Err "timeout");
           LogPrintf "Failed to get current price for %s: %v"
             [AStr "XBTUSDTM"; AErr "timeout"]]).
Proof.
  apply (proj1 (proj2 (X8_failed_entry_aborts_the_trade (W := Script.World)
                         0 "XBTUSDTM" "buy" (F64.ofZ 1000)))).
  - now left.
  - reflexivity.
Defined.

(** X9, X10 and X11 on a whole trade: entry at 100, a fetch that fails, an
    exit order that is rejected at 102, a price below the target, and the
    exit at 103. *)
Lemma X9_witness_whole_trade :
  exists res w' ev,
    usecase.ExecuteTrade 4 "XBTUSDTM" "buy" (F64.ofZ 1000) true
      (Script.withExchange
         [Ok (F64.ofZ 100); Err "timeout"; Ok (F64.ofZ 102);
          Ok (F64.ofZ 100); Ok (F64.ofZ 103)]
         [Ok "1"; Err "rejected"; Ok "2"])
    = Some (res, w', ev) /\
    res = Val tt.
Proof.
  do 3 eexists.
  refine ((fun H => conj H
             (X9_ExecuteTrade_only_returns (W := Script.World)
                _ _ _ _ _ _ _ _ _ H)) _).
  vm_compute. reflexivity.
Defined.


Lemma X11_witness_whole_trade :
  exists ev,
    usecase.ExecuteTrade 4 "XBTUSDTM" "buy" (F64.ofZ 1000) true
      (Script.withExchange
         [Ok (F64.ofZ 100); Err "timeout"; Ok (F64.ofZ 102);
          Ok (F64.ofZ 100); Ok (F64.ofZ 103)]
         [Ok "1"; Err "rejected"; Ok "2"])
    = Some (Val tt, Script.idle, ev) /\
    exists n,
      (n <= 4)%nat /\
      filter isSleep ev = repeat (Sleep 30) n /\
      (List.length (filter isPriceCall ev) <= n + 1)%nat /\
      (List.length (filter isOrder ev) <= n + 1)%nat.
Proof.
  eexists.
  refine ((fun H => conj H
             (X11_polling_discipline (W := Script.World)
                _ _ _ _ _ _ _ _ _ H)) _).
  vm_compute. reflexivity.
Defined.

(** X14 on the listing of the runs: three of its six contracts are open,
    listed and quoted in USDT. *)
Lemma X14_witness_listing :
  kucoin.GetTop20USDTpairsByVolume
    (gateway.NewKuCoinGateway (fun _ fallback => fallback))
    (Script.withBodies [Ok "200000"])
  = (Ok ["ETHUSDTM"; "XBTUSDTM"; "DOTUSDTM"], Script.idle) /\
  (List.length ["ETHUSDTM"; "XBTUSDTM"; "DOTUSDTM"] <= 20)%nat.
Proof.
  refine ((fun H => conj H
             (proj1 (X14_universe_has_at_most_20_symbols
                       (W := Script.World) _ _ _ _ H))) _).
  vm_compute. reflexivity.
Defined.

(** X15 on the listing of the runs, under the insertion sort. *)
Lemma X15_witness_listing :
  exists kept : list (string * float),
    kucoin.GetTop20USDTpairsByVolume
      (gateway.NewKuCoinGateway (fun _ fallback => fallback))
      (Script.withBodies [Ok "200000"])
    = (Ok (map fst kept), Script.idle) /\
    List.length kept = 3%nat.
Proof.
  destruct (X15_universe_is_the_top_of_the_volume_ranking
              (W := Script.World)
              (gateway.NewKuCoinGateway (fun _ fallback => fallback))
              "200000"
              (kucoin.mkFuturesContractsResponse "200000" Wire.listing)
              (Script.withBodies [Ok "200000"]) Script.idle)
    as (kept & dropped & Hrun & _ & Hlen & _).
  - reflexivity.
  - reflexivity.
  - reflexivity.
  - vm_compute. apply perm_swap.
  - vm_compute. repeat constructor.
  - exists kept. split; [exact Hrun | exact Hlen].
Defined.

(** X16 on an order that the exchange accepts. *)
Lemma X16_witness_accepted_order :
  kucoin.CreateOrder (gateway.NewKuCoinGateway (fun _ fallback => fallback))
    "XBTUSDTM" "buy" "market" "10" (Script.withBodies [Ok "200000"])
  = (Ok "order-1", Script.idle).
Proof.
  apply (proj2 (X16_CreateOrder_success (W := Script.World)
                  (gateway.NewKuCoinGateway (fun _ fallback => fallback))
                  "XBTUSDTM" "buy" "market" "10" "order-1"
                  (Script.withBodies [Ok "200000"]) Script.idle)).
  exists 1700000000000000000, (Script.withBodies [Ok "200000"]),
    "%d,XBTUSDTM,buy,market,1,10", 1700000000000,
    (Script.withBodies [Ok "200000"]), "200000", "rejected".
  repeat (split; [reflexivity | ]). reflexivity.
Defined.

(** X17 on a gateway without a key. *)
Lemma X17_witness_no_key :
  exists err,
    openai.AskAboutAssets (openai.NewOpenAIGateway (fun _ fallback => fallback))
      ["XBTUSDTM"] "buy" (Script.withBodies [Ok "long"])
    = (Err err, Script.withBodies [Ok "long"]).
Proof.
  destruct (X17_AskAboutAssets_refuses_before_sending (W := Script.World)
              (openai.NewOpenAIGateway (fun _ fallback => fallback))
              ["XBTUSDTM"] "buy" (Script.withBodies [Ok "long"]))
    as (err & Hrun & _).
  - left. reflexivity.
  - exists err. exact Hrun.
Defined.

(** X18 on a response without any choice. *)
Lemma X18_witness_no_choice :
  openai.AskAboutAssets (openai.mkOpenAIGateway "key" "https://api.openai.com/v1")
    ["XBTUSDTM"] "sell" (Script.withBodies [Ok ""])
  = (Ok "No response from OpenAI.", Script.idle).
Proof.
  apply (proj2 (X18_AskAboutAssets_answer (W := Script.World)
                  (openai.mkOpenAIGateway "key" "https://api.openai.com/v1")
                  ["XBTUSDTM"] "sell" "No response from OpenAI."
                  (Script.withBodies [Ok ""]) Script.idle)).
  split; [discriminate | ].
  eexists. exists (openai.promptSell ++ nl ++ nl ++ "%s")%string, "".
  eexists.
  split; [right; split; reflexivity | ].
  repeat (split; [reflexivity | ]). reflexivity.
Defined.

(** X19 on an exchange that refuses every ticker lookup and order. *)
Lemma X19_witness_read_only_exchange :
  usecase.AnalyzeTrends (kg := Script.kucoin)
    (Script.mkWorld [Ok ["XBTUSDTM"]] [] []
       [Ok (Script.history "7" "3")] [Ok "long"] [])
  = usecase.AnalyzeTrends (kg := Wire.readOnly)
      (Script.mkWorld [Ok ["XBTUSDTM"]] [] []
         [Ok (Script.history "7" "3")] [Ok "long"] []).
Proof.
  apply (proj1 (X19_modes_use_disjoint_exchange_operations
                  (W := Script.World) Script.kucoin Wire.readOnly
                  Script.openai));
    intros; reflexivity.
Defined.

(** X20 on the default flags with the trade flag set. *)
Lemma X20_witness_trade_flag_alone :
  cmd.main (en := Wire.environ [] false) 0
    (cmd.mkFlags true "BTC-USDT" "buy" (F64.ofZ 10) false)
    (Script.withBodies [Ok "200000"])
  = Some (Val tt, Script.withBodies [Ok "200000"],
          [LogPrintln "No .env file found, using environment variables";
           LogPrintln "--- Trade Mode ---";
           LogPrintln
             "Execute flag is not set. Exiting trade execution (Dry Run)."]).
Proof.
  apply (X20_trade_without_execute_sends_nothing (W := Script.World)
           (en := Wire.environ [] false) 0
           (cmd.mkFlags true "BTC-USDT" "buy" (F64.ofZ 10) false)
           (Script.withBodies [Ok "200000"]));
    reflexivity.
Defined.

(** X21 on the default flags, without any variable in the environment,
    against a transport that refuses every POST. *)
Lemma X21_witness_no_variables :
  cmd.main (tr := Script.transport) (en := Wire.environ [] false) 0
    cmd.defaults (Script.withBodies [Ok "200000"; Ok "200000"])
  = cmd.main (tr := Wire.getOnly) (en := Wire.environ [] false) 0
      cmd.defaults (Script.withBodies [Ok "200000"; Ok "200000"]).
Proof.
  apply (X21_analysis_without_a_key_only_sends_GET (W := Script.World)
           Script.transport Wire.getOnly (en := Wire.environ [] false) 0
           cmd.defaults (Script.withBodies [Ok "200000"; Ok "200000"])).
  - reflexivity.
  - left. reflexivity.
  - intros. reflexivity.
Defined.

(** X22 on two environments that differ in the key of the exchange. *)
Lemma X22_witness_exchange_key :
  cmd.main (en := Wire.environ [("KUCOIN_API_KEY", "key")] true) 0
    cmd.defaults (Script.withBodies [Ok "200000"; Ok "200000"])
  = cmd.main (en := Wire.environ [] true) 0
      cmd.defaults (Script.withBodies [Ok "200000"; Ok "200000"]).
Proof.
  apply (X22_analysis_ignores_the_exchange_credentials (W := Script.World)
           (Wire.environ [("KUCOIN_API_KEY", "key")] true)
           (Wire.environ [] true) 0
           cmd.defaults (Script.withBodies [Ok "200000"; Ok "200000"]));
    reflexivity.
Defined.
